(** * Anjay LwM2M client: server registration and connection lifecycle

    A shallow embedding of the registration core of Anjay
    ([src/servers_utils.c], [src/utils_core.c] with the registration code
    that follows it, [modules/server/src/server_transaction.c]) and the
    properties its specification states about it.

    C integers are embedded in [Z]; C strings are [string] values (the
    terminating NUL is implicit); a nullable pointer is an [option];
    [struct]s are records and [enum]s are inductive types.  Functions
    that mutate an object through a pointer return the updated object. *)

From Stdlib Require Import ZArith List Bool Lia String Ascii.
From Stdlib Require Import Sorting.Mergesort Sorting.Sorted Sorting.Permutation.
From Stdlib Require Import Orders.
Import ListNotations.

Local Open Scope string_scope.
Local Open Scope Z_scope.

(** ** Machine integers *)

Definition INT64_MAX : Z := 9223372036854775807.
Definition INT64_MIN : Z := - 9223372036854775808.

Definition in_int64 (z : Z) : bool := (INT64_MIN <=? z) && (z <=? INT64_MAX).

(** ** Time values of avs_commons

    [avs_time_duration_t] and [avs_time_real_t] with the operations the
    registration code calls.  avs_commons is a library of its own; its
    functions are written here after their documented behaviour.  A
    duration is valid when its nanosecond part lies in [0, 10^9); every
    operation answers [AVS_TIME_DURATION_INVALID] on an invalid operand
    or when the seconds leave the 64-bit range. *)
Module AvsTime.

Record avs_time_duration_t : Type := mk_duration {
  seconds : Z;
  nanoseconds : Z
}.

Record avs_time_real_t : Type := mk_real {
  since_real_epoch : avs_time_duration_t
}.

Inductive avs_time_unit_t : Type :=
| AVS_TIME_DAY | AVS_TIME_HOUR | AVS_TIME_MIN | AVS_TIME_S
| AVS_TIME_MS | AVS_TIME_US | AVS_TIME_NS.

Definition NS_IN_S : Z := 1000000000.

Definition AVS_TIME_DURATION_ZERO : avs_time_duration_t := mk_duration 0 0.
Definition AVS_TIME_DURATION_INVALID : avs_time_duration_t := mk_duration 0 (-1).
Definition AVS_TIME_REAL_INVALID : avs_time_real_t :=
  mk_real AVS_TIME_DURATION_INVALID.

Definition avs_time_duration_valid (d : avs_time_duration_t) : bool :=
  (0 <=? nanoseconds d) && (nanoseconds d <? NS_IN_S).

Definition avs_time_real_valid (t : avs_time_real_t) : bool :=
  avs_time_duration_valid (since_real_epoch t).

(** The length of a valid duration in nanoseconds. *)
Definition to_ns (d : avs_time_duration_t) : Z :=
  seconds d * NS_IN_S + nanoseconds d.

(** Brings the nanosecond part back into [0, 10^9), carrying into the
    seconds; invalid when the seconds no longer fit 64 bits. *)
Definition normalize (s ns : Z) : avs_time_duration_t :=
  let s' := s + ns / NS_IN_S in
  if in_int64 s' then mk_duration s' (ns mod NS_IN_S)
  else AVS_TIME_DURATION_INVALID.

Definition avs_time_duration_less (a b : avs_time_duration_t) : bool :=
  avs_time_duration_valid a && avs_time_duration_valid b
  && ((seconds a <? seconds b)
      || ((seconds a =? seconds b) && (nanoseconds a <? nanoseconds b))).

Definition unit_ns (u : avs_time_unit_t) : Z :=
  match u with
  | AVS_TIME_DAY => 86400 * NS_IN_S
  | AVS_TIME_HOUR => 3600 * NS_IN_S
  | AVS_TIME_MIN => 60 * NS_IN_S
  | AVS_TIME_S => NS_IN_S
  | AVS_TIME_MS => 1000000
  | AVS_TIME_US => 1000
  | AVS_TIME_NS => 1
  end.

Definition avs_time_duration_from_scalar (value : Z) (u : avs_time_unit_t)
  : avs_time_duration_t :=
  normalize 0 (value * unit_ns u).

Definition avs_time_duration_diff (minuend subtrahend : avs_time_duration_t)
  : avs_time_duration_t :=
  if avs_time_duration_valid minuend && avs_time_duration_valid subtrahend
  then normalize (seconds minuend - seconds subtrahend)
                 (nanoseconds minuend - nanoseconds subtrahend)
  else AVS_TIME_DURATION_INVALID.

(** Division truncates as C does: the seconds are divided first and the
    remainder is carried into the nanoseconds. *)
Definition avs_time_duration_div (dividend : avs_time_duration_t) (divisor : Z)
  : avs_time_duration_t :=
  if avs_time_duration_valid dividend && negb (divisor =? 0)
  then let s_rest := Z.rem (seconds dividend) divisor in
       normalize (Z.quot (seconds dividend) divisor)
                 (Z.quot (nanoseconds dividend + s_rest * NS_IN_S) divisor)
  else AVS_TIME_DURATION_INVALID.

Definition avs_time_real_diff (a b : avs_time_real_t) : avs_time_duration_t :=
  avs_time_duration_diff (since_real_epoch a) (since_real_epoch b).

Definition avs_time_real_add (t : avs_time_real_t) (d : avs_time_duration_t)
  : avs_time_real_t :=
  if avs_time_real_valid t && avs_time_duration_valid d
  then mk_real (normalize (seconds (since_real_epoch t) + seconds d)
                          (nanoseconds (since_real_epoch t) + nanoseconds d))
  else AVS_TIME_REAL_INVALID.

End AvsTime.
Import AvsTime.

(** ** Connection types and modes *)

Inductive anjay_connection_type_t : Type :=
| ANJAY_CONNECTION_UDP
| ANJAY_CONNECTION_SMS
| ANJAY_CONNECTION_UNSET.

Inductive anjay_server_connection_mode_t : Type :=
| ANJAY_CONNECTION_DISABLED
| ANJAY_CONNECTION_ONLINE
| ANJAY_CONNECTION_QUEUE.

Definition conn_type_eqb (a b : anjay_connection_type_t) : bool :=
  match a, b with
  | ANJAY_CONNECTION_UDP, ANJAY_CONNECTION_UDP
  | ANJAY_CONNECTION_SMS, ANJAY_CONNECTION_SMS
  | ANJAY_CONNECTION_UNSET, ANJAY_CONNECTION_UNSET => true
  | _, _ => false
  end.

(** ** Binding modes ([utils_core.c], [servers_utils.c]) *)
Module Binding.

Definition NUL : ascii := Ascii.zero.

(** [strchr(s, c)] for a character [c] other than NUL: the suffix of
    [s] that starts at the first [c], or a null pointer. *)
Fixpoint strchr (s : string) (c : ascii) : option string :=
  match s with
  | EmptyString => None
  | String a rest => if Ascii.eqb a c then Some s else strchr rest c
  end.

(** [p[i]] on a C string: past the last character sits the NUL. *)
Definition char_at (p : string) (i : nat) : ascii :=
  match String.get i p with
  | Some c => c
  | None => NUL
  end.

Definition VALID_BINDINGS : list string :=
  ["U"; "UQ"; "S"; "SQ"; "US"; "UQS"].

Definition anjay_binding_mode_valid (binding_mode : string) : bool :=
  existsb (fun valid => String.eqb binding_mode valid) VALID_BINDINGS.

Definition _anjay_get_connection_mode (binding_mode : string)
    (conn_type : anjay_connection_type_t) : anjay_server_connection_mode_t :=
  match (match conn_type with
         | ANJAY_CONNECTION_UDP => Some "U"%char
         | ANJAY_CONNECTION_SMS => Some "S"%char
         | ANJAY_CONNECTION_UNSET => None
         end) with
  | None => ANJAY_CONNECTION_DISABLED
  | Some type_letter =>
      match strchr binding_mode type_letter with
      | None => ANJAY_CONNECTION_DISABLED
      | Some type_letter_ptr =>
          if Ascii.eqb (char_at type_letter_ptr 1) "Q"%char
          then ANJAY_CONNECTION_QUEUE
          else ANJAY_CONNECTION_ONLINE
      end
  end.

(** [avs_simple_snprintf(buf, size, "%s", str)]: the number of
    characters written, or a negative value when [str] and its NUL do
    not fit [size] bytes. *)
Definition avs_simple_snprintf (size : Z) (str : string) : Z :=
  let n := Z.of_nat (String.length str) in
  if n <? size then n else -1.

(** The output buffer of [binding_mode_from_connection_modes]: the text
    before [ptr] and the number of bytes between [ptr] and [endptr]. *)
Record cursor : Type := mk_cursor {
  written : string;
  room : Z
}.

Definition append_str (c : cursor) (str : string) : Z * cursor :=
  let result := avs_simple_snprintf (room c) str in
  if 0 <=? result
  then (0, mk_cursor (written c ++ str) (room c - result))
  else (result,
        mk_cursor (written c ++ String.substring 0 (Z.to_nat (room c - 1)) str)
                  (room c)).

(** Returns the status and the contents of [*out_binding_mode].
    [out_size] is [sizeof( *out_binding_mode)]: the declaration of
    [anjay_binding_mode_t] is not part of the sources. *)
Definition binding_mode_from_connection_modes (out_size : Z)
    (udp_mode sms_mode : anjay_server_connection_mode_t) : Z * string :=
  let c0 := mk_cursor "" out_size in
  let '(r1, c1) :=
    match udp_mode with
    | ANJAY_CONNECTION_ONLINE => append_str c0 "U"
    | ANJAY_CONNECTION_QUEUE => append_str c0 "UQ"
    | ANJAY_CONNECTION_DISABLED => (0, c0)
    end in
  if negb (r1 =? 0) then (-1, written c1)
  else
    let '(r2, c2) :=
      match sms_mode with
      | ANJAY_CONNECTION_ONLINE => append_str c1 "S"
      | ANJAY_CONNECTION_QUEUE => append_str c1 "SQ"
      | ANJAY_CONNECTION_DISABLED => (0, c1)
      end in
    if negb (r2 =? 0) then (-1, written c2)
    else (if anjay_binding_mode_valid (written c2) then 0 else -1, written c2).

End Binding.
Import Binding.

(** ** Validation of the Server object
    ([modules/server/src/server_transaction.c]) *)

(** The error codes of the public header, the negated CoAP codes 4.00,
    4.03 and 5.00. *)
Definition ANJAY_ERR_BAD_REQUEST : Z := -128.
Definition ANJAY_ERR_FORBIDDEN : Z := -131.
Definition ANJAY_ERR_INTERNAL : Z := -160.

(** The fields of [server_instance_t] that validation reads.  [binding]
    is a nullable [const char *]. *)
Record server_instance_data_t : Type := mk_instance_data {
  inst_ssid : Z;
  inst_binding : option string;
  inst_lifetime : Z;
  inst_default_max_period : Z
}.

Record server_instance_t : Type := mk_instance {
  iid : Z;
  has_ssid : bool;
  has_lifetime : bool;
  has_notification_storing : bool;
  data : server_instance_data_t
}.

(** Both operands are 16-bit and promoted to [int], so the difference
    does not wrap. *)
Definition ssid_cmp (a b : Z) : Z := a - b.

Definition validate_instance (it : server_instance_t) : Z :=
  if negb (has_ssid it) then -1
  else match inst_binding (data it) with
  | None => -1
  | Some binding =>
      if negb (has_lifetime it) then -1
      else if negb (has_notification_storing it) then -1
      else if inst_lifetime (data it) <=? 0 then -1
      else if inst_default_max_period (data it) =? 0 then -1
      else if negb (anjay_binding_mode_valid binding) then -1
      else 0
  end.

(** [AVS_LIST_SORT] is the stable merge sort of avs_commons; the order it
    sorts by is the one the comparator induces. *)
Module SsidOrder <: TotalLeBool.
Definition t : Type := Z.
Definition leb (a b : Z) : bool := ssid_cmp a b <=? 0.
Lemma leb_total : forall a b, leb a b = true \/ leb b a = true.
Proof. intros a b; unfold leb, ssid_cmp; lia. Qed.
End SsidOrder.

Module SsidSort := Sort SsidOrder.

Definition AVS_LIST_SORT (l : list Z) : list Z := SsidSort.sort l.

(** The [AVS_LIST_FOREACH] loop of [_anjay_serv_object_validate]:
    [alloc_ok n] tells whether the [n]-th [AVS_LIST_INSERT_NEW] of the
    call gets its memory; new SSIDs are put at the head of [seen_ssids]. *)
Fixpoint validate_collect (alloc_ok : nat -> bool) (n : nat)
    (its : list server_instance_t) (seen_ssids : list Z) : Z * list Z :=
  match its with
  | [] => (0, seen_ssids)
  | it :: rest =>
      if negb (validate_instance it =? 0) then (ANJAY_ERR_BAD_REQUEST, seen_ssids)
      else if negb (alloc_ok n) then (ANJAY_ERR_INTERNAL, seen_ssids)
      else validate_collect alloc_ok (S n) rest (inst_ssid (data it) :: seen_ssids)
  end.

(** The [while (next)] loop that looks for two equal neighbours. *)
Fixpoint find_duplicate (prev : Z) (next : list Z) : Z :=
  match next with
  | [] => 0
  | n :: rest =>
      if prev =? n then ANJAY_ERR_BAD_REQUEST else find_duplicate n rest
  end.

Definition _anjay_serv_object_validate (alloc_ok : nat -> bool)
    (instances : list server_instance_t) : Z :=
  match instances with
  | [] => 0
  | _ =>
      let '(result, seen_ssids) := validate_collect alloc_ok 0 instances [] in
      if result =? 0 then
        match AVS_LIST_SORT seen_ssids with
        | [] => result
        | prev :: next => find_duplicate prev next
        end
      else result
  end.

Definition _anjay_serv_transaction_validate_impl := _anjay_serv_object_validate.

(** ** Server entries ([servers/connection_info.h], [servers.h]) *)

(** A socket object: its address, which is what pointers to it compare
    by, and whether it is connected. *)
Record avs_net_abstract_socket_t : Type := mk_socket {
  socket_addr : Z;
  socket_connected : bool
}.

Record anjay_server_connection_nontransient_state_t : Type := mk_nontransient {
  preferred_endpoint : string;
  dtls_session_buffer : string;
  last_local_port : string
}.

Record anjay_server_connection_t : Type := mk_connection {
  conn_socket_ : option avs_net_abstract_socket_t;
  nontransient_state : anjay_server_connection_nontransient_state_t;
  mode : anjay_server_connection_mode_t;
  queue_mode_close_socket_clb_handle : option Z
}.

Record anjay_update_parameters_t : Type := mk_update_parameters {
  lifetime_s : Z;
  binding_mode : string
}.

Record anjay_registration_info_t : Type := mk_registration_info {
  endpoint_path : list string;
  last_update_params : anjay_update_parameters_t;
  expire_time : avs_time_real_t
}.

Record anjay_server_data_active_t : Type := mk_data_active {
  primary_conn_type : anjay_connection_type_t;
  udp_connection : anjay_server_connection_t;
  sms_connection : anjay_server_connection_t;
  registration_info : anjay_registration_info_t
}.

Record anjay_server_info_t : Type := mk_server {
  ssid : Z;
  next_action_handle : option Z;
  data_active : anjay_server_data_active_t
}.

(** A job waiting in the scheduler: the handle that names it, its delay
    and the SSID that [send_update_sched_job] will receive. *)
Record anjay_sched_job_t : Type := mk_job {
  job_handle : Z;
  job_delay : avs_time_duration_t;
  job_ssid : Z
}.

(** [sched_oom] lists the outcomes of the coming allocations of the
    scheduler ([true]: out of memory); once it is used up, allocations
    succeed. *)
Record anjay_sched_t : Type := mk_sched {
  sched_jobs : list anjay_sched_job_t;
  sched_next_handle : Z;
  sched_oom : list bool
}.

(** The transmission parameters of a transport, reduced to what the
    registration code reads from them: [avs_coap_max_transmit_wait]. *)
Record avs_coap_tx_params_t : Type := mk_tx_params {
  max_transmit_wait : avs_time_duration_t
}.

(** What the code does to its collaborators, in the order of the calls. *)
Inductive anjay_call_t : Type :=
| CALL_UPDATE (server_ssid : Z)
| CALL_REGISTER (server_ssid : Z)
| CALL_DEREGISTER (path : list string)
| CALL_SETUP_PRIMARY_CONNECTION (server_ssid : Z)
| CALL_BIND_STREAM (server_ssid : Z) (conn_type : anjay_connection_type_t)
| CALL_RELEASE_STREAM
| CALL_BOOTSTRAP_NOTIFY
| CALL_SCHEDULE_RELOAD (server_ssid : Z).

(** The part of [anjay_t] the registration code works on.  [clock] is
    the value of [avs_time_real_now()]; [current_connection] is the
    connection the shared stream is bound to; [calls] is the record of
    the calls made so far, oldest first. *)
Record anjay_t : Type := mk_anjay {
  sched : anjay_sched_t;
  servers : list anjay_server_info_t;
  offline : bool;
  clock : avs_time_real_t;
  tx_params_for_conn_type : anjay_connection_type_t -> avs_coap_tx_params_t;
  current_connection : option (Z * anjay_connection_type_t);
  calls : list anjay_call_t
}.

(** *** Field updates *)

Definition set_conn_socket (c : anjay_server_connection_t)
    (s : option avs_net_abstract_socket_t) : anjay_server_connection_t :=
  mk_connection s (nontransient_state c) (mode c)
                (queue_mode_close_socket_clb_handle c).

Definition set_expire_time (server : anjay_server_info_t) (t : avs_time_real_t)
    : anjay_server_info_t :=
  let active := data_active server in
  let info := registration_info active in
  mk_server (ssid server) (next_action_handle server)
    (mk_data_active (primary_conn_type active) (udp_connection active)
       (sms_connection active)
       (mk_registration_info (endpoint_path info) (last_update_params info) t)).

Definition set_next_action_handle (server : anjay_server_info_t)
    (h : option Z) : anjay_server_info_t :=
  mk_server (ssid server) h (data_active server).

Definition set_udp_connection (server : anjay_server_info_t)
    (c : anjay_server_connection_t) : anjay_server_info_t :=
  let active := data_active server in
  mk_server (ssid server) (next_action_handle server)
    (mk_data_active (primary_conn_type active) c (sms_connection active)
       (registration_info active)).

Definition set_sms_connection (server : anjay_server_info_t)
    (c : anjay_server_connection_t) : anjay_server_info_t :=
  let active := data_active server in
  mk_server (ssid server) (next_action_handle server)
    (mk_data_active (primary_conn_type active) (udp_connection active) c
       (registration_info active)).

Definition set_sched (anjay : anjay_t) (s : anjay_sched_t) : anjay_t :=
  mk_anjay s (servers anjay) (offline anjay) (clock anjay)
    (tx_params_for_conn_type anjay) (current_connection anjay) (calls anjay).

Definition set_servers (anjay : anjay_t) (l : list anjay_server_info_t)
    : anjay_t :=
  mk_anjay (sched anjay) l (offline anjay) (clock anjay)
    (tx_params_for_conn_type anjay) (current_connection anjay) (calls anjay).

Definition set_current_connection (anjay : anjay_t)
    (c : option (Z * anjay_connection_type_t)) : anjay_t :=
  mk_anjay (sched anjay) (servers anjay) (offline anjay) (clock anjay)
    (tx_params_for_conn_type anjay) c (calls anjay).

Definition log_call (anjay : anjay_t) (c : anjay_call_t) : anjay_t :=
  mk_anjay (sched anjay) (servers anjay) (offline anjay) (clock anjay)
    (tx_params_for_conn_type anjay) (current_connection anjay)
    (calls anjay ++ [c])%list.

(** *** Connections ([servers/connection_info.c]) *)

(** Modelled from the spec: [_anjay_get_server_connection], absent from
    the sources; the Connection State of the transport, none for
    [ANJAY_CONNECTION_UNSET]. *)
Definition _anjay_get_server_connection (server : anjay_server_info_t)
    (conn_type : anjay_connection_type_t) : option anjay_server_connection_t :=
  match conn_type with
  | ANJAY_CONNECTION_UDP => Some (udp_connection (data_active server))
  | ANJAY_CONNECTION_SMS => Some (sms_connection (data_active server))
  | ANJAY_CONNECTION_UNSET => None
  end.

(** Modelled from the spec: [_anjay_connection_internal_get_socket],
    declared in [connection_info.h] and defined outside the sources; the
    socket the connection owns, if any. *)
Definition _anjay_connection_internal_get_socket
    (connection : anjay_server_connection_t)
    : option avs_net_abstract_socket_t :=
  conn_socket_ connection.

(** Modelled from the spec: [_anjay_connection_is_online], declared in
    [connection_info.h] and defined outside the sources; the socket
    exists and is "online (ready for communication)". *)
Definition _anjay_connection_is_online
    (connection : anjay_server_connection_t) : bool :=
  match _anjay_connection_internal_get_socket connection with
  | Some socket => socket_connected socket
  | None => false
  end.

(** Modelled from the spec: [_anjay_connection_get_online_socket], absent
    from the sources; the socket of the connection when it is online, a
    null pointer otherwise.  The result is the socket's address. *)
Definition _anjay_connection_get_online_socket (server : anjay_server_info_t)
    (conn_type : anjay_connection_type_t) : option Z :=
  match _anjay_get_server_connection server conn_type with
  | Some connection =>
      if _anjay_connection_is_online connection
      then option_map socket_addr (conn_socket_ connection)
      else None
  | None => None
  end.

(** Modelled from the spec: [_anjay_server_active], absent from the
    sources; an entry is active when some transport of it has a socket,
    connected or not ("the server is still considered active if it has a
    created, but disconnected socket"). *)
Definition _anjay_server_active (server : anjay_server_info_t) : bool :=
  match conn_socket_ (udp_connection (data_active server)),
        conn_socket_ (sms_connection (data_active server)) with
  | None, None => false
  | _, _ => true
  end.

(** Modelled from the spec: the suspension of one connection, absent
    from the sources; the socket is disconnected and stays with the
    connection, as does the state that outlives a socket. *)
Definition connection_suspend (connection : anjay_server_connection_t)
    : anjay_server_connection_t :=
  match conn_socket_ connection with
  | Some socket =>
      set_conn_socket connection (Some (mk_socket (socket_addr socket) false))
  | None => connection
  end.

(** Modelled from the spec: [_anjay_connection_suspend], absent from the
    sources; "disconnects socket(s) without destroying
    [nontransient_state]", one transport or, for
    [ANJAY_CONNECTION_UNSET], all transports of the server. *)
Definition _anjay_connection_suspend (server : anjay_server_info_t)
    (conn_type : anjay_connection_type_t) : anjay_server_info_t :=
  let active := data_active server in
  match conn_type with
  | ANJAY_CONNECTION_UDP =>
      set_udp_connection server (connection_suspend (udp_connection active))
  | ANJAY_CONNECTION_SMS =>
      set_sms_connection server (connection_suspend (sms_connection active))
  | ANJAY_CONNECTION_UNSET =>
      set_sms_connection
        (set_udp_connection server (connection_suspend (udp_connection active)))
        (connection_suspend (sms_connection active))
  end.

(** ** The server registry ([servers_utils.c]) *)

(** The two answers of a [foreach] handler; their values come from a
    header outside the sources. *)
Definition ANJAY_FOREACH_CONTINUE : Z := 0.
Definition ANJAY_FOREACH_BREAK : Z := -2147483648.

Definition ANJAY_SSID_ANY : Z := 0.

(** Modelled from the spec: [_anjay_server_ssid], absent from the
    sources; the Short Server ID of the entry. *)
Definition _anjay_server_ssid (server : anjay_server_info_t) : Z := ssid server.

(** Modelled from the spec: [_anjay_servers_foreach_active], absent from
    the sources; "iterate-active (supports early termination)": the
    handler runs on the active entries in registry order, a break ends the
    walk with success and any other non-zero result ends it with that
    result. *)
Fixpoint foreach_active {A : Type} (its : list anjay_server_info_t)
    (handler : anjay_server_info_t -> A -> Z * A) (args : A) : Z * A :=
  match its with
  | [] => (0, args)
  | it :: rest =>
      if negb (_anjay_server_active it) then foreach_active rest handler args
      else
        let '(result, args') := handler it args in
        if result =? ANJAY_FOREACH_BREAK then (0, args')
        else if negb (result =? 0) then (result, args')
        else foreach_active rest handler args'
  end.

Definition _anjay_servers_foreach_active {A : Type} (anjay : anjay_t)
    (handler : anjay_server_info_t -> A -> Z * A) (args : A) : Z * A :=
  foreach_active (servers anjay) handler args.

Definition ptr_eqb (p q : option Z) : bool :=
  match p, q with
  | Some a, Some b => a =? b
  | None, None => true
  | _, _ => false
  end.

Record find_by_udp_socket_args_t : Type := mk_find_by_udp_socket_args {
  arg_socket : option Z;
  arg_out : option anjay_server_info_t
}.

Definition find_by_udp_socket_clb (server : anjay_server_info_t)
    (args : find_by_udp_socket_args_t) : Z * find_by_udp_socket_args_t :=
  if ptr_eqb (_anjay_connection_get_online_socket server ANJAY_CONNECTION_UDP)
             (arg_socket args)
  then (ANJAY_FOREACH_BREAK,
        mk_find_by_udp_socket_args (arg_socket args) (Some server))
  else (ANJAY_FOREACH_CONTINUE, args).

Definition _anjay_servers_find_by_udp_socket (anjay : anjay_t)
    (socket : option Z) : option anjay_server_info_t :=
  let arg := mk_find_by_udp_socket_args socket None in
  let '(result, arg') :=
    _anjay_servers_foreach_active anjay find_by_udp_socket_clb arg in
  if negb (result =? 0) then None else arg_out arg'.

Record find_active_args_t : Type := mk_find_active_args {
  arg_ssid : Z;
  arg_found : option anjay_server_info_t
}.

Definition find_active_clb (server : anjay_server_info_t)
    (args : find_active_args_t) : Z * find_active_args_t :=
  if _anjay_server_ssid server =? arg_ssid args
  then (ANJAY_FOREACH_BREAK, mk_find_active_args (arg_ssid args) (Some server))
  else (ANJAY_FOREACH_CONTINUE, args).

Definition _anjay_servers_find_active (anjay : anjay_t) (ssid : Z)
    : option anjay_server_info_t :=
  let arg := mk_find_active_args ssid None in
  let '(result, arg') := _anjay_servers_foreach_active anjay find_active_clb arg in
  if negb (result =? 0) then None else arg_found arg'.

(** A server found by [_anjay_servers_find_active] is a pointer into the
    registry: what a callee changes in it is stored in the first active
    entry with that SSID. *)
Fixpoint store_active (its : list anjay_server_info_t) (ssid : Z)
    (server' : anjay_server_info_t) : list anjay_server_info_t :=
  match its with
  | [] => []
  | it :: rest =>
      if _anjay_server_active it && (_anjay_server_ssid it =? ssid)
      then server' :: rest
      else it :: store_active rest ssid server'
  end.

(** *** Registration expiry *)

Definition _anjay_server_registration_info (server : anjay_server_info_t)
    : anjay_registration_info_t :=
  registration_info (data_active server).

(** Modelled from the spec: [_anjay_register_time_remaining], absent from
    the sources; the time left until [expire_time], counted from the
    current real time. *)
Definition _anjay_register_time_remaining (anjay : anjay_t)
    (info : anjay_registration_info_t) : avs_time_duration_t :=
  avs_time_real_diff (expire_time info) (clock anjay).

Definition _anjay_server_registration_expired (anjay : anjay_t)
    (server : anjay_server_info_t) : bool :=
  let registration_info := _anjay_server_registration_info server in
  let remaining := _anjay_register_time_remaining anjay registration_info in
  if negb (avs_time_duration_less AVS_TIME_DURATION_ZERO remaining)
  then true
  else false.

(** ** The Update scheduler (second part of [utils_core.c]) *)

Definition ANJAY_UPDATE_INTERVAL_MARGIN_FACTOR : Z := 2.
Definition ANJAY_MIN_UPDATE_INTERVAL_S : Z := 1.

(** Modelled from the spec: [_anjay_sched_del], absent from the sources;
    "cancel(handle) (idempotent)", "cancel-of-absent is a no-op": the job
    the handle names leaves the queue and the handle is cleared. *)
Definition _anjay_sched_del (s : anjay_sched_t) (handle : option Z)
    : anjay_sched_t * option Z :=
  match handle with
  | None => (s, None)
  | Some h =>
      (mk_sched (filter (fun j => negb (job_handle j =? h)) (sched_jobs s))
                (sched_next_handle s) (sched_oom s),
       None)
  end.

(** Modelled from the spec: [_anjay_servers_schedule_first_retryable],
    absent from the sources; "schedule_retryable(...)": a new job for
    [send_update_sched_job] with the given delay and SSID enters the queue
    and its handle is stored in [server->next_action_handle]; nothing is
    cancelled here. *)
Definition _anjay_servers_schedule_first_retryable (s : anjay_sched_t)
    (server : anjay_server_info_t) (delay : avs_time_duration_t) (ssid : Z)
    : Z * anjay_sched_t * anjay_server_info_t :=
  match sched_oom s with
  | true :: oom =>
      (-1, mk_sched (sched_jobs s) (sched_next_handle s) oom, server)
  | oom =>
      let h := sched_next_handle s in
      (0,
       mk_sched (sched_jobs s ++ [mk_job h delay ssid])%list (h + 1) (tl oom),
       set_next_action_handle server (Some h))
  end.

Definition get_server_update_interval_margin (anjay : anjay_t)
    (server : anjay_server_info_t) : avs_time_duration_t :=
  let half_lifetime :=
    avs_time_duration_div
      (avs_time_duration_from_scalar
         (lifetime_s (last_update_params (registration_info (data_active server))))
         AVS_TIME_S)
      ANJAY_UPDATE_INTERVAL_MARGIN_FACTOR in
  let max_transmit_wait :=
    max_transmit_wait
      (tx_params_for_conn_type anjay (primary_conn_type (data_active server))) in
  if avs_time_duration_less half_lifetime max_transmit_wait
  then half_lifetime
  else max_transmit_wait.

Definition schedule_update (anjay : anjay_t) (server : anjay_server_info_t)
    (delay : avs_time_duration_t) : Z * anjay_t * anjay_server_info_t :=
  let '(result, s, server') :=
    _anjay_servers_schedule_first_retryable (sched anjay) server delay
                                            (ssid server) in
  (result, set_sched anjay s, server').

(** The value of [remaining] that [schedule_next_update] hands to
    [schedule_update]. *)
Definition next_update_delay (anjay : anjay_t) (server : anjay_server_info_t)
    : avs_time_duration_t :=
  let remaining :=
    _anjay_register_time_remaining anjay (registration_info (data_active server)) in
  let interval_margin := get_server_update_interval_margin anjay server in
  let remaining := avs_time_duration_diff remaining interval_margin in
  if seconds remaining <? ANJAY_MIN_UPDATE_INTERVAL_S
  then avs_time_duration_from_scalar ANJAY_MIN_UPDATE_INTERVAL_S AVS_TIME_S
  else remaining.

Definition schedule_next_update (anjay : anjay_t) (server : anjay_server_info_t)
    : Z * anjay_t * anjay_server_info_t :=
  schedule_update anjay server (next_update_delay anjay server).

Definition _anjay_server_primary_connection_valid
    (server : anjay_server_info_t) : bool :=
  negb (conn_type_eqb (primary_conn_type (data_active server))
                      ANJAY_CONNECTION_UNSET)
  && negb (ptr_eqb (_anjay_connection_get_online_socket server
                      (primary_conn_type (data_active server)))
                   None).

Definition _anjay_server_reschedule_update_job (anjay : anjay_t)
    (server : anjay_server_info_t) : Z * anjay_t * anjay_server_info_t :=
  let '(s, h) := _anjay_sched_del (sched anjay) (next_action_handle server) in
  let anjay := set_sched anjay s in
  let server := set_next_action_handle server h in
  let '(result, anjay, server) := schedule_next_update anjay server in
  if negb (result =? 0) then (-1, anjay, server) else (0, anjay, server).

Definition reschedule_update_for_server (anjay : anjay_t)
    (server : anjay_server_info_t) : Z * anjay_t * anjay_server_info_t :=
  let '(s, h) := _anjay_sched_del (sched anjay) (next_action_handle server) in
  let anjay := set_sched anjay s in
  let server := set_next_action_handle server h in
  let '(result, anjay, server) :=
    schedule_update anjay server AVS_TIME_DURATION_ZERO in
  if negb (result =? 0) then (-1, anjay, server) else (0, anjay, server).

(** The [AVS_LIST_FOREACH] loop of [reschedule_update_for_all_servers];
    the entries are returned as the loop leaves them. *)
Fixpoint reschedule_update_loop (anjay : anjay_t)
    (its : list anjay_server_info_t) (result : Z)
    : Z * anjay_t * list anjay_server_info_t :=
  match its with
  | [] => (result, anjay, [])
  | it :: rest =>
      if _anjay_server_active it then
        let '(partial, anjay, it) := reschedule_update_for_server anjay it in
        let result := if result =? 0 then partial else result in
        let '(result, anjay, rest) := reschedule_update_loop anjay rest result in
        (result, anjay, it :: rest)
      else
        let '(result, anjay, rest) := reschedule_update_loop anjay rest result in
        (result, anjay, it :: rest)
  end.

Definition reschedule_update_for_all_servers (anjay : anjay_t) : Z * anjay_t :=
  let '(result, anjay', its) :=
    reschedule_update_loop anjay (servers anjay) 0 in
  (result, set_servers anjay' its).

(** Modelled from the spec: [anjay_is_offline], absent from the sources;
    whether the client has been put offline. *)
Definition anjay_is_offline (anjay : anjay_t) : bool := offline anjay.

Definition anjay_schedule_registration_update (anjay : anjay_t) (ssid : Z)
    : Z * anjay_t :=
  if anjay_is_offline anjay then (-1, anjay)
  else if ssid =? ANJAY_SSID_ANY then reschedule_update_for_all_servers anjay
  else match _anjay_servers_find_active anjay ssid with
       | None => (-1, anjay)
       | Some server =>
           let '(result, anjay', server') :=
             reschedule_update_for_server anjay server in
           (result, set_servers anjay' (store_active (servers anjay) ssid server'))
       end.

(** The same for [_anjay_server_reschedule_update_job], called on the
    active entry with the given SSID as [perform_registration_action]
    does after a registration action that did not fail. *)
Definition reschedule_update_job_of (anjay : anjay_t) (ssid : Z)
    : Z * anjay_t :=
  match _anjay_servers_find_active anjay ssid with
  | None => (-1, anjay)
  | Some server =>
      let '(result, anjay', server') :=
        _anjay_server_reschedule_update_job anjay server in
      (result, set_servers anjay' (store_active (servers anjay) ssid server'))
  end.

(** ** The registration protocol driver (second part of [utils_core.c]) *)

Inductive anjay_update_result_t : Type :=
| ANJAY_UPDATE_SUCCESS
| ANJAY_UPDATE_NEEDS_REGISTRATION
| ANJAY_UPDATE_FAILED.

Inductive anjay_registration_result_t : Type :=
| ANJAY_REGISTRATION_SUCCESS
| ANJAY_REGISTRATION_FAILED
| ANJAY_REGISTRATION_FORBIDDEN.

(** The exchanges and connection set-up that the driver calls and that
    live outside the sources.  Each is a function of the server entry it
    is called on: it answers a status and, where the C function writes to
    the entry, the entry it leaves. *)
Record anjay_collaborators_t : Type := mk_collaborators {
  _anjay_update_registration :
    anjay_server_info_t -> Z * anjay_server_info_t;
  _anjay_needs_registration_update : anjay_server_info_t -> bool;
  _anjay_register : anjay_server_info_t -> Z * anjay_server_info_t;
  _anjay_server_setup_primary_connection :
    anjay_server_info_t -> Z * anjay_server_info_t;
  _anjay_bind_server_stream :
    anjay_server_info_t -> anjay_connection_type_t -> Z;
  _anjay_deregister : list string -> Z;
  _anjay_schedule_reload_server : anjay_server_info_t -> Z
}.

Section Driver.

(** The two statuses of [_anjay_update_registration] that
    [registration_update_with_ctx] tells apart from success; their values
    are defined outside the sources. *)
Variable ANJAY_REGISTRATION_UPDATE_REJECTED : Z.
Variable AVS_COAP_CTX_ERR_NETWORK : Z.

Variable ext : anjay_collaborators_t.

Definition _anjay_schedule_server_reconnect (anjay : anjay_t)
    (server : anjay_server_info_t) : Z * anjay_t * anjay_server_info_t :=
  let server := _anjay_connection_suspend server ANJAY_CONNECTION_UNSET in
  (_anjay_schedule_reload_server ext server,
   log_call anjay (CALL_SCHEDULE_RELOAD (ssid server)),
   server).

Definition registration_update_with_ctx (anjay : anjay_t)
    (server : anjay_server_info_t)
    : anjay_update_result_t * anjay_t * anjay_server_info_t :=
  let anjay := log_call anjay (CALL_UPDATE (ssid server)) in
  let '(retval, server) := _anjay_update_registration ext server in
  if retval =? 0 then (ANJAY_UPDATE_SUCCESS, anjay, server)
  else if retval =? ANJAY_REGISTRATION_UPDATE_REJECTED then
    (ANJAY_UPDATE_NEEDS_REGISTRATION, anjay,
     set_expire_time server AVS_TIME_REAL_INVALID)
  else if retval =? AVS_COAP_CTX_ERR_NETWORK then
    (ANJAY_UPDATE_FAILED, anjay,
     _anjay_connection_suspend server (primary_conn_type (data_active server)))
  else (ANJAY_UPDATE_FAILED, anjay, server).

(** The [if] chain that opens [ensure_valid_registration_with_ctx] and
    assigns [update_result]. *)
Definition ensure_valid_registration_update_result (anjay : anjay_t)
    (server : anjay_server_info_t)
    : anjay_update_result_t * anjay_t * anjay_server_info_t :=
  if negb (_anjay_server_primary_connection_valid server) then
    (ANJAY_UPDATE_NEEDS_REGISTRATION, anjay,
     set_expire_time server AVS_TIME_REAL_INVALID)
  else if _anjay_server_registration_expired anjay server then
    (ANJAY_UPDATE_NEEDS_REGISTRATION, anjay, server)
  else if negb (_anjay_needs_registration_update ext server) then
    (ANJAY_UPDATE_SUCCESS, anjay, server)
  else registration_update_with_ctx anjay server.

(** The [_anjay_register] call and what follows it in the
    [ANJAY_UPDATE_NEEDS_REGISTRATION] case. *)
Definition do_register (anjay : anjay_t) (server : anjay_server_info_t)
    : anjay_registration_result_t * anjay_t * anjay_server_info_t :=
  let anjay := log_call anjay (CALL_REGISTER (ssid server)) in
  let '(retval, server) := _anjay_register ext server in
  if negb (retval =? 0) then
    if retval =? ANJAY_ERR_FORBIDDEN
    then (ANJAY_REGISTRATION_FORBIDDEN, anjay, server)
    else (ANJAY_REGISTRATION_FAILED, anjay, server)
  else (ANJAY_REGISTRATION_SUCCESS, log_call anjay CALL_BOOTSTRAP_NOTIFY, server).

Definition ensure_valid_registration_with_ctx (anjay : anjay_t)
    (server : anjay_server_info_t)
    : anjay_registration_result_t * anjay_t * anjay_server_info_t :=
  let '(update_result, anjay, server) :=
    ensure_valid_registration_update_result anjay server in
  match update_result with
  | ANJAY_UPDATE_SUCCESS => (ANJAY_REGISTRATION_SUCCESS, anjay, server)
  | ANJAY_UPDATE_NEEDS_REGISTRATION =>
      if negb (_anjay_server_primary_connection_valid server) then
        let anjay :=
          log_call anjay (CALL_SETUP_PRIMARY_CONNECTION (ssid server)) in
        let '(setup, server) :=
          _anjay_server_setup_primary_connection ext server in
        if negb (setup =? 0) then (ANJAY_REGISTRATION_FAILED, anjay, server)
        else do_register anjay server
      else do_register anjay server
  | ANJAY_UPDATE_FAILED => (ANJAY_REGISTRATION_FAILED, anjay, server)
  end.

Definition registration_update_if_possible_with_ctx (anjay : anjay_t)
    (server : anjay_server_info_t)
    : anjay_update_result_t * anjay_t * anjay_server_info_t :=
  if negb (_anjay_server_primary_connection_valid server) then
    (ANJAY_UPDATE_NEEDS_REGISTRATION, anjay,
     set_expire_time server AVS_TIME_REAL_INVALID)
  else if _anjay_server_registration_expired anjay server then
    (ANJAY_UPDATE_NEEDS_REGISTRATION, anjay, server)
  else registration_update_with_ctx anjay server.

(** Modelled from the spec:
    [_anjay_release_server_stream_without_scheduling_queue], absent from
    the sources; "the acquired stream is always released": the shared
    stream is bound to no connection afterwards. *)
Definition _anjay_release_server_stream_without_scheduling_queue
    (anjay : anjay_t) : anjay_t :=
  set_current_connection (log_call anjay CALL_RELEASE_STREAM) None.

Definition _anjay_server_deregister (anjay : anjay_t)
    (server : anjay_server_info_t) : Z * anjay_t :=
  let conn_type := primary_conn_type (data_active server) in
  if conn_type_eqb conn_type ANJAY_CONNECTION_UNSET then (0, anjay)
  else
    let anjay := log_call anjay (CALL_BIND_STREAM (ssid server) conn_type) in
    if negb (_anjay_bind_server_stream ext server conn_type =? 0)
    then (0, anjay)
    else
    let anjay := set_current_connection anjay (Some (ssid server, conn_type)) in
    let path := endpoint_path (registration_info (data_active server)) in
    let anjay := log_call anjay (CALL_DEREGISTER path) in
    let result := _anjay_deregister ext path in
    let anjay := _anjay_release_server_stream_without_scheduling_queue anjay in
    (result, anjay).

End Driver.

(** * Properties *)

(** ** Binding modes *)

(** The designator letter of a transport in a binding-mode string. *)
Definition type_letter (conn_type : anjay_connection_type_t) : ascii :=
  match conn_type with
  | ANJAY_CONNECTION_UDP => "U"%char
  | ANJAY_CONNECTION_SMS => "S"%char
  | ANJAY_CONNECTION_UNSET => NUL
  end.

Fixpoint count_char (c : ascii) (s : string) : nat :=
  match s with
  | EmptyString => 0%nat
  | String a rest => ((if Ascii.eqb a c then 1 else 0) + count_char c rest)%nat
  end.

(** The text right after an occurrence of the letter begins with 'Q'. *)
Definition starts_with_Q (post : string) : bool :=
  match post with
  | String c _ => Ascii.eqb c "Q"%char
  | EmptyString => false
  end.

Lemma count_char_app (c : ascii) (pre post : string) :
  count_char c (pre ++ post) = (count_char c pre + count_char c post)%nat.
Proof.
  induction pre as [|a pre IH]; simpl; [reflexivity|].
  rewrite IH; lia.
Qed.

Lemma strchr_absent (c : ascii) (s : string) :
  count_char c s = 0%nat -> strchr s c = None.
Proof.
  induction s as [|a s IH]; simpl; [reflexivity|].
  destruct (Ascii.eqb a c); simpl; [discriminate | exact IH].
Qed.

Lemma strchr_first (c : ascii) (pre post : string) :
  count_char c pre = 0%nat ->
  strchr (pre ++ String c post) c = Some (String c post).
Proof.
  induction pre as [|a pre IH]; simpl.
  - intros _; rewrite Ascii.eqb_refl; reflexivity.
  - destruct (Ascii.eqb a c); simpl; [discriminate | exact IH].
Qed.

Lemma char_after_letter (c : ascii) (post : string) :
  Ascii.eqb (char_at (String c post) 1) "Q"%char = starts_with_Q post.
Proof. destruct post as [|q post]; reflexivity. Qed.

(** In a valid binding mode each letter stands at most once. *)
Lemma valid_binding_letters_once (s : string) (conn_type : anjay_connection_type_t) :
  In s VALID_BINDINGS -> (count_char (type_letter conn_type) s <= 1)%nat.
Proof.
  intros Hin; simpl in Hin.
  destruct conn_type;
    repeat (destruct Hin as [<-|Hin]; [simpl; lia|]); destruct Hin.
Qed.

Lemma get_connection_mode_at_first (s pre post : string)
    (conn_type : anjay_connection_type_t) :
  conn_type <> ANJAY_CONNECTION_UNSET ->
  s = pre ++ String (type_letter conn_type) post ->
  count_char (type_letter conn_type) pre = 0%nat ->
  _anjay_get_connection_mode s conn_type =
    if starts_with_Q post then ANJAY_CONNECTION_QUEUE
    else ANJAY_CONNECTION_ONLINE.
Proof.
  intros Hset -> Hpre; unfold _anjay_get_connection_mode.
  destruct conn_type; try congruence; simpl type_letter in *;
    rewrite (strchr_first _ _ _ Hpre), char_after_letter; reflexivity.
Qed.

Lemma append_str_fits (c : cursor) (str : string) :
  Z.of_nat (String.length str) < room c ->
  append_str c str
  = (0, mk_cursor (written c ++ str) (room c - Z.of_nat (String.length str))).
Proof.
  intros Hfits; unfold append_str, avs_simple_snprintf.
  destruct (Z.ltb_spec (Z.of_nat (String.length str)) (room c)); [|lia].
  destruct (Z.leb_spec 0 (Z.of_nat (String.length str))); [reflexivity | lia].
Qed.

(** C2.  Every valid binding mode is rebuilt from the two connection
    modes derived from it: for [s] among U, UQ, S, SQ, US and UQS,
    [binding_mode_from_connection_modes] applied to the UDP mode and the
    SMS mode of [s] succeeds and writes [s], the output buffer having
    room for the longest of them and its NUL. *)
Theorem binding_mode_round_trip (out_size : Z) (s : string) :
  4 <= out_size ->
  In s VALID_BINDINGS ->
  binding_mode_from_connection_modes out_size
    (_anjay_get_connection_mode s ANJAY_CONNECTION_UDP)
    (_anjay_get_connection_mode s ANJAY_CONNECTION_SMS) = (0, s).
Proof.
  intros Hsize Hin; simpl in Hin.
  unfold binding_mode_from_connection_modes.
  repeat (destruct Hin as [<-|Hin];
          [simpl _anjay_get_connection_mode; cbv iota;
           repeat (rewrite append_str_fits by (simpl; lia); simpl);
           reflexivity|]).
  destruct Hin.
Qed.

Lemma binding_mode_round_trip_witness :
  binding_mode_from_connection_modes 8
    (_anjay_get_connection_mode "UQS" ANJAY_CONNECTION_UDP)
    (_anjay_get_connection_mode "UQS" ANJAY_CONNECTION_SMS) = (0, "UQS").
Proof.
  apply (binding_mode_round_trip 8 "UQS"); [lia | simpl; tauto].
Defined.

(** C3.  The connection mode of a transport (UDP or SMS) is read off the
    binding-mode string at the transport's letter: Disabled when the
    letter does not occur; otherwise Queue when the letter is immediately
    followed by 'Q' and Online when it is not.  The scan stops at the
    first occurrence of the letter, which in a valid binding mode is the
    only one. *)
Theorem get_connection_mode_by_letter (s : string)
    (conn_type : anjay_connection_type_t) :
  conn_type <> ANJAY_CONNECTION_UNSET ->
  (count_char (type_letter conn_type) s = 0%nat ->
   _anjay_get_connection_mode s conn_type = ANJAY_CONNECTION_DISABLED)
  /\ (forall pre post,
        s = pre ++ String (type_letter conn_type) post ->
        count_char (type_letter conn_type) pre = 0%nat
        \/ In s VALID_BINDINGS ->
        _anjay_get_connection_mode s conn_type =
          if starts_with_Q post then ANJAY_CONNECTION_QUEUE
          else ANJAY_CONNECTION_ONLINE).
Proof.
  intros Hset; split.
  - intros Habs; unfold _anjay_get_connection_mode.
    destruct conn_type; try congruence; simpl type_letter in Habs;
      rewrite (strchr_absent _ _ Habs); reflexivity.
  - intros pre post Hs Hfirst.
    apply get_connection_mode_at_first with (pre := pre); trivial.
    destruct Hfirst as [Hpre|Hvalid]; [exact Hpre|].
    pose proof (valid_binding_letters_once s conn_type Hvalid) as Hone.
    rewrite Hs, count_char_app in Hone; simpl in Hone.
    rewrite Ascii.eqb_refl in Hone; lia.
Qed.

Lemma get_connection_mode_by_letter_witness :
  _anjay_get_connection_mode "US" ANJAY_CONNECTION_UDP = ANJAY_CONNECTION_ONLINE
  /\ _anjay_get_connection_mode "UQS" ANJAY_CONNECTION_UDP = ANJAY_CONNECTION_QUEUE
  /\ _anjay_get_connection_mode "UQ" ANJAY_CONNECTION_SMS = ANJAY_CONNECTION_DISABLED.
Proof.
  assert (Hudp : ANJAY_CONNECTION_UDP <> ANJAY_CONNECTION_UNSET) by discriminate.
  assert (Hsms : ANJAY_CONNECTION_SMS <> ANJAY_CONNECTION_UNSET) by discriminate.
  split; [|split].
  - exact (proj2 (get_connection_mode_by_letter "US" ANJAY_CONNECTION_UDP Hudp)
             "" "S" eq_refl (or_introl eq_refl)).
  - exact (proj2 (get_connection_mode_by_letter "UQS" ANJAY_CONNECTION_UDP Hudp)
             "" "QS" eq_refl (or_introl eq_refl)).
  - exact (proj1 (get_connection_mode_by_letter "UQ" ANJAY_CONNECTION_SMS Hsms)
             eq_refl).
Defined.

(** ** Validation of the Server object *)

(** What the specification asks of one Server object instance: the four
    mandatory resources are present, the lifetime is positive, the default
    maximum period is not zero and the binding is one of the six valid
    strings. *)
Definition instance_well_formed (it : server_instance_t) : Prop :=
  has_ssid it = true
  /\ has_lifetime it = true
  /\ has_notification_storing it = true
  /\ 0 < inst_lifetime (data it)
  /\ inst_default_max_period (data it) <> 0
  /\ exists binding,
       inst_binding (data it) = Some binding /\ In binding VALID_BINDINGS.

Definition instance_ssids (instances : list server_instance_t) : list Z :=
  map (fun it => inst_ssid (data it)) instances.

Lemma binding_mode_valid_iff (binding : string) :
  anjay_binding_mode_valid binding = true <-> In binding VALID_BINDINGS.
Proof.
  unfold anjay_binding_mode_valid; rewrite existsb_exists; split.
  - intros (valid & Hin & Heq); apply String.eqb_eq in Heq; subst; exact Hin.
  - intros Hin; exists binding; split; [exact Hin | apply String.eqb_refl].
Qed.

Lemma validate_instance_values (it : server_instance_t) :
  validate_instance it = 0 \/ validate_instance it = -1.
Proof.
  unfold validate_instance.
  repeat match goal with
         | |- context [if ?b then _ else _] => destruct b
         | |- context [match ?o with Some _ => _ | None => _ end] => destruct o
         end; auto.
Qed.

Lemma validate_instance_ok (it : server_instance_t) :
  validate_instance it = 0 <-> instance_well_formed it.
Proof.
  unfold validate_instance, instance_well_formed.
  destruct (has_ssid it), (inst_binding (data it)) as [binding|],
    (has_lifetime it), (has_notification_storing it); simpl;
    try (split; [discriminate | intros Hwf; decompose [and ex] Hwf; congruence]).
  destruct (Z.leb_spec (inst_lifetime (data it)) 0);
    [split; [discriminate | intros Hwf; decompose [and ex] Hwf; lia]|].
  destruct (Z.eqb_spec (inst_default_max_period (data it)) 0);
    [split; [discriminate | intros Hwf; decompose [and ex] Hwf; lia]|].
  destruct (anjay_binding_mode_valid binding) eqn:Hvalid; simpl.
  - apply binding_mode_valid_iff in Hvalid.
    split; [|reflexivity]; intros _.
    repeat split; try assumption; exists binding; auto.
  - split; [discriminate|].
    intros (_ & _ & _ & _ & _ & b & Hb & Hin).
    injection Hb as <-; apply binding_mode_valid_iff in Hin; congruence.
Qed.

Lemma validate_collect_ok (alloc_ok : nat -> bool)
    (its : list server_instance_t) :
  forall n seen result seen',
    validate_collect alloc_ok n its seen = (result, seen') ->
    result = 0 ->
    Forall instance_well_formed its
    /\ seen' = (rev (instance_ssids its) ++ seen)%list.
Proof.
  induction its as [|it rest IH]; simpl; intros n seen result seen' Hrun Hres.
  - injection Hrun as _ <-; auto.
  - destruct (Z.eqb_spec (validate_instance it) 0) as [Hit|Hit]; simpl in Hrun;
      [|injection Hrun as <- _; discriminate].
    destruct (alloc_ok n); simpl in Hrun;
      [|injection Hrun as <- _; discriminate].
    destruct (IH _ _ _ _ Hrun Hres) as [Hall ->]; split.
    + constructor; [apply validate_instance_ok, Hit | exact Hall].
    + rewrite <- app_assoc; reflexivity.
Qed.

Lemma validate_collect_alloc (alloc_ok : nat -> bool)
    (its : list server_instance_t) :
  (forall n, alloc_ok n = true) ->
  forall n seen,
    (Forall instance_well_formed its ->
     fst (validate_collect alloc_ok n its seen) = 0)
    /\ (fst (validate_collect alloc_ok n its seen) = 0
        \/ fst (validate_collect alloc_ok n its seen) = ANJAY_ERR_BAD_REQUEST).
Proof.
  intros Halloc; induction its as [|it rest IH]; simpl; intros n seen.
  - auto.
  - destruct (Z.eqb_spec (validate_instance it) 0) as [Hit|Hit]; simpl.
    + rewrite Halloc; simpl.
      destruct (IH (S n) (inst_ssid (data it) :: seen)) as [Hok Hval].
      split; [|exact Hval].
      intros Hall; inversion Hall; subst; auto.
    + split; [|auto].
      intros Hall; inversion Hall; subst.
      apply validate_instance_ok in H1; contradiction.
Qed.

Lemma find_duplicate_values (next : list Z) :
  forall prev,
    find_duplicate prev next = 0
    \/ find_duplicate prev next = ANJAY_ERR_BAD_REQUEST.
Proof.
  induction next as [|n rest IH]; simpl; intros prev; [auto|].
  destruct (prev =? n); auto.
Qed.

Lemma find_duplicate_sorted (next : list Z) :
  forall prev,
    StronglySorted Z.le (prev :: next) ->
    (find_duplicate prev next = 0 <-> NoDup (prev :: next)).
Proof.
  induction next as [|n rest IH]; simpl; intros prev Hsorted.
  - split; [intros _; repeat constructor; auto | reflexivity].
  - apply StronglySorted_inv in Hsorted as [Hrest Hprev].
    destruct (Z.eqb_spec prev n) as [->|Hne].
    + split; [discriminate|].
      intros Hnd; inversion Hnd; subst; simpl in *; tauto.
    + rewrite (IH n Hrest); split.
      * intros Hnd; constructor; [|exact Hnd].
        apply StronglySorted_inv in Hrest as [_ Hn].
        inversion Hprev; subst.
        intros [Heq|Hin]; [congruence|].
        rewrite Forall_forall in Hn; specialize (Hn _ Hin); lia.
      * intros Hnd; inversion Hnd; assumption.
Qed.

Lemma AVS_LIST_SORT_sorted (l : list Z) : StronglySorted Z.le (AVS_LIST_SORT l).
Proof.
  assert (Hsorted : StronglySorted (fun a b => is_true (SsidOrder.leb a b))
                      (AVS_LIST_SORT l)).
  { apply SsidSort.StronglySorted_sort.
    intros a b c; unfold is_true, SsidOrder.leb, ssid_cmp; lia. }
  induction Hsorted as [|a rest Hrest IH Ha]; constructor; [exact IH|].
  eapply Forall_impl; [|exact Ha].
  intros b; unfold is_true, SsidOrder.leb, ssid_cmp; lia.
Qed.

Lemma AVS_LIST_SORT_NoDup (l : list Z) : NoDup (AVS_LIST_SORT l) <-> NoDup l.
Proof.
  pose proof (SsidSort.Permuted_sort l) as Hperm; split.
  - apply Permutation_NoDup; symmetry; exact Hperm.
  - apply Permutation_NoDup; exact Hperm.
Qed.

Lemma rev_NoDup (l : list Z) : NoDup (rev l) <-> NoDup l.
Proof.
  split; apply Permutation_NoDup;
    [symmetry|]; apply Permutation_rev.
Qed.

(** The duplicate test of [_anjay_serv_object_validate] on the SSIDs it
    has collected. *)
Lemma sorted_duplicate_test (seen : list Z) :
  match AVS_LIST_SORT seen with
  | [] => NoDup seen
  | prev :: next =>
      (find_duplicate prev next = 0 <-> NoDup seen)
      /\ (find_duplicate prev next = 0
          \/ find_duplicate prev next = ANJAY_ERR_BAD_REQUEST)
  end.
Proof.
  pose proof (AVS_LIST_SORT_sorted seen) as Hsorted.
  pose proof (AVS_LIST_SORT_NoDup seen) as Hnd.
  destruct (AVS_LIST_SORT seen) as [|prev next].
  - apply Hnd; constructor.
  - split; [|apply find_duplicate_values].
    rewrite (find_duplicate_sorted next prev Hsorted); exact Hnd.
Qed.

(** C8.  [_anjay_serv_object_validate] accepts a list of Server object
    instances only if every instance has the SSID, Binding, Lifetime and
    Notification-Storing resources, a lifetime above 0, a default maximum
    period other than 0 and a binding among U, UQ, S, SQ, US and UQS, and
    no two instances share an SSID.  When the list allocations of the call
    succeed, such a list is accepted (result 0) and every other list is
    rejected with [ANJAY_ERR_BAD_REQUEST]. *)
Theorem serv_object_validate_spec (alloc_ok : nat -> bool)
    (instances : list server_instance_t) :
  (_anjay_serv_object_validate alloc_ok instances = 0 ->
   Forall instance_well_formed instances
   /\ NoDup (instance_ssids instances))
  /\ ((forall n, alloc_ok n = true) ->
      (Forall instance_well_formed instances
       /\ NoDup (instance_ssids instances) ->
       _anjay_serv_object_validate alloc_ok instances = 0)
      /\ (~ (Forall instance_well_formed instances
             /\ NoDup (instance_ssids instances)) ->
          _anjay_serv_object_validate alloc_ok instances
            = ANJAY_ERR_BAD_REQUEST)).
Proof.
  assert (Hsound :
    _anjay_serv_object_validate alloc_ok instances = 0 ->
    Forall instance_well_formed instances /\ NoDup (instance_ssids instances)).
  { unfold _anjay_serv_object_validate.
    destruct instances as [|it rest]; [intros _; split; constructor|].
    destruct (validate_collect alloc_ok 0 (it :: rest) []) as [result seen] eqn:Hrun.
    destruct (Z.eqb_spec result 0) as [Hres|Hres]; [|intros H; contradiction].
    destruct (validate_collect_ok _ _ _ _ _ _ Hrun Hres) as [Hall Hseen].
    rewrite app_nil_r in Hseen.
    pose proof (sorted_duplicate_test seen) as Htest.
    destruct (AVS_LIST_SORT seen) as [|prev next].
    - intros _; split; [exact Hall|].
      apply rev_NoDup; rewrite <- Hseen; exact Htest.
    - intros Hdup; split; [exact Hall|].
      apply rev_NoDup; rewrite <- Hseen; apply Htest, Hdup. }
  split; [exact Hsound|].
  intros Halloc.
  assert (Hvalues :
    _anjay_serv_object_validate alloc_ok instances = 0
    \/ _anjay_serv_object_validate alloc_ok instances = ANJAY_ERR_BAD_REQUEST).
  { unfold _anjay_serv_object_validate.
    destruct instances as [|it rest]; [auto|].
    pose proof (validate_collect_alloc alloc_ok (it :: rest) Halloc 0 []) as [_ Hval].
    destruct (validate_collect alloc_ok 0 (it :: rest) []) as [result seen].
    simpl fst in Hval.
    destruct (Z.eqb_spec result 0) as [Hres|Hres]; [|tauto].
    pose proof (sorted_duplicate_test seen) as Htest.
    destruct (AVS_LIST_SORT seen) as [|prev next]; [auto | apply Htest]. }
  split.
  - intros [Hall Hnd].
    unfold _anjay_serv_object_validate.
    destruct instances as [|it rest]; [reflexivity|].
    pose proof (validate_collect_alloc alloc_ok (it :: rest) Halloc 0 []) as [Hok _].
    specialize (Hok Hall).
    destruct (validate_collect alloc_ok 0 (it :: rest) []) as [result seen] eqn:Hrun.
    simpl fst in Hok; subst result; simpl.
    destruct (validate_collect_ok _ _ _ _ _ _ Hrun eq_refl) as [_ Hseen].
    rewrite app_nil_r in Hseen.
    pose proof (sorted_duplicate_test seen) as Htest.
    destruct (AVS_LIST_SORT seen) as [|prev next]; [reflexivity|].
    apply Htest; rewrite Hseen; apply rev_NoDup, Hnd.
  - intros Hbad; destruct Hvalues as [Hzero|Hreq]; [|exact Hreq].
    elim Hbad; apply Hsound, Hzero.
Qed.

Definition sample_instance (id : Z) (binding : string) : server_instance_t :=
  mk_instance id true true true (mk_instance_data id (Some binding) 86400 (-1)).

Lemma sample_instance_well_formed (id : Z) (binding : string) :
  In binding VALID_BINDINGS -> instance_well_formed (sample_instance id binding).
Proof.
  intros Hin; unfold instance_well_formed; simpl.
  repeat split; try lia; exists binding; auto.
Qed.

Lemma serv_object_validate_spec_witness :
  _anjay_serv_object_validate (fun _ => true)
    [sample_instance 1 "U"; sample_instance 2 "UQS"] = 0
  /\ _anjay_serv_object_validate (fun _ => true)
       [sample_instance 1 "U"; sample_instance 1 "UQS"] = ANJAY_ERR_BAD_REQUEST.
Proof.
  split.
  - apply (proj2 (serv_object_validate_spec (fun _ => true)
                    [sample_instance 1 "U"; sample_instance 2 "UQS"]));
      [reflexivity|].
    split.
    + repeat constructor; apply sample_instance_well_formed; simpl; tauto.
    + repeat constructor; simpl; intuition lia.
  - apply (proj2 (serv_object_validate_spec (fun _ => true)
                    [sample_instance 1 "U"; sample_instance 1 "UQS"]));
      [reflexivity|].
    intros [_ Hnd]; inversion Hnd; subst; simpl in *; tauto.
Defined.

(** ** Lookup by socket *)

(** The entry's UDP connection is online and its socket is the one at
    address [h]. *)
Definition udp_online_at (server : anjay_server_info_t) (h : Z) : Prop :=
  exists socket,
    conn_socket_ (udp_connection (data_active server)) = Some socket
    /\ socket_connected socket = true
    /\ socket_addr socket = h.

Lemma online_socket_udp (server : anjay_server_info_t) (h : Z) :
  ptr_eqb (_anjay_connection_get_online_socket server ANJAY_CONNECTION_UDP)
          (Some h) = true
  <-> udp_online_at server h.
Proof.
  unfold _anjay_connection_get_online_socket, _anjay_connection_is_online,
    _anjay_connection_internal_get_socket, udp_online_at; simpl.
  destruct (conn_socket_ (udp_connection (data_active server))) as [socket|];
    simpl.
  - destruct (socket_connected socket) eqn:Hconn; simpl.
    + rewrite Z.eqb_eq; split.
      * intros <-; exists socket; auto.
      * intros (s & Hs & _ & Haddr); injection Hs as <-; exact Haddr.
    + split; [discriminate|].
      intros (s & Hs & Hc & _); injection Hs as <-; congruence.
  - split; [discriminate|]; intros (s & Hs & _); discriminate.
Qed.

(** The walk of [_anjay_servers_find_by_udp_socket] stops at the first
    active entry whose online UDP socket is [socket]. *)
Lemma find_by_udp_socket_walk (socket : option Z)
    (its : list anjay_server_info_t) :
  foreach_active its find_by_udp_socket_clb
    (mk_find_by_udp_socket_args socket None)
  = (0,
     mk_find_by_udp_socket_args socket
       (find (fun server =>
                _anjay_server_active server
                && ptr_eqb (_anjay_connection_get_online_socket
                              server ANJAY_CONNECTION_UDP) socket)
             its)).
Proof.
  induction its as [|it rest IH]; simpl; [reflexivity|].
  destruct (_anjay_server_active it); simpl; [|exact IH].
  unfold find_by_udp_socket_clb at 1; simpl.
  destruct (ptr_eqb _ socket); simpl; [reflexivity | exact IH].
Qed.

(** C10.  For a registry and a non-null socket [h],
    [_anjay_servers_find_by_udp_socket] returns an entry only if it is an
    active entry of the registry whose UDP connection is online with [h]
    as its socket, so an entry whose UDP socket is suspended is never
    returned; and it returns the null pointer exactly when no active
    entry has [h] as its online UDP socket. *)
Theorem find_by_udp_socket_spec (anjay : anjay_t) (h : Z) :
  (forall server,
     _anjay_servers_find_by_udp_socket anjay (Some h) = Some server ->
     In server (servers anjay)
     /\ _anjay_server_active server = true
     /\ udp_online_at server h)
  /\ (_anjay_servers_find_by_udp_socket anjay (Some h) = None <->
      forall server,
        In server (servers anjay) ->
        _anjay_server_active server = true ->
        ~ udp_online_at server h).
Proof.
  unfold _anjay_servers_find_by_udp_socket, _anjay_servers_foreach_active.
  rewrite find_by_udp_socket_walk; simpl; split.
  - intros server Hfind.
    apply find_some in Hfind as [Hin Htest].
    apply andb_prop in Htest as [Hactive Hsock].
    apply online_socket_udp in Hsock; auto.
  - split.
    + intros Hnone server Hin Hactive Honline.
      pose proof (find_none _ _ Hnone server Hin) as Htest; simpl in Htest.
      apply online_socket_udp in Honline.
      rewrite Hactive, Honline in Htest; discriminate.
    + intros Hnone.
      destruct (find _ (servers anjay)) as [server|] eqn:Hfind; [|reflexivity].
      apply find_some in Hfind as [Hin Htest].
      apply andb_prop in Htest as [Hactive Hsock].
      apply online_socket_udp in Hsock.
      elim (Hnone server Hin Hactive Hsock).
Qed.

(** ** Durations *)

Lemma duration_valid_bounds (d : avs_time_duration_t) :
  avs_time_duration_valid d = true <-> 0 <= nanoseconds d < NS_IN_S.
Proof. unfold avs_time_duration_valid; lia. Qed.

Lemma duration_less_spec (a b : avs_time_duration_t) :
  avs_time_duration_less a b = true
  <-> avs_time_duration_valid a = true
      /\ avs_time_duration_valid b = true
      /\ to_ns a < to_ns b.
Proof.
  unfold avs_time_duration_less; rewrite !andb_true_iff.
  rewrite !duration_valid_bounds; unfold to_ns, NS_IN_S; lia.
Qed.

Lemma normalize_in_range (s ns : Z) :
  in_int64 (s + ns / NS_IN_S) = true ->
  avs_time_duration_valid (normalize s ns) = true
  /\ to_ns (normalize s ns) = s * NS_IN_S + ns
  /\ seconds (normalize s ns) = s + ns / NS_IN_S.
Proof.
  intros Hrange; unfold normalize; rewrite Hrange.
  rewrite duration_valid_bounds; unfold to_ns; simpl.
  pose proof (Z.mod_pos_bound ns NS_IN_S eq_refl).
  pose proof (Z.div_mod ns NS_IN_S); unfold NS_IN_S in *; lia.
Qed.

Lemma normalize_out_of_range (s ns : Z) :
  in_int64 (s + ns / NS_IN_S) = false ->
  normalize s ns = AVS_TIME_DURATION_INVALID.
Proof. intros Hrange; unfold normalize; rewrite Hrange; reflexivity. Qed.

Lemma duration_diff_invalid (a b : avs_time_duration_t) :
  avs_time_duration_valid a = false \/ avs_time_duration_valid b = false ->
  avs_time_duration_diff a b = AVS_TIME_DURATION_INVALID.
Proof.
  unfold avs_time_duration_diff; intros [-> | ->];
    [|rewrite andb_false_r]; reflexivity.
Qed.

(** ** Expiry of the registration *)

(** The registration counts as expired exactly when the remaining time
    is invalid or not positive. *)
Lemma registration_expired_by_remaining (anjay : anjay_t)
    (server : anjay_server_info_t) :
  let remaining :=
    _anjay_register_time_remaining anjay (registration_info (data_active server)) in
  _anjay_server_registration_expired anjay server = true
  <-> avs_time_duration_valid remaining = false \/ to_ns remaining <= 0.
Proof.
  intros remaining; unfold _anjay_server_registration_expired,
    _anjay_server_registration_info; fold remaining.
  pose proof (duration_less_spec AVS_TIME_DURATION_ZERO remaining) as Hless.
  change (to_ns AVS_TIME_DURATION_ZERO) with 0 in Hless.
  change (avs_time_duration_valid AVS_TIME_DURATION_ZERO) with true in Hless.
  destruct (avs_time_duration_less AVS_TIME_DURATION_ZERO remaining); simpl.
  - destruct (proj1 Hless eq_refl) as (_ & Hvalid & Hpos).
    split; [discriminate|]; intros [Hinv|Hle]; [congruence | lia].
  - split; [intros _ | reflexivity].
    destruct (avs_time_duration_valid remaining) eqn:Hvalid; [|auto].
    right; destruct (Z.le_gt_cases (to_ns remaining) 0) as [Hle|Hgt]; [exact Hle|].
    assert (Htrue : false = true) by (apply Hless; repeat split; trivial; lia).
    discriminate.
Qed.

(** C4.  [_anjay_server_registration_expired] answers true exactly when
    the remaining time is invalid or not positive; so it answers true when
    [expire_time] is invalid (the [AVS_TIME_REAL_INVALID] sentinel is) and
    when [expire_time] is not later than the current time, and false when
    [expire_time] is later than the current time (the time left then fits
    the 64-bit seconds of a duration). *)
Theorem registration_expired_spec (anjay : anjay_t)
    (server : anjay_server_info_t) :
  let e := since_real_epoch (expire_time (registration_info (data_active server))) in
  let now := since_real_epoch (clock anjay) in
  let remaining :=
    _anjay_register_time_remaining anjay (registration_info (data_active server)) in
  (_anjay_server_registration_expired anjay server = true
   <-> avs_time_duration_valid remaining = false \/ to_ns remaining <= 0)
  /\ (expire_time (registration_info (data_active server)) = AVS_TIME_REAL_INVALID ->
   _anjay_server_registration_expired anjay server = true)
  /\ (avs_time_duration_valid e = false ->
      _anjay_server_registration_expired anjay server = true)
  /\ (avs_time_duration_valid e = true ->
      avs_time_duration_valid now = true ->
      to_ns e <= to_ns now ->
      _anjay_server_registration_expired anjay server = true)
  /\ (avs_time_duration_valid e = true ->
      avs_time_duration_valid now = true ->
      to_ns now < to_ns e ->
      seconds e - seconds now <= INT64_MAX ->
      _anjay_server_registration_expired anjay server = false).
Proof.
  intros e now remaining.
  split; [apply registration_expired_by_remaining|]; clear remaining.
  unfold _anjay_server_registration_expired, _anjay_register_time_remaining,
    _anjay_server_registration_info, avs_time_real_diff.
  fold e; fold now.
  assert (Hinvalid : avs_time_duration_valid e = false ->
    (if negb (avs_time_duration_less AVS_TIME_DURATION_ZERO
                (avs_time_duration_diff e now)) then true else false) = true).
  { intros He; rewrite duration_diff_invalid by auto; reflexivity. }
  split; [|split; [exact Hinvalid|split]].
  - intros Hsentinel; apply Hinvalid; unfold e; rewrite Hsentinel; reflexivity.
  - intros He Hnow Hpast.
    destruct (avs_time_duration_less AVS_TIME_DURATION_ZERO
                (avs_time_duration_diff e now)) eqn:Hless; [|reflexivity].
    apply duration_less_spec in Hless as (_ & Hvalid & Hpos).
    unfold avs_time_duration_diff in Hvalid, Hpos.
    rewrite He, Hnow in Hvalid, Hpos; simpl in Hvalid, Hpos.
    destruct (in_int64 (seconds e - seconds now
                        + (nanoseconds e - nanoseconds now) / NS_IN_S)) eqn:Hrange.
    + destruct (normalize_in_range _ _ Hrange) as (_ & Hns & _).
      rewrite Hns in Hpos; unfold to_ns in *; simpl in Hpos; lia.
    + rewrite (normalize_out_of_range _ _ Hrange) in Hvalid; discriminate.
  - intros He Hnow Hfuture Hfits.
    apply duration_valid_bounds in He as Hebounds.
    apply duration_valid_bounds in Hnow as Hnbounds.
    assert (Hrange : in_int64 (seconds e - seconds now
                        + (nanoseconds e - nanoseconds now) / NS_IN_S) = true).
    { unfold in_int64, INT64_MIN, INT64_MAX in *; unfold to_ns, NS_IN_S in *.
      apply andb_true_iff; rewrite !Z.leb_le.
      pose proof (Z.div_mod (nanoseconds e - nanoseconds now) 1000000000).
      pose proof (Z.mod_pos_bound (nanoseconds e - nanoseconds now)
                    1000000000 eq_refl).
      lia. }
    destruct (normalize_in_range _ _ Hrange) as (Hvalid & Hns & _).
    assert (Hless : avs_time_duration_less AVS_TIME_DURATION_ZERO
                      (avs_time_duration_diff e now) = true).
    { apply duration_less_spec; unfold avs_time_duration_diff.
      rewrite He, Hnow; simpl andb; cbv iota.
      repeat split; [exact Hvalid|].
      rewrite Hns; unfold to_ns in *; simpl; lia. }
    rewrite Hless; reflexivity.
Qed.

(** *** Sample states *)

Definition sample_connection (socket : option avs_net_abstract_socket_t)
    (m : anjay_server_connection_mode_t) : anjay_server_connection_t :=
  mk_connection socket (mk_nontransient "" "" "") m None.

(** An entry that talks UDP: its UDP socket, its lifetime and expiry in
    seconds and its pending job. *)
Definition sample_server (id : Z) (udp : option avs_net_abstract_socket_t)
    (lifetime expire : Z) (handle : option Z) : anjay_server_info_t :=
  mk_server id handle
    (mk_data_active ANJAY_CONNECTION_UDP
       (sample_connection udp ANJAY_CONNECTION_ONLINE)
       (sample_connection None ANJAY_CONNECTION_DISABLED)
       (mk_registration_info ["rd"; "7"]
          (mk_update_parameters lifetime "U")
          (mk_real (mk_duration expire 0)))).

(** A client at [now] seconds whose transports wait at most [wait]
    seconds for a retransmitted message. *)
Definition sample_anjay (its : list anjay_server_info_t) (now wait : Z)
    : anjay_t :=
  mk_anjay (mk_sched [] 1 []) its false (mk_real (mk_duration now 0))
    (fun _ => mk_tx_params (mk_duration wait 0)) None [].

Lemma registration_expired_spec_witness :
  _anjay_server_registration_expired
    (sample_anjay [] 40 93)
    (sample_server 1 (Some (mk_socket 9 true)) 60 10 None) = true
  /\ _anjay_server_registration_expired
       (sample_anjay [] 40 93)
       (set_expire_time (sample_server 1 (Some (mk_socket 9 true)) 60 10 None)
          AVS_TIME_REAL_INVALID) = true
  /\ _anjay_server_registration_expired
       (sample_anjay [] 40 93)
       (sample_server 1 (Some (mk_socket 9 true)) 60 100 None) = false.
Proof.
  split; [|split].
  - pose proof (registration_expired_spec (sample_anjay [] 40 93)
                  (sample_server 1 (Some (mk_socket 9 true)) 60 10 None))
      as Hspec.
    cbv zeta in Hspec; destruct Hspec as (_ & _ & _ & Hpast & _).
    apply Hpast; [reflexivity | reflexivity | vm_compute; discriminate].
  - pose proof (registration_expired_spec (sample_anjay [] 40 93)
                  (set_expire_time
                     (sample_server 1 (Some (mk_socket 9 true)) 60 10 None)
                     AVS_TIME_REAL_INVALID))
      as Hspec.
    cbv zeta in Hspec; destruct Hspec as (_ & Hsentinel & _).
    apply Hsentinel; reflexivity.
  - pose proof (registration_expired_spec (sample_anjay [] 40 93)
                  (sample_server 1 (Some (mk_socket 9 true)) 60 100 None))
      as Hspec.
    cbv zeta in Hspec; destruct Hspec as (_ & _ & _ & _ & Hfuture).
    apply Hfuture;
      [reflexivity | reflexivity | reflexivity | vm_compute; discriminate].
Defined.

Lemma find_by_udp_socket_spec_witness :
  udp_online_at (sample_server 2 (Some (mk_socket 9 true)) 60 100 None) 9
  /\ _anjay_servers_find_by_udp_socket
       (sample_anjay
          [sample_server 1 (Some (mk_socket 7 false)) 60 100 None;
           sample_server 2 (Some (mk_socket 9 true)) 60 100 None] 40 93)
       (Some 7) = None.
Proof.
  split.
  - apply (proj1 (find_by_udp_socket_spec
             (sample_anjay
                [sample_server 1 (Some (mk_socket 7 false)) 60 100 None;
                 sample_server 2 (Some (mk_socket 9 true)) 60 100 None] 40 93)
             9)
             (sample_server 2 (Some (mk_socket 9 true)) 60 100 None)).
    reflexivity.
  - apply (proj2 (find_by_udp_socket_spec
             (sample_anjay
                [sample_server 1 (Some (mk_socket 7 false)) 60 100 None;
                 sample_server 2 (Some (mk_socket 9 true)) 60 100 None] 40 93)
             7)).
    intros server Hin _ (socket & Hsocket & Hconn & Haddr); simpl in Hin.
    destruct Hin as [<-|[<-|[]]]; simpl in Hsocket;
      injection Hsocket as <-; simpl in *; discriminate.
Defined.

(** ** The delay of the next Update *)

Lemma from_scalar_seconds (value : Z) :
  in_int64 value = true ->
  avs_time_duration_from_scalar value AVS_TIME_S = mk_duration value 0.
Proof.
  intros Hrange; unfold avs_time_duration_from_scalar, normalize; simpl unit_ns.
  rewrite Z.div_mul, Z.mod_mul by discriminate.
  simpl; rewrite Hrange; reflexivity.
Qed.

Lemma half_lifetime_spec (lifetime : Z) :
  0 < lifetime <= INT64_MAX ->
  let half_lifetime :=
    avs_time_duration_div (avs_time_duration_from_scalar lifetime AVS_TIME_S)
                          ANJAY_UPDATE_INTERVAL_MARGIN_FACTOR in
  avs_time_duration_valid half_lifetime = true
  /\ to_ns half_lifetime = lifetime * (NS_IN_S / 2).
Proof.
  intros Hlifetime half_lifetime; subst half_lifetime.
  rewrite from_scalar_seconds
    by (unfold in_int64, INT64_MIN, INT64_MAX in *; lia).
  unfold avs_time_duration_div, ANJAY_UPDATE_INTERVAL_MARGIN_FACTOR; simpl.
  rewrite Z.quot_div_nonneg, Z.rem_mod_nonneg by lia.
  pose proof (Z.div_mod lifetime 2) as Hdiv.
  pose proof (Z.mod_pos_bound lifetime 2 eq_refl) as Hmod.
  assert (Hrest : Z.quot (lifetime mod 2 * NS_IN_S) 2
                  = lifetime mod 2 * (NS_IN_S / 2)).
  { assert (Hcases : lifetime mod 2 = 0 \/ lifetime mod 2 = 1) by lia.
    destruct Hcases as [-> | ->]; reflexivity. }
  rewrite Hrest.
  assert (Hsmall : lifetime mod 2 * (NS_IN_S / 2) / NS_IN_S = 0).
  { apply Z.div_small; change (NS_IN_S / 2) with 500000000.
    unfold NS_IN_S; lia. }
  assert (Hrange : in_int64 (lifetime / 2
                     + lifetime mod 2 * (NS_IN_S / 2) / NS_IN_S) = true).
  { rewrite Hsmall; unfold in_int64, INT64_MIN, INT64_MAX in *; lia. }
  destruct (normalize_in_range _ _ Hrange) as (Hvalid & Hns & _).
  split; [exact Hvalid|].
  rewrite Hns; change (NS_IN_S / 2) with 500000000; unfold NS_IN_S; lia.
Qed.

Lemma duration_diff_seconds_range (a b : avs_time_duration_t) :
  in_int64 (seconds (avs_time_duration_diff a b)) = true.
Proof.
  unfold avs_time_duration_diff, normalize.
  destruct (avs_time_duration_valid a && avs_time_duration_valid b);
    [|reflexivity].
  destruct (in_int64 (seconds a - seconds b
              + (nanoseconds a - nanoseconds b) / NS_IN_S)) eqn:Hrange;
    [exact Hrange | reflexivity].
Qed.

(** What [schedule_next_update] computes when the margin is a valid,
    non-negative duration: the remaining time less the margin, or one
    second when that is shorter. *)
Lemma next_update_delay_floor (remaining margin : avs_time_duration_t) :
  avs_time_duration_valid remaining = true ->
  in_int64 (seconds remaining) = true ->
  avs_time_duration_valid margin = true ->
  0 <= to_ns margin ->
  let diff := avs_time_duration_diff remaining margin in
  to_ns (if seconds diff <? ANJAY_MIN_UPDATE_INTERVAL_S
         then avs_time_duration_from_scalar ANJAY_MIN_UPDATE_INTERVAL_S AVS_TIME_S
         else diff)
  = Z.max NS_IN_S (to_ns remaining - to_ns margin).
Proof.
  intros Hrem Hsec Hmargin Hpos diff; subst diff.
  unfold avs_time_duration_diff; rewrite Hrem, Hmargin; simpl andb; cbv iota.
  apply duration_valid_bounds in Hrem, Hmargin.
  pose proof (Z.div_mod (nanoseconds remaining - nanoseconds margin) NS_IN_S)
    as Hdiv.
  pose proof (Z.mod_pos_bound (nanoseconds remaining - nanoseconds margin)
                NS_IN_S eq_refl) as Hmod.
  destruct (in_int64 (seconds remaining - seconds margin
              + (nanoseconds remaining - nanoseconds margin) / NS_IN_S))
    eqn:Hrange.
  - destruct (normalize_in_range _ _ Hrange) as (_ & Hns & Hs).
    rewrite Hs.
    destruct (Z.ltb_spec
                (seconds remaining - seconds margin
                 + (nanoseconds remaining - nanoseconds margin) / NS_IN_S)
                ANJAY_MIN_UPDATE_INTERVAL_S) as [Hlt|Hge].
    + unfold to_ns, ANJAY_MIN_UPDATE_INTERVAL_S, NS_IN_S in *; simpl; lia.
    + rewrite Hns.
      unfold to_ns, ANJAY_MIN_UPDATE_INTERVAL_S, NS_IN_S in *; lia.
  - rewrite (normalize_out_of_range _ _ Hrange).
    change (to_ns (if seconds AVS_TIME_DURATION_INVALID
                        <? ANJAY_MIN_UPDATE_INTERVAL_S
                   then avs_time_duration_from_scalar
                          ANJAY_MIN_UPDATE_INTERVAL_S AVS_TIME_S
                   else AVS_TIME_DURATION_INVALID))
      with NS_IN_S.
    unfold in_int64 in Hsec, Hrange.
    apply andb_true_iff in Hsec as [_ Hmax]; apply Z.leb_le in Hmax.
    apply andb_false_iff in Hrange as [Hlow|Hhigh];
      [apply Z.leb_gt in Hlow | apply Z.leb_gt in Hhigh];
      unfold INT64_MIN, INT64_MAX, to_ns, NS_IN_S in *; lia.
Qed.

Lemma half_of_lifetime_ns (lifetime : Z) :
  lifetime * NS_IN_S / 2 = lifetime * (NS_IN_S / 2).
Proof.
  change (NS_IN_S / 2) with 500000000; unfold NS_IN_S.
  replace (lifetime * 1000000000) with (lifetime * 500000000 * 2) by lia.
  apply Z.div_mul; discriminate.
Qed.

(** The choice between the half lifetime and the transmit wait that ends
    [get_server_update_interval_margin]. *)
Lemma margin_is_minimum (half_lifetime wait : avs_time_duration_t) :
  avs_time_duration_valid half_lifetime = true ->
  avs_time_duration_valid wait = true ->
  let margin :=
    if avs_time_duration_less half_lifetime wait then half_lifetime else wait in
  avs_time_duration_valid margin = true
  /\ to_ns margin = Z.min (to_ns half_lifetime) (to_ns wait).
Proof.
  intros Hhalf Hwait margin; subst margin.
  destruct (avs_time_duration_less half_lifetime wait) eqn:Hless.
  - apply duration_less_spec in Hless as (_ & _ & Hlt).
    split; [exact Hhalf | lia].
  - split; [exact Hwait|].
    destruct (Z.lt_ge_cases (to_ns half_lifetime) (to_ns wait)) as [Hlt|Hge];
      [|lia].
    assert (Htrue : avs_time_duration_less half_lifetime wait = true)
      by (apply duration_less_spec; auto).
    congruence.
Qed.

(** The claim in the words of the specification, with the margin taken as
    a quarter of the lifetime. *)
Definition update_delay_as_specified (anjay : anjay_t)
    (server : anjay_server_info_t) : Prop :=
  let info := registration_info (data_active server) in
  let lifetime := lifetime_s (last_update_params info) in
  let wait :=
    max_transmit_wait
      (tx_params_for_conn_type anjay (primary_conn_type (data_active server))) in
  let margin := Z.min (lifetime * NS_IN_S / 4) (to_ns wait) in
  0 < lifetime ->
  to_ns (get_server_update_interval_margin anjay server) = margin
  /\ to_ns (next_update_delay anjay server)
     = Z.max NS_IN_S (to_ns (_anjay_register_time_remaining anjay info) - margin)
  /\ 4 * to_ns (get_server_update_interval_margin anjay server)
     <= lifetime * NS_IN_S.

Definition quarter_example_anjay : anjay_t := sample_anjay [] 0 93.

Definition quarter_example_server : anjay_server_info_t :=
  sample_server 1 (Some (mk_socket 9 true)) 60 60 None.

(** C1, as the specification states it, fails: with a lifetime of 60 s,
    60 s left and a maximum transmit wait of 93 s the margin is 30 s, not
    15 s, and the Update is scheduled after 30 s, not after 45 s. *)
Lemma update_delay_quarter_counterexample :
  to_ns (get_server_update_interval_margin
           quarter_example_anjay quarter_example_server) = 30 * NS_IN_S
  /\ to_ns (next_update_delay quarter_example_anjay quarter_example_server)
     = 30 * NS_IN_S
  /\ ~ update_delay_as_specified quarter_example_anjay quarter_example_server.
Proof.
  split; [reflexivity|split; [reflexivity|]].
  intros Hclaim; destruct (Hclaim eq_refl) as [Hmargin _].
  vm_compute in Hmargin; discriminate.
Qed.

(** C1, amended.  For an active server with lifetime [L] > 0 and a valid,
    non-negative maximum transmit wait of its primary transport, the
    margin is min(L/2, max_transmit_wait), so it never exceeds L/2; the
    delay of the next Update is the remaining lifetime less that margin,
    raised to one second when it is shorter, and it is one second when the
    remaining lifetime is invalid.  [schedule_next_update] hands exactly
    this delay to the scheduler. *)
Theorem update_delay_spec (anjay : anjay_t) (server : anjay_server_info_t) :
  let info := registration_info (data_active server) in
  let lifetime := lifetime_s (last_update_params info) in
  let wait :=
    max_transmit_wait
      (tx_params_for_conn_type anjay (primary_conn_type (data_active server))) in
  let margin := get_server_update_interval_margin anjay server in
  let remaining := _anjay_register_time_remaining anjay info in
  let delay := next_update_delay anjay server in
  0 < lifetime <= INT64_MAX ->
  avs_time_duration_valid wait = true ->
  0 <= to_ns wait ->
  to_ns margin = Z.min (lifetime * NS_IN_S / 2) (to_ns wait)
  /\ 2 * to_ns margin <= lifetime * NS_IN_S
  /\ (avs_time_duration_valid remaining = true ->
      to_ns delay = Z.max NS_IN_S (to_ns remaining - to_ns margin))
  /\ (avs_time_duration_valid remaining = false ->
      delay = mk_duration ANJAY_MIN_UPDATE_INTERVAL_S 0)
  /\ schedule_next_update anjay server = schedule_update anjay server delay.
Proof.
  intros info lifetime wait margin remaining delay Hlifetime Hwait Hpos.
  destruct (half_lifetime_spec lifetime Hlifetime) as [Hhalf_valid Hhalf_ns].
  assert (Hmargin :
    avs_time_duration_valid margin = true
    /\ to_ns margin = Z.min (lifetime * NS_IN_S / 2) (to_ns wait)).
  { rewrite half_of_lifetime_ns, <- Hhalf_ns.
    apply margin_is_minimum; assumption. }
  destruct Hmargin as [Hmargin_valid Hmargin_ns].
  assert (Hbound : 0 <= to_ns margin /\ 2 * to_ns margin <= lifetime * NS_IN_S).
  { rewrite Hmargin_ns, half_of_lifetime_ns.
    change (NS_IN_S / 2) with 500000000; unfold NS_IN_S; lia. }
  split; [exact Hmargin_ns|].
  split; [apply Hbound|].
  split; [|split; [|reflexivity]].
  - intros Hremaining; subst delay; unfold next_update_delay.
    fold info; fold remaining; fold margin.
    apply next_update_delay_floor; trivial.
    + apply duration_diff_seconds_range.
    + apply Hbound.
  - intros Hremaining; subst delay; unfold next_update_delay.
    fold info; fold remaining; fold margin.
    rewrite duration_diff_invalid by auto; reflexivity.
Qed.

Lemma update_delay_spec_witness :
  to_ns (next_update_delay (sample_anjay [] 0 5)
           (sample_server 1 (Some (mk_socket 9 true)) 60 60 None))
  = Z.max NS_IN_S
      (to_ns (_anjay_register_time_remaining (sample_anjay [] 0 5)
                (registration_info
                   (data_active
                      (sample_server 1 (Some (mk_socket 9 true)) 60 60 None))))
       - to_ns (get_server_update_interval_margin (sample_anjay [] 0 5)
                  (sample_server 1 (Some (mk_socket 9 true)) 60 60 None))).
Proof.
  pose proof (update_delay_spec (sample_anjay [] 0 5)
                (sample_server 1 (Some (mk_socket 9 true)) 60 60 None))
    as Hspec.
  cbv zeta in Hspec.
  destruct Hspec as (_ & _ & Hdelay & _);
    [vm_compute; split; [reflexivity | discriminate]
    | reflexivity
    | vm_compute; discriminate
    | ].
  apply Hdelay; reflexivity.
Defined.

(** ** The registration protocol driver *)

Lemma primary_connection_valid_set_expire_time (server : anjay_server_info_t)
    (t : avs_time_real_t) :
  _anjay_server_primary_connection_valid (set_expire_time server t)
  = _anjay_server_primary_connection_valid server.
Proof.
  unfold _anjay_server_primary_connection_valid,
    _anjay_connection_get_online_socket; simpl.
  destruct (primary_conn_type (data_active server)); reflexivity.
Qed.

(** A suspended connection keeps its socket object and everything that
    outlives a socket; only the connected flag is cleared. *)
Lemma connection_suspend_keeps (c : anjay_server_connection_t) :
  option_map socket_addr (conn_socket_ (connection_suspend c))
  = option_map socket_addr (conn_socket_ c)
  /\ nontransient_state (connection_suspend c) = nontransient_state c
  /\ mode (connection_suspend c) = mode c
  /\ _anjay_connection_is_online (connection_suspend c) = false.
Proof.
  unfold connection_suspend, _anjay_connection_is_online,
    _anjay_connection_internal_get_socket.
  destruct (conn_socket_ c) as [socket|] eqn:Hsocket; simpl;
    rewrite ?Hsocket; auto.
Qed.

Lemma suspended_primary_is_offline (server : anjay_server_info_t) :
  let server' :=
    _anjay_connection_suspend server (primary_conn_type (data_active server)) in
  primary_conn_type (data_active server') = primary_conn_type (data_active server)
  /\ _anjay_connection_get_online_socket server'
       (primary_conn_type (data_active server')) = None.
Proof.
  unfold _anjay_connection_suspend, _anjay_connection_get_online_socket.
  destruct (primary_conn_type (data_active server)) eqn:Hprimary; simpl;
    rewrite ?Hprimary; simpl; split; trivial.
  - destruct (connection_suspend_keeps (udp_connection (data_active server)))
      as (_ & _ & _ & ->); reflexivity.
  - destruct (connection_suspend_keeps (sms_connection (data_active server)))
      as (_ & _ & _ & ->); reflexivity.
Qed.

Lemma suspend_keeps_sockets (server : anjay_server_info_t)
    (suspended conn_type : anjay_connection_type_t) :
  match _anjay_get_server_connection server conn_type,
        _anjay_get_server_connection
          (_anjay_connection_suspend server suspended) conn_type with
  | Some c, Some c' =>
      option_map socket_addr (conn_socket_ c')
      = option_map socket_addr (conn_socket_ c)
      /\ nontransient_state c' = nontransient_state c
  | None, None => True
  | _, _ => False
  end.
Proof.
  destruct suspended, conn_type; simpl; auto;
    try (destruct (connection_suspend_keeps (udp_connection (data_active server)))
           as (? & ? & _); auto; fail);
    destruct (connection_suspend_keeps (sms_connection (data_active server)))
      as (? & ? & _); auto.
Qed.

(** C5.  When an Update reaches the exchange ([_anjay_update_registration]
    is called, once): a rejection gives [ANJAY_UPDATE_NEEDS_REGISTRATION]
    and leaves [expire_time] at the invalid sentinel; a network error
    gives [ANJAY_UPDATE_FAILED] and suspends the primary connection, which
    keeps its socket and is no longer online, while no reload of the
    server is scheduled and the scheduler is left alone.  Success gives
    [ANJAY_UPDATE_SUCCESS], and any other status [ANJAY_UPDATE_FAILED]
    with the connections as the exchange left them. *)
Theorem registration_update_outcomes (REJECTED NETWORK : Z)
    (ext : anjay_collaborators_t) (anjay : anjay_t)
    (server : anjay_server_info_t) :
  REJECTED <> 0 -> NETWORK <> 0 -> NETWORK <> REJECTED ->
  let exchange := _anjay_update_registration ext server in
  let run := registration_update_with_ctx REJECTED NETWORK ext anjay server in
  let result := fst (fst run) in
  let anjay' := snd (fst run) in
  let server' := snd run in
  anjay' = log_call anjay (CALL_UPDATE (ssid server))
  /\ (fst exchange = REJECTED ->
      result = ANJAY_UPDATE_NEEDS_REGISTRATION
      /\ expire_time (registration_info (data_active server'))
         = AVS_TIME_REAL_INVALID)
  /\ (fst exchange = NETWORK ->
      result = ANJAY_UPDATE_FAILED
      /\ server' = _anjay_connection_suspend (snd exchange)
                     (primary_conn_type (data_active (snd exchange)))
      /\ _anjay_connection_get_online_socket server'
           (primary_conn_type (data_active server')) = None
      /\ (forall conn_type,
            match _anjay_get_server_connection (snd exchange) conn_type,
                  _anjay_get_server_connection server' conn_type with
            | Some c, Some c' =>
                option_map socket_addr (conn_socket_ c')
                = option_map socket_addr (conn_socket_ c)
                /\ nontransient_state c' = nontransient_state c
            | None, None => True
            | _, _ => False
            end)
      /\ sched anjay' = sched anjay
      /\ calls anjay' = (calls anjay ++ [CALL_UPDATE (ssid server)])%list)
  /\ (fst exchange = 0 ->
      result = ANJAY_UPDATE_SUCCESS /\ server' = snd exchange)
  /\ (fst exchange <> 0 ->
      fst exchange <> REJECTED ->
      fst exchange <> NETWORK ->
      result = ANJAY_UPDATE_FAILED /\ server' = snd exchange).
Proof.
  intros Hrej Hnet Hdiff exchange run result anjay' server'.
  subst result anjay' server' run; unfold registration_update_with_ctx.
  fold exchange; destruct exchange as [retval server1]; simpl fst; simpl snd.
  destruct (Z.eqb_spec retval 0) as [->|Hzero]; simpl.
  - split; [reflexivity|].
    repeat split; solve [reflexivity | intros; congruence].
  - destruct (Z.eqb_spec retval REJECTED) as [->|Hrejected]; simpl.
    + split; [reflexivity|].
      repeat split; solve [reflexivity | intros; congruence].
    + destruct (Z.eqb_spec retval NETWORK) as [->|Hnetwork]; simpl.
      * split; [reflexivity|].
        split; [intros Heq; congruence|].
        split; [|split; intros; congruence].
        intros _.
        split; [reflexivity|].
        split; [reflexivity|].
        split; [apply suspended_primary_is_offline|].
        split; [intros conn_type; apply suspend_keeps_sockets|].
        split; reflexivity.
      * split; [reflexivity|].
        split; [intros Heq; congruence|].
        split; [intros Heq; congruence|].
        split; [intros Heq; congruence|].
        intros _ _ _; split; reflexivity.
Qed.

(** The full reconnect path, for comparison: it suspends every
    transport and schedules a reload of the server. *)
Lemma schedule_server_reconnect_reloads (ext : anjay_collaborators_t)
    (anjay : anjay_t) (server : anjay_server_info_t) :
  let run := _anjay_schedule_server_reconnect ext anjay server in
  calls (snd (fst run))
  = (calls anjay ++ [CALL_SCHEDULE_RELOAD (ssid server)])%list
  /\ snd run = _anjay_connection_suspend server ANJAY_CONNECTION_UNSET.
Proof.
  unfold _anjay_schedule_server_reconnect; simpl.
  destruct (primary_conn_type (data_active server)); split; reflexivity.
Qed.

(** Collaborators that answer fixed statuses and leave the entry as it
    is. *)
Definition sample_collaborators (update register setup bind deregister : Z)
    : anjay_collaborators_t :=
  mk_collaborators (fun server => (update, server)) (fun _ => true)
    (fun server => (register, server)) (fun server => (setup, server))
    (fun _ _ => bind) (fun _ => deregister) (fun _ => 0).

Lemma registration_update_outcomes_witness :
  registration_update_with_ctx 1 (-2) (sample_collaborators 1 0 0 0 0)
    (sample_anjay [] 40 93)
    (sample_server 1 (Some (mk_socket 9 true)) 60 100 None)
  = (ANJAY_UPDATE_NEEDS_REGISTRATION,
     log_call (sample_anjay [] 40 93) (CALL_UPDATE 1),
     set_expire_time (sample_server 1 (Some (mk_socket 9 true)) 60 100 None)
       AVS_TIME_REAL_INVALID)
  /\ snd (registration_update_with_ctx 1 (-2) (sample_collaborators (-2) 0 0 0 0)
            (sample_anjay [] 40 93)
            (sample_server 1 (Some (mk_socket 9 true)) 60 100 None))
     = sample_server 1 (Some (mk_socket 9 false)) 60 100 None.
Proof.
  assert (Hrej : 1 <> 0) by discriminate.
  assert (Hnet : -2 <> 0) by discriminate.
  assert (Hdiff : -2 <> 1) by discriminate.
  split.
  - pose proof (registration_update_outcomes 1 (-2)
                  (sample_collaborators 1 0 0 0 0) (sample_anjay [] 40 93)
                  (sample_server 1 (Some (mk_socket 9 true)) 60 100 None)
                  Hrej Hnet Hdiff) as Hspec.
    cbv zeta in Hspec; destruct Hspec as (_ & Hrejected & _).
    destruct (Hrejected eq_refl) as [_ _]; reflexivity.
  - pose proof (registration_update_outcomes 1 (-2)
                  (sample_collaborators (-2) 0 0 0 0) (sample_anjay [] 40 93)
                  (sample_server 1 (Some (mk_socket 9 true)) 60 100 None)
                  Hrej Hnet Hdiff) as Hspec.
    cbv zeta in Hspec; destruct Hspec as (_ & _ & Hnetwork & _).
    destruct (Hnetwork eq_refl) as (_ & Hserver & _).
    rewrite Hserver; reflexivity.
Defined.

(** C6.  On a server without a valid primary connection the Update
    attempt is classified [ANJAY_UPDATE_NEEDS_REGISTRATION] with
    [expire_time] invalidated, without any exchange; the driver then
    calls [_anjay_server_setup_primary_connection], and when that fails
    the outcome is [ANJAY_REGISTRATION_FAILED] and the set-up is the only
    call made: no Register is sent. *)
Theorem no_connection_needs_registration (REJECTED NETWORK : Z)
    (ext : anjay_collaborators_t) (anjay : anjay_t)
    (server : anjay_server_info_t) :
  _anjay_server_primary_connection_valid server = false ->
  let invalidated := set_expire_time server AVS_TIME_REAL_INVALID in
  let setup := _anjay_server_setup_primary_connection ext invalidated in
  let run := ensure_valid_registration_with_ctx REJECTED NETWORK ext anjay server in
  ensure_valid_registration_update_result REJECTED NETWORK ext anjay server
  = (ANJAY_UPDATE_NEEDS_REGISTRATION, anjay, invalidated)
  /\ registration_update_if_possible_with_ctx REJECTED NETWORK ext anjay server
     = (ANJAY_UPDATE_NEEDS_REGISTRATION, anjay, invalidated)
  /\ expire_time (registration_info (data_active invalidated))
     = AVS_TIME_REAL_INVALID
  /\ (exists rest,
        calls (snd (fst run))
        = (calls anjay
           ++ CALL_SETUP_PRIMARY_CONNECTION (ssid server) :: rest)%list)
  /\ (fst setup <> 0 ->
      run = (ANJAY_REGISTRATION_FAILED,
             log_call anjay (CALL_SETUP_PRIMARY_CONNECTION (ssid server)),
             snd setup)
      /\ calls (snd (fst run))
         = (calls anjay ++ [CALL_SETUP_PRIMARY_CONNECTION (ssid server)])%list).
Proof.
  intros Hinvalid invalidated setup run.
  assert (Hclass :
    ensure_valid_registration_update_result REJECTED NETWORK ext anjay server
    = (ANJAY_UPDATE_NEEDS_REGISTRATION, anjay, invalidated)).
  { unfold ensure_valid_registration_update_result; rewrite Hinvalid;
      reflexivity. }
  assert (Hrun :
    run = (let anjay1 :=
             log_call anjay (CALL_SETUP_PRIMARY_CONNECTION (ssid server)) in
           if negb (fst setup =? 0)
           then (ANJAY_REGISTRATION_FAILED, anjay1, snd setup)
           else do_register ext anjay1 (snd setup))).
  { subst run; unfold ensure_valid_registration_with_ctx; rewrite Hclass.
    subst invalidated.
    rewrite primary_connection_valid_set_expire_time, Hinvalid; simpl.
    fold setup; destruct setup as [status server1]; reflexivity. }
  split; [exact Hclass|].
  split; [unfold registration_update_if_possible_with_ctx; rewrite Hinvalid;
          reflexivity|].
  split; [reflexivity|].
  split.
  - rewrite Hrun; simpl.
    destruct (fst setup =? 0); simpl; [|exists []; reflexivity].
    unfold do_register.
    destruct (_anjay_register ext (snd setup)) as [retval server2]; simpl.
    destruct (retval =? 0); simpl.
    + exists [CALL_REGISTER (ssid (snd setup)); CALL_BOOTSTRAP_NOTIFY].
      rewrite <- !app_assoc; reflexivity.
    + exists [CALL_REGISTER (ssid (snd setup))].
      destruct (retval =? ANJAY_ERR_FORBIDDEN); simpl;
        rewrite <- !app_assoc; reflexivity.
  - intros Hfail; rewrite Hrun; simpl.
    destruct (Z.eqb_spec (fst setup) 0) as [Hzero|_]; [contradiction|].
    split; reflexivity.
Qed.

Lemma no_connection_needs_registration_witness :
  ensure_valid_registration_with_ctx 1 (-2) (sample_collaborators 0 0 (-1) 0 0)
    (sample_anjay [] 40 93)
    (sample_server 1 (Some (mk_socket 9 false)) 60 100 None)
  = (ANJAY_REGISTRATION_FAILED,
     log_call (sample_anjay [] 40 93) (CALL_SETUP_PRIMARY_CONNECTION 1),
     set_expire_time (sample_server 1 (Some (mk_socket 9 false)) 60 100 None)
       AVS_TIME_REAL_INVALID).
Proof.
  pose proof (no_connection_needs_registration 1 (-2)
                (sample_collaborators 0 0 (-1) 0 0) (sample_anjay [] 40 93)
                (sample_server 1 (Some (mk_socket 9 false)) 60 100 None)
                eq_refl) as Hspec.
  cbv zeta in Hspec; destruct Hspec as (_ & _ & _ & _ & Hfail).
  destruct Hfail as [Hrun _]; [simpl; discriminate | exact Hrun].
Defined.

(** C7.  [_anjay_server_deregister] answers 0 without sending the
    De-Register when the primary transport is unset (no call is made at
    all) and when the stream cannot be bound (the failed binding is the
    only call); when the stream is bound, the De-Register exchange is
    followed by the release of the stream and the result is that of the
    exchange, success or failure. *)
Theorem server_deregister_spec (ext : anjay_collaborators_t) (anjay : anjay_t)
    (server : anjay_server_info_t) :
  let conn_type := primary_conn_type (data_active server) in
  let path := endpoint_path (registration_info (data_active server)) in
  let run := _anjay_server_deregister ext anjay server in
  (conn_type = ANJAY_CONNECTION_UNSET -> run = (0, anjay))
  /\ (conn_type <> ANJAY_CONNECTION_UNSET ->
      _anjay_bind_server_stream ext server conn_type <> 0 ->
      fst run = 0
      /\ calls (snd run)
         = (calls anjay ++ [CALL_BIND_STREAM (ssid server) conn_type])%list
      /\ current_connection (snd run) = current_connection anjay)
  /\ (conn_type <> ANJAY_CONNECTION_UNSET ->
      _anjay_bind_server_stream ext server conn_type = 0 ->
      fst run = _anjay_deregister ext path
      /\ calls (snd run)
         = (calls anjay
            ++ [CALL_BIND_STREAM (ssid server) conn_type;
                CALL_DEREGISTER path;
                CALL_RELEASE_STREAM])%list
      /\ current_connection (snd run) = None).
Proof.
  intros conn_type path run; subst run; unfold _anjay_server_deregister.
  fold conn_type; fold path.
  split; [intros ->; reflexivity|].
  split.
  - intros Hset Hbind.
    apply Z.eqb_neq in Hbind.
    destruct conn_type; try congruence; simpl; rewrite Hbind; simpl; auto.
  - intros Hset Hbind.
    destruct conn_type; try congruence; simpl; rewrite Hbind; simpl;
      rewrite <- !app_assoc; auto.
Qed.

Lemma server_deregister_spec_witness :
  _anjay_server_deregister (sample_collaborators 0 0 0 (-1) 0)
    (sample_anjay [] 40 93)
    (sample_server 1 (Some (mk_socket 9 false)) 60 100 None)
  = (0, log_call (sample_anjay [] 40 93)
          (CALL_BIND_STREAM 1 ANJAY_CONNECTION_UDP))
  /\ fst (_anjay_server_deregister (sample_collaborators 0 0 0 0 (-3))
            (sample_anjay [] 40 93)
            (sample_server 1 (Some (mk_socket 9 true)) 60 100 None))
     = -3.
Proof.
  split.
  - pose proof (server_deregister_spec (sample_collaborators 0 0 0 (-1) 0)
                  (sample_anjay [] 40 93)
                  (sample_server 1 (Some (mk_socket 9 false)) 60 100 None))
      as Hspec.
    cbv zeta in Hspec; destruct Hspec as (_ & Hskip & _).
    destruct Hskip as (_ & _ & _); [discriminate | discriminate | reflexivity].
  - pose proof (server_deregister_spec (sample_collaborators 0 0 0 0 (-3))
                  (sample_anjay [] 40 93)
                  (sample_server 1 (Some (mk_socket 9 true)) 60 100 None))
      as Hspec.
    cbv zeta in Hspec; destruct Hspec as (_ & _ & Hsent).
    destruct Hsent as (Hresult & _); [discriminate | reflexivity | exact Hresult].
Defined.

(** ** One pending Update job per server *)

(** The jobs in the queue that will send an Update for the given SSID. *)
Definition pending_jobs (s : anjay_sched_t) (id : Z) : list anjay_sched_job_t :=
  filter (fun j => job_ssid j =? id) (sched_jobs s).

(** The handle kept in an entry names the only pending job of the entry,
    and an entry without a handle has no pending job. *)
Definition handle_names_jobs (s : anjay_sched_t)
    (server : anjay_server_info_t) : Prop :=
  match next_action_handle server with
  | None => pending_jobs s (ssid server) = []
  | Some h => exists j, pending_jobs s (ssid server) = [j] /\ job_handle j = h
  end.

(** The scheduler and the registry agree: handles are unique and below
    the next one to be given out, SSIDs are unique in the registry, and
    every entry's handle names its jobs. *)
Definition sched_consistent (s : anjay_sched_t)
    (its : list anjay_server_info_t) : Prop :=
  NoDup (map job_handle (sched_jobs s))
  /\ (forall j, In j (sched_jobs s) -> job_handle j < sched_next_handle s)
  /\ NoDup (map ssid its)
  /\ Forall (handle_names_jobs s) its.

(** What [_anjay_server_reschedule_update_job] and
    [reschedule_update_for_server] do to the scheduler and the entry:
    cancel the job the entry's handle names, then schedule a new job. *)
Definition cancel_then_schedule (s : anjay_sched_t)
    (server : anjay_server_info_t) (delay : avs_time_duration_t)
    : Z * anjay_sched_t * anjay_server_info_t :=
  let '(s1, h) := _anjay_sched_del s (next_action_handle server) in
  _anjay_servers_schedule_first_retryable
    s1 (set_next_action_handle server h) delay (ssid server).

(** The calls that reschedule the Update of a server: the public
    [anjay_schedule_registration_update], for one SSID or for all, and
    [_anjay_server_reschedule_update_job] on the active entry of an
    SSID. *)
Inductive reschedule_call_t : Type :=
| SCHEDULE_REGISTRATION_UPDATE (id : Z)
| RESCHEDULE_UPDATE_JOB (id : Z).

Definition run_call (anjay : anjay_t) (c : reschedule_call_t) : anjay_t :=
  match c with
  | SCHEDULE_REGISTRATION_UPDATE id =>
      snd (anjay_schedule_registration_update anjay id)
  | RESCHEDULE_UPDATE_JOB id => snd (reschedule_update_job_of anjay id)
  end.

Definition run_calls (anjay : anjay_t) (cs : list reschedule_call_t) : anjay_t :=
  fold_left run_call cs anjay.

Lemma reschedule_update_for_server_core (anjay : anjay_t)
    (server : anjay_server_info_t) :
  let core := cancel_then_schedule (sched anjay) server AVS_TIME_DURATION_ZERO in
  exists result,
    reschedule_update_for_server anjay server
    = (result, set_sched anjay (snd (fst core)), snd core).
Proof.
  unfold reschedule_update_for_server, cancel_then_schedule, schedule_update.
  destruct (_anjay_sched_del (sched anjay) (next_action_handle server))
    as [s1 h]; simpl.
  destruct (_anjay_servers_schedule_first_retryable s1
              (set_next_action_handle server h) AVS_TIME_DURATION_ZERO
              (ssid server)) as [[result s2] server2]; simpl.
  destruct (result =? 0); simpl; eexists; reflexivity.
Qed.

Lemma server_reschedule_update_job_core (anjay : anjay_t)
    (server : anjay_server_info_t) :
  exists delay result,
    _anjay_server_reschedule_update_job anjay server
    = (result,
       set_sched anjay (snd (fst (cancel_then_schedule (sched anjay) server delay))),
       snd (cancel_then_schedule (sched anjay) server delay)).
Proof.
  unfold _anjay_server_reschedule_update_job, cancel_then_schedule,
    schedule_next_update, schedule_update.
  destruct (_anjay_sched_del (sched anjay) (next_action_handle server))
    as [s1 h]; simpl.
  exists (next_update_delay (set_sched anjay s1) (set_next_action_handle server h)).
  destruct (_anjay_servers_schedule_first_retryable s1
              (set_next_action_handle server h) _ (ssid server))
    as [[result s2] server2]; simpl.
  destruct (result =? 0); simpl; eexists; reflexivity.
Qed.

(** Cancelling a job keeps the handles of the queue distinct. *)
Lemma handles_distinct_after_del (jobs : list anjay_sched_job_t) (h : Z) :
  NoDup (map job_handle jobs) ->
  NoDup (map job_handle
           (filter (fun j => negb (job_handle j =? h)) jobs)).
Proof.
  induction jobs as [|j jobs IH]; simpl; intros Hdistinct; [constructor|].
  apply NoDup_cons_iff in Hdistinct as [Hfresh Hrest].
  destruct (job_handle j =? h); simpl; [exact (IH Hrest)|].
  apply NoDup_cons; [|exact (IH Hrest)].
  rewrite in_map_iff; intros (k & Hk & Hin).
  apply filter_In in Hin as [Hin _].
  apply Hfresh; rewrite <- Hk; apply in_map; exact Hin.
Qed.

Lemma filter_filter_comm {A : Type} (p q : A -> bool) (l : list A) :
  filter p (filter q l) = filter q (filter p l).
Proof.
  induction l as [|a l IH]; simpl; [reflexivity|].
  destruct (p a) eqn:Hp, (q a) eqn:Hq; simpl; rewrite ?Hp, ?Hq, IH; reflexivity.
Qed.

Lemma filter_all {A : Type} (p : A -> bool) (l : list A) :
  (forall a, In a l -> p a = true) -> filter p l = l.
Proof.
  induction l as [|a l IH]; simpl; intros Hall; [reflexivity|].
  rewrite (Hall a) by auto; rewrite IH by auto; reflexivity.
Qed.

(** Two queued jobs with the same handle are the same job. *)
Lemma job_of_handle (jobs : list anjay_sched_job_t) (j j' : anjay_sched_job_t) :
  NoDup (map job_handle jobs) ->
  In j jobs -> In j' jobs -> job_handle j = job_handle j' -> j = j'.
Proof.
  induction jobs as [|a jobs IH]; simpl; intros Hnd Hj Hj' Heq; [tauto|].
  inversion Hnd as [|? ? Hnotin Hrest]; subst.
  destruct Hj as [->|Hj], Hj' as [->|Hj']; auto.
  - elim Hnotin; rewrite Heq; apply in_map; exact Hj'.
  - elim Hnotin; rewrite <- Heq; apply in_map; exact Hj.
Qed.

Lemma handle_names_jobs_transfer (s s' : anjay_sched_t) (id : Z)
    (l : list anjay_server_info_t) :
  (forall o, In o l -> ssid o <> id) ->
  (forall id', id' <> id -> pending_jobs s' id' = pending_jobs s id') ->
  Forall (handle_names_jobs s) l -> Forall (handle_names_jobs s') l.
Proof.
  intros Hother Hsame Hall; rewrite Forall_forall in *.
  intros o Hin; specialize (Hall o Hin); unfold handle_names_jobs in *.
  rewrite (Hsame (ssid o) (Hother o Hin)); exact Hall.
Qed.

Lemma other_entries_differ (l1 l2 : list anjay_server_info_t)
    (it : anjay_server_info_t) :
  NoDup (map ssid (l1 ++ it :: l2)) ->
  forall o, In o (l1 ++ l2) -> ssid o <> ssid it.
Proof.
  rewrite map_app; simpl; intros Hnd o Hin Heq.
  apply NoDup_remove_2 in Hnd; apply Hnd.
  rewrite <- map_app, <- Heq; apply in_map; exact Hin.
Qed.

Lemma sched_consistent_split (s : anjay_sched_t)
    (l1 l2 : list anjay_server_info_t) (it : anjay_server_info_t) :
  sched_consistent s (l1 ++ it :: l2) <->
  NoDup (map job_handle (sched_jobs s))
  /\ (forall j, In j (sched_jobs s) -> job_handle j < sched_next_handle s)
  /\ NoDup (map ssid (l1 ++ it :: l2))
  /\ handle_names_jobs s it
  /\ Forall (handle_names_jobs s) (l1 ++ l2).
Proof.
  unfold sched_consistent; rewrite !Forall_app, Forall_cons_iff; tauto.
Qed.

(** Cancelling the job of an entry leaves the entry without pending job
    and the other entries as they were. *)
Lemma sched_del_consistent (s : anjay_sched_t)
    (l1 l2 : list anjay_server_info_t) (it : anjay_server_info_t) :
  sched_consistent s (l1 ++ it :: l2) ->
  sched_consistent (fst (_anjay_sched_del s (next_action_handle it)))
    (l1 ++ set_next_action_handle it None :: l2).
Proof.
  intros Hcons; apply sched_consistent_split in Hcons
    as (Hhandles & Hbound & Hssids & Hit & Hothers).
  apply sched_consistent_split.
  pose proof (other_entries_differ l1 l2 it Hssids) as Hdiffer.
  unfold handle_names_jobs in Hit.
  destruct (next_action_handle it) as [h|] eqn:Hhandle; simpl.
  - destruct Hit as (j & Hpending & Hj).
    assert (Hjin : In j (sched_jobs s) /\ job_ssid j = ssid it).
    { assert (Hin : In j (pending_jobs s (ssid it)))
        by (rewrite Hpending; left; reflexivity).
      apply filter_In in Hin as [Hin Hid]; apply Z.eqb_eq in Hid; auto. }
    split; [apply handles_distinct_after_del; exact Hhandles|].
    split; [intros a Ha; apply filter_In in Ha as [Ha _]; auto|].
    split; [rewrite map_app in *; exact Hssids|].
    split.
    + unfold handle_names_jobs, pending_jobs in *; simpl.
      rewrite filter_filter_comm, Hpending; simpl.
      rewrite Hj, Z.eqb_refl; reflexivity.
    + apply handle_names_jobs_transfer with (s := s) (id := ssid it); trivial.
      intros id' Hid'; unfold pending_jobs; simpl.
      rewrite filter_filter_comm; apply filter_all.
      intros a Ha; apply filter_In in Ha as [Ha Hida]; apply Z.eqb_eq in Hida.
      apply negb_true_iff, Z.eqb_neq; intros Heq.
      assert (a = j) by (apply (job_of_handle (sched_jobs s)); tauto || lia).
      subst a; destruct Hjin as [_ Hjid]; congruence.
  - split; [exact Hhandles|].
    split; [exact Hbound|].
    split; [rewrite map_app in *; exact Hssids|].
    split; [exact Hit | exact Hothers].
Qed.

(** Scheduling a job for an entry without pending job gives it exactly
    one, named by its handle, or none when the scheduler has no memory. *)
Lemma schedule_first_retryable_consistent (s : anjay_sched_t)
    (l1 l2 : list anjay_server_info_t) (it : anjay_server_info_t)
    (delay : avs_time_duration_t) :
  sched_consistent s (l1 ++ it :: l2) ->
  next_action_handle it = None ->
  let run := _anjay_servers_schedule_first_retryable s it delay (ssid it) in
  sched_consistent (snd (fst run)) (l1 ++ snd run :: l2)
  /\ ssid (snd run) = ssid it.
Proof.
  intros Hcons Hnone run.
  apply sched_consistent_split in Hcons
    as (Hhandles & Hbound & Hssids & Hit & Hothers).
  pose proof (other_entries_differ l1 l2 it Hssids) as Hdiffer.
  unfold handle_names_jobs in Hit; rewrite Hnone in Hit.
  assert (Hfail : forall oom,
    sched_consistent (mk_sched (sched_jobs s) (sched_next_handle s) oom)
      (l1 ++ it :: l2)).
  { intros oom; apply sched_consistent_split; simpl.
    repeat split; trivial.
    unfold handle_names_jobs; rewrite Hnone; exact Hit. }
  assert (Hok : forall oom,
    sched_consistent
      (mk_sched (sched_jobs s ++ [mk_job (sched_next_handle s) delay (ssid it)])
                (sched_next_handle s + 1) oom)
      (l1 ++ set_next_action_handle it (Some (sched_next_handle s)) :: l2)).
  { intros oom; apply sched_consistent_split; simpl.
    split.
    { rewrite map_app; simpl.
      apply NoDup_app_remove_l with (l := []); simpl.
      apply Permutation_NoDup with
        (l := sched_next_handle s :: map job_handle (sched_jobs s)).
      - apply Permutation_cons_append.
      - constructor; [|exact Hhandles].
        intros Hin; apply in_map_iff in Hin as (j & Hj & Hin).
        specialize (Hbound j Hin); lia. }
    split.
    { intros j Hin; apply in_app_iff in Hin as [Hin|[<-|[]]]; simpl;
        [specialize (Hbound j Hin)|]; lia. }
    split; [rewrite map_app in *; exact Hssids|].
    split.
    - unfold handle_names_jobs, pending_jobs in *; simpl.
      rewrite filter_app, Hit; simpl; rewrite Z.eqb_refl.
      eexists; split; reflexivity.
    - apply handle_names_jobs_transfer with (s := s) (id := ssid it); trivial.
      intros id' Hid'; unfold pending_jobs; simpl.
      rewrite filter_app; simpl.
      destruct (Z.eqb_spec (ssid it) id'); [congruence|].
      apply app_nil_r. }
  subst run; unfold _anjay_servers_schedule_first_retryable.
  destruct (sched_oom s) as [|[|] oom]; simpl; split; trivial.
Qed.

Lemma cancel_then_schedule_consistent (s : anjay_sched_t)
    (l1 l2 : list anjay_server_info_t) (it : anjay_server_info_t)
    (delay : avs_time_duration_t) :
  sched_consistent s (l1 ++ it :: l2) ->
  let run := cancel_then_schedule s it delay in
  sched_consistent (snd (fst run)) (l1 ++ snd run :: l2)
  /\ ssid (snd run) = ssid it
  /\ _anjay_server_active (snd run) = _anjay_server_active it.
Proof.
  intros Hcons run; subst run; unfold cancel_then_schedule.
  pose proof (sched_del_consistent s l1 l2 it Hcons) as Hdel.
  destruct (_anjay_sched_del s (next_action_handle it)) as [s1 h] eqn:Hrun.
  assert (Hh : h = None).
  { unfold _anjay_sched_del in Hrun.
    destruct (next_action_handle it); injection Hrun as _ <-; reflexivity. }
  subst h; simpl in Hdel.
  destruct (schedule_first_retryable_consistent s1 l1 l2
              (set_next_action_handle it None) delay Hdel eq_refl)
    as [Hsched Hssid].
  simpl in Hsched, Hssid.
  split; [exact Hsched|split; [exact Hssid|]].
  unfold _anjay_servers_schedule_first_retryable.
  destruct (sched_oom s1) as [|[|] oom]; reflexivity.
Qed.

Lemma reschedule_update_loop_consistent (its : list anjay_server_info_t) :
  forall (anjay : anjay_t) (l1 : list anjay_server_info_t) (result : Z),
    sched_consistent (sched anjay) (l1 ++ its) ->
    let run := reschedule_update_loop anjay its result in
    sched_consistent (sched (snd (fst run))) (l1 ++ snd run).
Proof.
  induction its as [|it rest IH]; simpl; intros anjay l1 result Hcons;
    [exact Hcons|].
  destruct (_anjay_server_active it).
  - destruct (reschedule_update_for_server_core anjay it) as [partial Hcore].
    cbv zeta in Hcore; rewrite Hcore.
    destruct (cancel_then_schedule_consistent (sched anjay) l1 rest it
                AVS_TIME_DURATION_ZERO Hcons) as (Hstep & _).
    cbv zeta in Hstep.
    set (anjay1 := set_sched anjay
           (snd (fst (cancel_then_schedule (sched anjay) it
                        AVS_TIME_DURATION_ZERO)))) in *.
    set (it1 := snd (cancel_then_schedule (sched anjay) it
                       AVS_TIME_DURATION_ZERO)) in *.
    specialize (IH anjay1 (l1 ++ [it1])%list
                  (if result =? 0 then partial else result)).
    rewrite <- app_assoc in IH; simpl in IH; specialize (IH Hstep).
    destruct (reschedule_update_loop anjay1 rest
                (if result =? 0 then partial else result))
      as [[result' anjay'] rest'].
    simpl in *; rewrite <- app_assoc in IH; exact IH.
  - specialize (IH anjay (l1 ++ [it])%list result).
    rewrite <- app_assoc in IH; simpl in IH; specialize (IH Hcons).
    destruct (reschedule_update_loop anjay rest result)
      as [[result' anjay'] rest'].
    simpl in *; rewrite <- app_assoc in IH; exact IH.
Qed.

(** The entry that [_anjay_servers_find_active] returns sits in the
    registry, and [store_active] writes to its place. *)
Lemma find_active_place (id : Z) (its : list anjay_server_info_t) :
  fst (foreach_active its find_active_clb (mk_find_active_args id None)) = 0
  /\ forall server,
       arg_found (snd (foreach_active its find_active_clb
                         (mk_find_active_args id None))) = Some server ->
       exists l1 l2,
         its = (l1 ++ server :: l2)%list
         /\ forall server',
              store_active its id server' = (l1 ++ server' :: l2)%list.
Proof.
  induction its as [|it rest [IHres IHfound]]; simpl.
  - split; [reflexivity | discriminate].
  - destruct (_anjay_server_active it); simpl.
    + unfold find_active_clb at 1 3, _anjay_server_ssid; simpl.
      destruct (ssid it =? id); simpl.
      * split; [reflexivity|].
        intros server Hfound; injection Hfound as <-.
        exists [], rest; split; reflexivity.
      * split; [exact IHres|].
        intros server Hfound.
        destruct (IHfound server Hfound) as (l1 & l2 & -> & Hstore).
        exists (it :: l1), l2; split; [reflexivity|].
        intros server'; rewrite Hstore; reflexivity.
    + split; [exact IHres|].
      intros server Hfound.
      destruct (IHfound server Hfound) as (l1 & l2 & -> & Hstore).
      exists (it :: l1), l2; split; [reflexivity|].
      intros server'; rewrite Hstore; reflexivity.
Qed.

Lemma servers_find_active_place (anjay : anjay_t) (id : Z)
    (server : anjay_server_info_t) :
  _anjay_servers_find_active anjay id = Some server ->
  exists l1 l2,
    servers anjay = (l1 ++ server :: l2)%list
    /\ forall server',
         store_active (servers anjay) id server' = (l1 ++ server' :: l2)%list.
Proof.
  unfold _anjay_servers_find_active, _anjay_servers_foreach_active.
  destruct (find_active_place id (servers anjay)) as [Hres Hfound].
  destruct (foreach_active (servers anjay) find_active_clb
              (mk_find_active_args id None)) as [result args].
  simpl in *; subst result; simpl; apply Hfound.
Qed.

Lemma run_call_consistent (anjay : anjay_t) (c : reschedule_call_t) :
  sched_consistent (sched anjay) (servers anjay) ->
  sched_consistent (sched (run_call anjay c)) (servers (run_call anjay c)).
Proof.
  intros Hcons; destruct c as [id|id]; simpl.
  - unfold anjay_schedule_registration_update.
    destruct (anjay_is_offline anjay); [exact Hcons|].
    destruct (id =? ANJAY_SSID_ANY).
    + unfold reschedule_update_for_all_servers.
      pose proof (reschedule_update_loop_consistent (servers anjay) anjay [] 0
                    Hcons) as Hloop.
      destruct (reschedule_update_loop anjay (servers anjay) 0)
        as [[result anjay'] its]; simpl in *; exact Hloop.
    + destruct (_anjay_servers_find_active anjay id) as [server|] eqn:Hfind;
        [|exact Hcons].
      destruct (servers_find_active_place anjay id server Hfind)
        as (l1 & l2 & Hservers & Hstore).
      destruct (reschedule_update_for_server_core anjay server)
        as [result Hcore].
      cbv zeta in Hcore; rewrite Hcore; simpl.
      rewrite Hstore; rewrite Hservers in Hcons.
      apply (cancel_then_schedule_consistent _ _ _ _ _ Hcons).
  - unfold reschedule_update_job_of.
    destruct (_anjay_servers_find_active anjay id) as [server|] eqn:Hfind;
      [|exact Hcons].
    destruct (servers_find_active_place anjay id server Hfind)
      as (l1 & l2 & Hservers & Hstore).
    destruct (server_reschedule_update_job_core anjay server)
      as (delay & result & Hcore).
    rewrite Hcore; simpl.
    rewrite Hstore; rewrite Hservers in Hcons.
    apply (cancel_then_schedule_consistent _ _ _ _ _ Hcons).
Qed.

Lemma consistent_one_pending (s : anjay_sched_t)
    (its : list anjay_server_info_t) (server : anjay_server_info_t) :
  sched_consistent s its -> In server its ->
  (List.length (pending_jobs s (ssid server)) <= 1)%nat.
Proof.
  intros (_ & _ & _ & Hall) Hin.
  rewrite Forall_forall in Hall; specialize (Hall server Hin).
  unfold handle_names_jobs in Hall.
  destruct (next_action_handle server).
  - destruct Hall as (j & -> & _); simpl; lia.
  - rewrite Hall; simpl; lia.
Qed.

(** The queue after cancelling and scheduling: the old queue without the
    job the entry's handle named, and at most one new job. *)
Lemma cancel_then_schedule_jobs (s : anjay_sched_t)
    (server : anjay_server_info_t) (delay : avs_time_duration_t) :
  exists added,
    sched_jobs (snd (fst (cancel_then_schedule s server delay)))
    = (sched_jobs (fst (_anjay_sched_del s (next_action_handle server)))
       ++ added)%list
    /\ (List.length added <= 1)%nat.
Proof.
  unfold cancel_then_schedule.
  destruct (_anjay_sched_del s (next_action_handle server)) as [s1 h]; simpl.
  unfold _anjay_servers_schedule_first_retryable.
  destruct (sched_oom s1) as [|[|] oom]; simpl;
    try (eexists; split; [reflexivity | simpl; lia]).
  exists []; rewrite app_nil_r; split; [reflexivity | simpl; lia].
Qed.

(** C9.  [_anjay_server_reschedule_update_job] and
    [reschedule_update_for_server] first cancel the job that the entry's
    [next_action_handle] names and then add at most one job; hence, from
    a state where the handles of the entries name their pending jobs,
    every sequence of reschedule calls leads to a state of the same kind,
    in which each entry of the registry has at most one pending Update
    job. *)
Theorem one_pending_update_job (anjay : anjay_t)
    (cs : list reschedule_call_t) :
  (forall server,
     exists added added',
       sched_jobs (sched (snd (fst (reschedule_update_for_server anjay server))))
       = (sched_jobs (fst (_anjay_sched_del (sched anjay)
                             (next_action_handle server))) ++ added)%list
       /\ sched_jobs (sched (snd (fst (_anjay_server_reschedule_update_job
                                         anjay server))))
          = (sched_jobs (fst (_anjay_sched_del (sched anjay)
                                (next_action_handle server))) ++ added')%list
       /\ (List.length added <= 1)%nat
       /\ (List.length added' <= 1)%nat)
  /\ (sched_consistent (sched anjay) (servers anjay) ->
      sched_consistent (sched (run_calls anjay cs)) (servers (run_calls anjay cs))
      /\ forall server,
           In server (servers (run_calls anjay cs)) ->
           (List.length (pending_jobs (sched (run_calls anjay cs)) (ssid server))
            <= 1)%nat).
Proof.
  split.
  - intros server.
    destruct (reschedule_update_for_server_core anjay server) as [r Hcore].
    destruct (server_reschedule_update_job_core anjay server)
      as (delay & r' & Hcore').
    cbv zeta in Hcore; rewrite Hcore, Hcore'; simpl.
    destruct (cancel_then_schedule_jobs (sched anjay) server
                AVS_TIME_DURATION_ZERO) as (added & Hadded & Hlen).
    destruct (cancel_then_schedule_jobs (sched anjay) server delay)
      as (added' & Hadded' & Hlen').
    exists added, added'; auto.
  - intros Hcons.
    assert (Hfinal : sched_consistent (sched (run_calls anjay cs))
                       (servers (run_calls anjay cs))).
    { unfold run_calls; revert anjay Hcons.
      induction cs as [|c cs IH]; simpl; intros anjay Hcons; [exact Hcons|].
      apply IH, run_call_consistent, Hcons. }
    split; [exact Hfinal|].
    intros server Hin; eapply consistent_one_pending; eauto.
Qed.

(** Two servers with online UDP sockets and nothing scheduled yet. *)
Definition two_servers_anjay : anjay_t :=
  sample_anjay
    [sample_server 1 (Some (mk_socket 8 true)) 60 100 None;
     sample_server 2 (Some (mk_socket 9 true)) 60 100 None] 40 93.

Definition sample_calls : list reschedule_call_t :=
  [SCHEDULE_REGISTRATION_UPDATE ANJAY_SSID_ANY;
   RESCHEDULE_UPDATE_JOB 1;
   SCHEDULE_REGISTRATION_UPDATE 2;
   SCHEDULE_REGISTRATION_UPDATE 1].

Lemma two_servers_consistent :
  sched_consistent (sched two_servers_anjay) (servers two_servers_anjay).
Proof.
  unfold sched_consistent; simpl.
  split; [constructor|].
  split; [intros j []|].
  split; [repeat constructor; simpl; intuition lia|].
  repeat constructor.
Qed.

Lemma one_pending_update_job_witness :
  map job_ssid (sched_jobs (sched (run_calls two_servers_anjay sample_calls)))
  = [2; 1]
  /\ forall server,
       In server (servers (run_calls two_servers_anjay sample_calls)) ->
       (List.length
          (pending_jobs (sched (run_calls two_servers_anjay sample_calls))
             (ssid server)) <= 1)%nat.
Proof.
  split; [reflexivity|].
  exact (proj2 (proj2 (one_pending_update_job two_servers_anjay sample_calls)
                  two_servers_consistent)).
Defined.

(** Without the cancellation the property is lost: scheduling twice
    through [schedule_update] alone leaves two pending jobs for the
    server. *)
Example schedule_without_cancel_duplicates :
  let server := sample_server 1 (Some (mk_socket 8 true)) 60 100 None in
  let '(_, anjay1, server1) :=
    schedule_update two_servers_anjay server AVS_TIME_DURATION_ZERO in
  let '(_, anjay2, _) := schedule_update anjay1 server1 AVS_TIME_DURATION_ZERO in
  List.length (pending_jobs (sched anjay2) 1) = 2%nat.
Proof. reflexivity. Qed.

(** * Further properties of the code *)

(** ** Lookup by SSID ([servers_utils.c]) *)

Lemma find_active_walk (id : Z) (its : list anjay_server_info_t) :
  foreach_active its find_active_clb (mk_find_active_args id None)
  = (0,
     mk_find_active_args id
       (find (fun server =>
                _anjay_server_active server && (ssid server =? id)) its)).
Proof.
  induction its as [|it rest IH]; simpl; [reflexivity|].
  destruct (_anjay_server_active it); simpl; [|exact IH].
  unfold find_active_clb at 1, _anjay_server_ssid; simpl.
  destruct (ssid it =? id); simpl; [reflexivity | exact IH].
Qed.

(** X1.  [_anjay_servers_find_active] returns the first entry of the
    registry that is active and has the given SSID, entries that are
    inactive being passed over even when their SSID matches; it returns
    the null pointer exactly when no active entry has that SSID. *)
Theorem servers_find_active_spec (anjay : anjay_t) (id : Z) :
  (forall server,
     _anjay_servers_find_active anjay id = Some server ->
     _anjay_server_active server = true
     /\ ssid server = id
     /\ exists before after,
          servers anjay = (before ++ server :: after)%list
          /\ forall other,
               In other before ->
               _anjay_server_active other = false \/ ssid other <> id)
  /\ (_anjay_servers_find_active anjay id = None <->
      forall server,
        In server (servers anjay) ->
        _anjay_server_active server = true -> ssid server <> id).
Proof.
  unfold _anjay_servers_find_active, _anjay_servers_foreach_active.
  rewrite find_active_walk; simpl; split.
  - generalize (servers anjay) as its.
    induction its as [|it rest IH]; simpl; intros server Hfind; [discriminate|].
    destruct (_anjay_server_active it && (ssid it =? id)) eqn:Htest.
    + injection Hfind as <-.
      apply andb_prop in Htest as [Hactive Hid]; apply Z.eqb_eq in Hid.
      split; [exact Hactive|split; [exact Hid|]].
      exists [], rest; split; [reflexivity | intros other []].
    + destruct (IH server Hfind) as (Hactive & Hid & before & after & -> & Hfirst).
      split; [exact Hactive|split; [exact Hid|]].
      exists (it :: before), after; split; [reflexivity|].
      intros other [<-|Hin]; [|auto].
      apply andb_false_iff in Htest as [Hinactive|Hother]; [auto|].
      right; apply Z.eqb_neq; exact Hother.
  - split.
    + intros Hnone server Hin Hactive Hid.
      pose proof (find_none _ _ Hnone server Hin) as Htest; simpl in Htest.
      rewrite Hactive in Htest; apply Z.eqb_eq in Hid; simpl in Htest.
      congruence.
    + intros Hnone.
      destruct (find _ (servers anjay)) as [server|] eqn:Hfind; [|reflexivity].
      apply find_some in Hfind as [Hin Htest].
      apply andb_prop in Htest as [Hactive Hid]; apply Z.eqb_eq in Hid.
      elim (Hnone server Hin Hactive Hid).
Qed.

Lemma servers_find_active_spec_witness :
  _anjay_servers_find_active
    (sample_anjay
       [sample_server 2 None 60 100 None;
        sample_server 2 (Some (mk_socket 9 false)) 60 100 None] 40 93) 3
  = None.
Proof.
  apply (proj2 (servers_find_active_spec
           (sample_anjay
              [sample_server 2 None 60 100 None;
               sample_server 2 (Some (mk_socket 9 false)) 60 100 None] 40 93)
           3)).
  intros server Hin _; simpl in Hin.
  destruct Hin as [<-|[<-|[]]]; simpl; discriminate.
Defined.

(** ** Binding mode of a pair of connection modes ([servers_utils.c]) *)

(** The pairs of modes for which a binding mode exists: some transport is
    enabled, and SMS is not in queue mode next to an enabled UDP. *)
Definition modes_have_binding
    (udp_mode sms_mode : anjay_server_connection_mode_t) : bool :=
  match udp_mode, sms_mode with
  | ANJAY_CONNECTION_DISABLED, ANJAY_CONNECTION_DISABLED => false
  | ANJAY_CONNECTION_ONLINE, ANJAY_CONNECTION_QUEUE => false
  | ANJAY_CONNECTION_QUEUE, ANJAY_CONNECTION_QUEUE => false
  | _, _ => true
  end.

Ltac binding_cases :=
  unfold binding_mode_from_connection_modes, append_str, avs_simple_snprintf;
  simpl;
  repeat match goal with
         | |- context [if ?a <? ?b then _ else _] =>
             destruct (Z.ltb_spec a b); simpl
         | |- context [if ?a <=? ?b then _ else _] =>
             destruct (Z.leb_spec a b); simpl
         end.

(** X2.  With room for four bytes, [binding_mode_from_connection_modes]
    succeeds exactly on the pairs of modes that have a binding mode: it
    answers -1 when both transports are disabled and when SMS is in queue
    mode while UDP is enabled (USQ and UQSQ are no binding modes), and
    otherwise 0 with one of the six valid strings in the buffer. *)
Theorem binding_mode_from_connection_modes_result (out_size : Z)
    (udp_mode sms_mode : anjay_server_connection_mode_t) :
  4 <= out_size ->
  let run := binding_mode_from_connection_modes out_size udp_mode sms_mode in
  (modes_have_binding udp_mode sms_mode = true ->
   fst run = 0 /\ In (snd run) VALID_BINDINGS)
  /\ (modes_have_binding udp_mode sms_mode = false -> fst run = -1).
Proof.
  intros Hsize run; subst run.
  destruct udp_mode, sms_mode; simpl modes_have_binding;
    (split; [intros Hb | intros Hb]); try discriminate;
    binding_cases; try lia; simpl; auto 10.
Qed.

Lemma binding_mode_from_connection_modes_result_witness :
  fst (binding_mode_from_connection_modes 8
         ANJAY_CONNECTION_ONLINE ANJAY_CONNECTION_QUEUE) = -1
  /\ binding_mode_from_connection_modes 8
       ANJAY_CONNECTION_DISABLED ANJAY_CONNECTION_QUEUE = (0, "SQ").
Proof.
  assert (Hsize : 4 <= 8) by lia.
  split.
  - exact (proj2 (binding_mode_from_connection_modes_result 8
                    ANJAY_CONNECTION_ONLINE ANJAY_CONNECTION_QUEUE Hsize)
             eq_refl).
  - destruct (proj1 (binding_mode_from_connection_modes_result 8
                       ANJAY_CONNECTION_DISABLED ANJAY_CONNECTION_QUEUE Hsize)
                eq_refl) as [_ _].
    reflexivity.
Defined.

(** X3.  Whatever the size of the buffer, a binding mode that
    [binding_mode_from_connection_modes] reports as written reads back,
    through [_anjay_get_connection_mode], as the two modes it was built
    from. *)
Theorem connection_modes_round_trip (out_size : Z)
    (udp_mode sms_mode : anjay_server_connection_mode_t) :
  let run := binding_mode_from_connection_modes out_size udp_mode sms_mode in
  fst run = 0 ->
  _anjay_get_connection_mode (snd run) ANJAY_CONNECTION_UDP = udp_mode
  /\ _anjay_get_connection_mode (snd run) ANJAY_CONNECTION_SMS = sms_mode.
Proof.
  intros run; subst run.
  destruct udp_mode, sms_mode; binding_cases; intros Hok;
    try discriminate; split; reflexivity.
Qed.

Lemma connection_modes_round_trip_witness :
  _anjay_get_connection_mode
    (snd (binding_mode_from_connection_modes 8
            ANJAY_CONNECTION_QUEUE ANJAY_CONNECTION_ONLINE))
    ANJAY_CONNECTION_UDP = ANJAY_CONNECTION_QUEUE.
Proof.
  exact (proj1 (connection_modes_round_trip 8
                  ANJAY_CONNECTION_QUEUE ANJAY_CONNECTION_ONLINE eq_refl)).
Defined.

(** ** What rescheduling leaves in the queue (second part of [utils_core.c]) *)

Lemma sched_del_own_jobs (s : anjay_sched_t) (server : anjay_server_info_t) :
  handle_names_jobs s server ->
  pending_jobs (fst (_anjay_sched_del s (next_action_handle server)))
    (ssid server) = [].
Proof.
  unfold handle_names_jobs, _anjay_sched_del.
  destruct (next_action_handle server) as [h|]; simpl; [|auto].
  intros (j & Hpending & Hj); unfold pending_jobs in *; simpl.
  rewrite filter_filter_comm, Hpending; simpl.
  rewrite Hj, Z.eqb_refl; reflexivity.
Qed.

Lemma sched_del_other_jobs (s : anjay_sched_t) (server : anjay_server_info_t)
    (id : Z) :
  NoDup (map job_handle (sched_jobs s)) ->
  handle_names_jobs s server ->
  id <> ssid server ->
  pending_jobs (fst (_anjay_sched_del s (next_action_handle server))) id
  = pending_jobs s id.
Proof.
  unfold handle_names_jobs, _anjay_sched_del.
  destruct (next_action_handle server) as [h|]; simpl; [|auto].
  intros Hdistinct (j & Hpending & Hj) Hid; unfold pending_jobs in *; simpl.
  assert (Hjin : In j (filter (fun k => job_ssid k =? ssid server) (sched_jobs s)))
    by (rewrite Hpending; left; reflexivity).
  apply filter_In in Hjin as [Hjin Hjid]; apply Z.eqb_eq in Hjid.
  rewrite filter_filter_comm; apply filter_all.
  intros a Ha; apply filter_In in Ha as [Ha Hida]; apply Z.eqb_eq in Hida.
  apply negb_true_iff, Z.eqb_neq; intros Heq.
  assert (a = j) by (apply (job_of_handle (sched_jobs s)); trivial; lia).
  subst a; congruence.
Qed.

Lemma sched_del_keeps_rest (s : anjay_sched_t) (handle : option Z) :
  snd (_anjay_sched_del s handle) = None
  /\ sched_next_handle (fst (_anjay_sched_del s handle)) = sched_next_handle s
  /\ sched_oom (fst (_anjay_sched_del s handle)) = sched_oom s.
Proof. destruct handle; simpl; auto. Qed.

(** The outcome of [_anjay_servers_schedule_first_retryable]: failure
    when the scheduler is out of memory, and otherwise one more job. *)
Lemma schedule_first_retryable_outcome (s : anjay_sched_t)
    (server : anjay_server_info_t) (delay : avs_time_duration_t) (id : Z) :
  let run := _anjay_servers_schedule_first_retryable s server delay id in
  (fst (fst run) = -1
   /\ sched_jobs (snd (fst run)) = sched_jobs s
   /\ snd run = server
   /\ exists oom, sched_oom s = true :: oom)
  \/ (fst (fst run) = 0
      /\ sched_jobs (snd (fst run))
         = (sched_jobs s ++ [mk_job (sched_next_handle s) delay id])%list
      /\ snd run = set_next_action_handle server (Some (sched_next_handle s))
      /\ forall oom, sched_oom s <> true :: oom).
Proof.
  unfold _anjay_servers_schedule_first_retryable.
  destruct (sched_oom s) as [|[|] oom]; simpl.
  - right; repeat split; discriminate.
  - left; repeat split; exists oom; reflexivity.
  - right; repeat split; discriminate.
Qed.

Lemma next_update_delay_frame (anjay : anjay_t) (server : anjay_server_info_t)
    (s : anjay_sched_t) (h : option Z) :
  next_update_delay (set_sched anjay s) (set_next_action_handle server h)
  = next_update_delay anjay server.
Proof. reflexivity. Qed.

(** What cancelling and scheduling does to the jobs, seen per SSID. *)
Lemma cancel_then_schedule_post (s : anjay_sched_t)
    (server : anjay_server_info_t) (delay : avs_time_duration_t) :
  NoDup (map job_handle (sched_jobs s)) ->
  handle_names_jobs s server ->
  let run := cancel_then_schedule s server delay in
  (fst (fst run) = 0 \/ fst (fst run) = -1)
  /\ (fst (fst run) = 0 ->
      next_action_handle (snd run) = Some (sched_next_handle s)
      /\ pending_jobs (snd (fst run)) (ssid server)
         = [mk_job (sched_next_handle s) delay (ssid server)])
  /\ (fst (fst run) = -1 ->
      next_action_handle (snd run) = None
      /\ pending_jobs (snd (fst run)) (ssid server) = [])
  /\ (forall id, id <> ssid server ->
      pending_jobs (snd (fst run)) id = pending_jobs s id)
  /\ ssid (snd run) = ssid server
  /\ data_active (snd run) = data_active server.
Proof.
  intros Hdistinct Hnames run; subst run; unfold cancel_then_schedule.
  pose proof (sched_del_own_jobs s server Hnames) as Hown.
  pose proof (fun id => sched_del_other_jobs s server id Hdistinct Hnames)
    as Hother.
  destruct (sched_del_keeps_rest s (next_action_handle server))
    as (Hnone & Hnext & _).
  destruct (_anjay_sched_del s (next_action_handle server)) as [s1 h].
  simpl in *; subst h.
  destruct (schedule_first_retryable_outcome s1
              (set_next_action_handle server None) delay (ssid server))
    as [(Hres & Hjobs & Hserver & _)|(Hres & Hjobs & Hserver & _)];
    cbv zeta in *; rewrite Hres, Hserver; unfold pending_jobs in *;
    rewrite Hjobs.
  - split; [auto|].
    split; [intros; discriminate|].
    split; [intros _; split; [reflexivity | exact Hown]|].
    split; [exact Hother | split; reflexivity].
  - split; [auto|].
    split.
    { intros _; rewrite Hnext; split; [reflexivity|].
      rewrite filter_app, Hown; simpl; rewrite Z.eqb_refl; reflexivity. }
    split; [intros; discriminate|].
    split; [|split; reflexivity].
    intros id Hid; rewrite filter_app, (Hother id Hid); simpl.
    destruct (Z.eqb_spec (ssid server) id); [congruence | apply app_nil_r].
Qed.

(** X4.  After [_anjay_server_reschedule_update_job] on an entry whose
    handle names its pending job, the entry has exactly one pending job,
    with the delay of [schedule_next_update] and named by the new handle,
    or, when the scheduler is out of memory, the result is -1 and the
    entry has no pending job and no handle: the job that was pending
    before is gone in both cases.  The jobs of other SSIDs and the
    registration data of the entry are untouched. *)
Theorem server_reschedule_update_job_post (anjay : anjay_t)
    (server : anjay_server_info_t) :
  NoDup (map job_handle (sched_jobs (sched anjay))) ->
  handle_names_jobs (sched anjay) server ->
  let run := _anjay_server_reschedule_update_job anjay server in
  let result := fst (fst run) in
  let anjay' := snd (fst run) in
  let server' := snd run in
  (result = 0 \/ result = -1)
  /\ (result = 0 ->
      exists h,
        next_action_handle server' = Some h
        /\ pending_jobs (sched anjay') (ssid server)
           = [mk_job h (next_update_delay anjay server) (ssid server)])
  /\ (result = -1 ->
      next_action_handle server' = None
      /\ pending_jobs (sched anjay') (ssid server) = [])
  /\ (forall id, id <> ssid server ->
      pending_jobs (sched anjay') id = pending_jobs (sched anjay) id)
  /\ data_active server' = data_active server.
Proof.
  intros Hdistinct Hnames run result anjay' server'.
  subst result anjay' server' run.
  unfold _anjay_server_reschedule_update_job, schedule_next_update,
    schedule_update.
  pose proof (cancel_then_schedule_post (sched anjay) server
                (next_update_delay anjay server) Hdistinct Hnames) as Hpost.
  cbv zeta in Hpost; unfold cancel_then_schedule in Hpost.
  destruct (_anjay_sched_del (sched anjay) (next_action_handle server))
    as [s1 h].
  rewrite next_update_delay_frame; simpl sched; simpl ssid.
  destruct (_anjay_servers_schedule_first_retryable s1
              (set_next_action_handle server h)
              (next_update_delay anjay server) (ssid server))
    as [[status s2] server2].
  simpl in Hpost.
  destruct Hpost as (Hstatus & Hok & Hfail & Hother & _ & Hdata).
  destruct Hstatus as [-> | ->]; simpl.
  - split; [auto|].
    split; [intros _; eexists; exact (Hok eq_refl)|].
    split; [intros; discriminate|].
    split; [exact Hother | exact Hdata].
  - split; [auto|].
    split; [intros; discriminate|].
    split; [intros _; exact (Hfail eq_refl)|].
    split; [exact Hother | exact Hdata].
Qed.

(** A client with one job in the queue, for SSID 1 under handle 5, and
    the given coming allocation failures of the scheduler. *)
Definition queued_anjay (its : list anjay_server_info_t) (oom : list bool)
    : anjay_t :=
  mk_anjay (mk_sched [mk_job 5 (mk_duration 30 0) 1] 6 oom) its false
    (mk_real (mk_duration 40 0)) (fun _ => mk_tx_params (mk_duration 93 0))
    None [].

Definition queued_server : anjay_server_info_t :=
  sample_server 1 (Some (mk_socket 8 true)) 60 100 (Some 5).

Lemma queued_server_names_job (its : list anjay_server_info_t)
    (oom : list bool) :
  NoDup (map job_handle (sched_jobs (sched (queued_anjay its oom))))
  /\ handle_names_jobs (sched (queued_anjay its oom)) queued_server.
Proof.
  split; [repeat constructor; simpl; tauto|].
  unfold handle_names_jobs; simpl; eexists; split; reflexivity.
Qed.

Lemma server_reschedule_update_job_post_witness :
  fst (fst (_anjay_server_reschedule_update_job
              (queued_anjay [] [true]) queued_server)) = -1
  /\ pending_jobs
       (sched (snd (fst (_anjay_server_reschedule_update_job
                           (queued_anjay [] [true]) queued_server)))) 1 = []
  /\ pending_jobs
       (sched (snd (fst (_anjay_server_reschedule_update_job
                           (queued_anjay [] []) queued_server)))) 1
     = [mk_job 6 (mk_duration 30 0) 1].
Proof.
  destruct (queued_server_names_job [] [true]) as [Hdistinct Hnames].
  pose proof (server_reschedule_update_job_post (queued_anjay [] [true])
                queued_server Hdistinct Hnames) as Hfail.
  destruct (queued_server_names_job [] []) as [Hdistinct' Hnames'].
  pose proof (server_reschedule_update_job_post (queued_anjay [] [])
                queued_server Hdistinct' Hnames') as Hok.
  cbv zeta in Hfail, Hok.
  destruct Hfail as (_ & _ & Hfail & _).
  destruct Hok as (_ & Hok & _).
  split; [reflexivity|].
  split; [exact (proj2 (Hfail eq_refl))|].
  destruct (Hok eq_refl) as (h & _ & _); reflexivity.
Defined.

(** ** Scheduling a registration update (second part of [utils_core.c]) *)

Lemma servers_find_active_ssid (anjay : anjay_t) (id : Z)
    (server : anjay_server_info_t) :
  _anjay_servers_find_active anjay id = Some server ->
  In server (servers anjay)
  /\ _anjay_server_active server = true
  /\ ssid server = id.
Proof.
  unfold _anjay_servers_find_active, _anjay_servers_foreach_active.
  rewrite find_active_walk; simpl; intros Hfind.
  apply find_some in Hfind as [Hin Htest].
  apply andb_prop in Htest as [Hactive Hid]; apply Z.eqb_eq in Hid; auto.
Qed.

(** X5.  [anjay_schedule_registration_update] for one SSID: while the
    client is offline, and when no active entry has the SSID, it answers
    -1 and changes nothing.  Otherwise it replaces the pending job of that
    entry by one with delay zero, named by the entry's new handle (or,
    out of memory, answers -1 and leaves the entry without job), and the
    jobs of all other SSIDs stay as they were. *)
Theorem schedule_registration_update_one (anjay : anjay_t) (id : Z) :
  id <> ANJAY_SSID_ANY ->
  let run := anjay_schedule_registration_update anjay id in
  (anjay_is_offline anjay = true -> run = (-1, anjay))
  /\ (_anjay_servers_find_active anjay id = None -> run = (-1, anjay))
  /\ (forall server,
        anjay_is_offline anjay = false ->
        _anjay_servers_find_active anjay id = Some server ->
        NoDup (map job_handle (sched_jobs (sched anjay))) ->
        handle_names_jobs (sched anjay) server ->
        (fst run = 0 \/ fst run = -1)
        /\ (fst run = 0 ->
            pending_jobs (sched (snd run)) id
            = [mk_job (sched_next_handle (sched anjay))
                      AVS_TIME_DURATION_ZERO id])
        /\ (fst run = -1 -> pending_jobs (sched (snd run)) id = [])
        /\ (forall id', id' <> id ->
            pending_jobs (sched (snd run)) id'
            = pending_jobs (sched anjay) id')
        /\ exists server',
             servers (snd run) = store_active (servers anjay) id server'
             /\ data_active server' = data_active server
             /\ ssid server' = id
             /\ (fst run = 0 ->
                 next_action_handle server'
                 = Some (sched_next_handle (sched anjay)))
             /\ (fst run = -1 -> next_action_handle server' = None)).
Proof.
  intros Hany run; subst run; unfold anjay_schedule_registration_update.
  apply Z.eqb_neq in Hany; rewrite Hany.
  split; [intros ->; reflexivity|].
  split.
  { intros ->; destruct (anjay_is_offline anjay); reflexivity. }
  intros server Honline Hfind Hdistinct Hnames.
  rewrite Honline, Hfind.
  destruct (servers_find_active_ssid anjay id server Hfind) as (_ & _ & Hid).
  destruct (reschedule_update_for_server_core anjay server) as [result Hcore].
  pose proof (cancel_then_schedule_post (sched anjay) server
                AVS_TIME_DURATION_ZERO Hdistinct Hnames) as Hpost.
  cbv zeta in Hcore, Hpost.
  assert (Hresult :
    result = (if negb (fst (fst (cancel_then_schedule (sched anjay) server
                                   AVS_TIME_DURATION_ZERO)) =? 0)
              then -1 else 0)).
  { revert Hcore.
    unfold reschedule_update_for_server, cancel_then_schedule, schedule_update.
    destruct (_anjay_sched_del (sched anjay) (next_action_handle server))
      as [s1 h]; simpl.
    destruct (_anjay_servers_schedule_first_retryable s1
                (set_next_action_handle server h) AVS_TIME_DURATION_ZERO
                (ssid server)) as [[status s2] server2]; simpl.
    destruct (status =? 0); simpl; intros Heq; injection Heq as <-;
      reflexivity. }
  rewrite Hcore; simpl.
  destruct (cancel_then_schedule (sched anjay) server AVS_TIME_DURATION_ZERO)
    as [[status s2] server2].
  simpl in *.
  destruct Hpost as (Hstatus & Hok & Hfail & Hother & Hssid & Hdata).
  rewrite Hid in *.
  destruct Hstatus as [-> | ->]; simpl in Hresult; subst result.
  - split; [auto|].
    split; [intros _; exact (proj2 (Hok eq_refl))|].
    split; [intros; discriminate|].
    split; [exact Hother|].
    exists server2; repeat split; trivial.
    + intros _; exact (proj1 (Hok eq_refl)).
    + intros; discriminate.
  - split; [auto|].
    split; [intros; discriminate|].
    split; [intros _; exact (proj2 (Hfail eq_refl))|].
    split; [exact Hother|].
    exists server2; repeat split; trivial.
    + intros; discriminate.
    + intros _; exact (proj1 (Hfail eq_refl)).
Qed.

Lemma schedule_registration_update_one_witness :
  anjay_schedule_registration_update (queued_anjay [queued_server] []) 2
  = (-1, queued_anjay [queued_server] [])
  /\ pending_jobs
       (sched (snd (anjay_schedule_registration_update
                      (queued_anjay [queued_server] []) 1))) 1
     = [mk_job 6 AVS_TIME_DURATION_ZERO 1].
Proof.
  assert (Htwo : 2 <> ANJAY_SSID_ANY) by discriminate.
  assert (Hone : 1 <> ANJAY_SSID_ANY) by discriminate.
  split.
  - exact (proj1 (proj2 (schedule_registration_update_one
                           (queued_anjay [queued_server] []) 2 Htwo))
             eq_refl).
  - destruct (queued_server_names_job [queued_server] [])
      as [Hdistinct Hnames].
    destruct (proj2 (proj2 (schedule_registration_update_one
                              (queued_anjay [queued_server] []) 1 Hone))
                queued_server eq_refl eq_refl Hdistinct Hnames)
      as (_ & Hok & _).
    exact (Hok eq_refl).
Defined.

Lemma reschedule_update_for_server_eq (anjay : anjay_t)
    (server : anjay_server_info_t) :
  let core := cancel_then_schedule (sched anjay) server AVS_TIME_DURATION_ZERO in
  reschedule_update_for_server anjay server
  = (if negb (fst (fst core) =? 0) then -1 else 0,
     set_sched anjay (snd (fst core)), snd core).
Proof.
  unfold reschedule_update_for_server, cancel_then_schedule, schedule_update.
  destruct (_anjay_sched_del (sched anjay) (next_action_handle server))
    as [s1 h]; simpl.
  destruct (_anjay_servers_schedule_first_retryable s1
              (set_next_action_handle server h) AVS_TIME_DURATION_ZERO
              (ssid server)) as [[status s2] server2]; simpl.
  destruct (status =? 0); reflexivity.
Qed.

Lemma cancel_then_schedule_with_memory (s : anjay_sched_t)
    (server : anjay_server_info_t) (delay : avs_time_duration_t) :
  ~ In true (sched_oom s) ->
  fst (fst (cancel_then_schedule s server delay)) = 0
  /\ ~ In true (sched_oom (snd (fst (cancel_then_schedule s server delay)))).
Proof.
  intros Hmem; unfold cancel_then_schedule.
  destruct (sched_del_keeps_rest s (next_action_handle server))
    as (_ & _ & Hoom).
  destruct (_anjay_sched_del s (next_action_handle server)) as [s1 h].
  simpl in Hoom; rewrite <- Hoom in Hmem.
  unfold _anjay_servers_schedule_first_retryable.
  destruct (sched_oom s1) as [|[|] oom]; simpl in *; tauto.
Qed.

(** The loop of [reschedule_update_for_all_servers] while the scheduler
    has memory. *)
Lemma reschedule_update_loop_post (its : list anjay_server_info_t) :
  forall (anjay : anjay_t) (l1 : list anjay_server_info_t) (result : Z),
    sched_consistent (sched anjay) (l1 ++ its) ->
    ~ In true (sched_oom (sched anjay)) ->
    let run := reschedule_update_loop anjay its result in
    fst (fst run) = result
    /\ map ssid (snd run) = map ssid its
    /\ (forall server',
          In server' (snd run) ->
          _anjay_server_active server' = true ->
          exists h,
            next_action_handle server' = Some h
            /\ pending_jobs (sched (snd (fst run))) (ssid server')
               = [mk_job h AVS_TIME_DURATION_ZERO (ssid server')])
    /\ (forall id,
          (forall server,
             In server its -> _anjay_server_active server = true ->
             ssid server <> id) ->
          pending_jobs (sched (snd (fst run))) id
          = pending_jobs (sched anjay) id).
Proof.
  induction its as [|it rest IH]; intros anjay l1 result Hcons Hmem; simpl.
  - repeat split; trivial; intros server' [].
  - assert (Hfresh : ~ In (ssid it) (map ssid rest)).
    { destruct Hcons as (_ & _ & Hssids & _).
      rewrite map_app in Hssids; simpl in Hssids.
      apply NoDup_remove_2 in Hssids.
      intros Hin; apply Hssids, in_or_app; right; exact Hin. }
    destruct (_anjay_server_active it) eqn:Hactive.
    + rewrite reschedule_update_for_server_eq; cbv zeta.
      destruct (cancel_then_schedule_with_memory (sched anjay) it
                  AVS_TIME_DURATION_ZERO Hmem) as [Hstatus Hmem1].
      destruct (cancel_then_schedule_consistent (sched anjay) l1 rest it
                  AVS_TIME_DURATION_ZERO Hcons) as (Hcons1 & Hssid1 & Hactive1).
      assert (Hnames : handle_names_jobs (sched anjay) it).
      { apply sched_consistent_split in Hcons; tauto. }
      pose proof (cancel_then_schedule_post (sched anjay) it
                    AVS_TIME_DURATION_ZERO (proj1 Hcons) Hnames) as Hpost.
      cbv zeta in Hcons1, Hssid1, Hactive1, Hpost.
      destruct (cancel_then_schedule (sched anjay) it AVS_TIME_DURATION_ZERO)
        as [[status s1] it1].
      simpl in *; subst status; simpl.
      destruct Hpost as (_ & Hok & _ & Hother & _).
      destruct (Hok eq_refl) as [Hhandle Hjob].
      specialize (IH (set_sched anjay s1) (l1 ++ [it1])%list
                    (if result =? 0 then 0 else result)).
      rewrite <- app_assoc in IH; simpl in IH.
      specialize (IH Hcons1 Hmem1).
      destruct (reschedule_update_loop (set_sched anjay s1) rest
                  (if result =? 0 then 0 else result))
        as [[result' anjay'] rest'].
      simpl in *.
      destruct IH as (Hres & Hmap & Hjobs & Hframe).
      split; [rewrite Hres; destruct (Z.eqb_spec result 0); congruence|].
      split; [rewrite Hmap, Hssid1; reflexivity|].
      split.
      * intros server' [<-|Hin] Hact; [|auto].
        exists (sched_next_handle (sched anjay)); split; [exact Hhandle|].
        rewrite Hssid1, Hframe, Hjob; [reflexivity|].
        intros o Ho _ Heq; apply Hfresh; rewrite <- Heq.
        apply in_map; exact Ho.
      * intros id Hid; rewrite Hframe by (intros o Ho; apply Hid; auto).
        apply Hother; intros Heq; apply (Hid it); auto.
    + specialize (IH anjay (l1 ++ [it])%list result).
      rewrite <- app_assoc in IH; simpl in IH.
      specialize (IH Hcons Hmem).
      destruct (reschedule_update_loop anjay rest result)
        as [[result' anjay'] rest'].
      simpl in *.
      destruct IH as (Hres & Hmap & Hjobs & Hframe).
      split; [exact Hres|].
      split; [rewrite Hmap; reflexivity|].
      split.
      * intros server' [<-|Hin] Hact; [congruence | auto].
      * intros id Hid; apply Hframe; intros o Ho; apply Hid; auto.
Qed.

(** X6.  [anjay_schedule_registration_update] for [ANJAY_SSID_ANY], on a
    client that is online, whose queue agrees with the handles of the
    registry and whose scheduler has memory: the answer is 0, every
    active entry ends with exactly one pending job, of delay zero and
    named by its handle, and the jobs of SSIDs without active entry are
    as before. *)
Theorem schedule_registration_update_any (anjay : anjay_t) :
  anjay_is_offline anjay = false ->
  sched_consistent (sched anjay) (servers anjay) ->
  ~ In true (sched_oom (sched anjay)) ->
  let run := anjay_schedule_registration_update anjay ANJAY_SSID_ANY in
  fst run = 0
  /\ map ssid (servers (snd run)) = map ssid (servers anjay)
  /\ (forall server',
        In server' (servers (snd run)) ->
        _anjay_server_active server' = true ->
        exists h,
          next_action_handle server' = Some h
          /\ pending_jobs (sched (snd run)) (ssid server')
             = [mk_job h AVS_TIME_DURATION_ZERO (ssid server')])
  /\ (forall id,
        (forall server,
           In server (servers anjay) -> _anjay_server_active server = true ->
           ssid server <> id) ->
        pending_jobs (sched (snd run)) id = pending_jobs (sched anjay) id).
Proof.
  intros Honline Hcons Hmem run; subst run.
  unfold anjay_schedule_registration_update, reschedule_update_for_all_servers.
  rewrite Honline; simpl.
  pose proof (reschedule_update_loop_post (servers anjay) anjay [] 0 Hcons Hmem)
    as Hloop.
  cbv zeta in Hloop.
  destruct (reschedule_update_loop anjay (servers anjay) 0)
    as [[result anjay'] its].
  simpl in *; exact Hloop.
Qed.

Lemma schedule_registration_update_any_witness :
  map (fun j => (job_ssid j, job_delay j))
    (sched_jobs (sched (snd (anjay_schedule_registration_update
                               two_servers_anjay ANJAY_SSID_ANY))))
  = [(1, AVS_TIME_DURATION_ZERO); (2, AVS_TIME_DURATION_ZERO)]
  /\ fst (anjay_schedule_registration_update two_servers_anjay ANJAY_SSID_ANY)
     = 0.
Proof.
  split; [reflexivity|].
  apply (schedule_registration_update_any two_servers_anjay);
    [reflexivity | apply two_servers_consistent | simpl; tauto].
Defined.

(** ** Recording a registration (second part of [utils_core.c]) *)

Definition get_registration_expire_time (anjay : anjay_t) (lifetime_s : Z)
    : avs_time_real_t :=
  avs_time_real_add (clock anjay)
    (avs_time_duration_from_scalar lifetime_s AVS_TIME_S).

(** A pointer argument from which the callee takes the value over: null,
    the address of the entry's own field, or another object. *)
Inductive moved_from (A : Type) : Type :=
| MOVE_NULL
| MOVE_OWN
| MOVE_FROM (a : A).
Arguments MOVE_NULL {A}.
Arguments MOVE_OWN {A}.
Arguments MOVE_FROM {A} a.

Definition set_registration_info (server : anjay_server_info_t)
    (info : anjay_registration_info_t) : anjay_server_info_t :=
  let active := data_active server in
  mk_server (ssid server) (next_action_handle server)
    (mk_data_active (primary_conn_type active) (udp_connection active)
       (sms_connection active) info).

(** Returns the entry and what is left in [*move_endpoint_path].  The
    data-model snapshot of the parameters is not part of
    [anjay_update_parameters_t] here, so its exchange is not shown. *)
Definition _anjay_server_update_registration_info (anjay : anjay_t)
    (server : anjay_server_info_t)
    (move_endpoint_path : moved_from (list string))
    (move_params : moved_from anjay_update_parameters_t)
    : anjay_server_info_t * moved_from (list string) :=
  let info := registration_info (data_active server) in
  let '(path, residue) :=
    match move_endpoint_path with
    | MOVE_FROM p => (p, MOVE_FROM [])
    | other => (endpoint_path info, other)
    end in
  let params :=
    match move_params with
    | MOVE_FROM p => mk_update_parameters (lifetime_s p) (binding_mode p)
    | _ => last_update_params info
    end in
  (set_registration_info server
     (mk_registration_info path params
        (get_registration_expire_time anjay (lifetime_s params))),
   residue).

Lemma expire_time_remaining (anjay : anjay_t) (lifetime : Z) :
  avs_time_real_valid (clock anjay) = true ->
  in_int64 lifetime = true ->
  in_int64 (seconds (since_real_epoch (clock anjay)) + lifetime) = true ->
  avs_time_real_diff (get_registration_expire_time anjay lifetime) (clock anjay)
  = mk_duration lifetime 0.
Proof.
  intros Hclock Hlifetime Hsum.
  unfold get_registration_expire_time, avs_time_real_add.
  rewrite Hclock, (from_scalar_seconds lifetime Hlifetime); simpl.
  unfold avs_time_real_valid in Hclock.
  apply duration_valid_bounds in Hclock as Hbounds.
  set (now := since_real_epoch (clock anjay)) in *.
  assert (Hsmall : (nanoseconds now + 0) / NS_IN_S = 0)
    by (apply Z.div_small; lia).
  unfold normalize at 1; rewrite Hsmall, Z.add_0_r, Hsum.
  rewrite Z.add_0_r, Z.mod_small by lia.
  unfold avs_time_real_diff, avs_time_duration_diff; simpl.
  fold now; rewrite Hclock.
  assert (Hvalid : avs_time_duration_valid
                     (mk_duration (seconds now + lifetime) (nanoseconds now))
                   = true) by (apply duration_valid_bounds; simpl; lia).
  rewrite Hvalid; simpl.
  replace (seconds now + lifetime - seconds now) with lifetime by lia.
  rewrite Z.sub_diag; unfold normalize; simpl.
  rewrite Z.add_0_r, Hlifetime; reflexivity.
Qed.

(** X7.  [_anjay_server_update_registration_info] stores the lifetime and
    binding of the parameters it is given (it keeps the old ones for a
    null pointer or the entry's own) and sets [expire_time] to the
    current time plus that lifetime.  While that sum fits 64-bit seconds,
    the remaining time right afterwards is the lifetime, so the
    registration counts as expired exactly when the lifetime is not
    positive, as with the lifetime -1 that [_anjay_schedule_socket_update]
    passes. *)
Theorem update_registration_info_expiry (anjay : anjay_t)
    (server : anjay_server_info_t)
    (move_endpoint_path : moved_from (list string))
    (move_params : moved_from anjay_update_parameters_t) :
  let server' :=
    fst (_anjay_server_update_registration_info anjay server
           move_endpoint_path move_params) in
  let info' := registration_info (data_active server') in
  let lifetime := lifetime_s (last_update_params info') in
  last_update_params info'
  = match move_params with
    | MOVE_FROM p => p
    | _ => last_update_params (registration_info (data_active server))
    end
  /\ (avs_time_real_valid (clock anjay) = true ->
      in_int64 lifetime = true ->
      in_int64 (seconds (since_real_epoch (clock anjay)) + lifetime) = true ->
      _anjay_register_time_remaining anjay info' = mk_duration lifetime 0
      /\ (_anjay_server_registration_expired anjay server' = true
          <-> lifetime <= 0)).
Proof.
  intros server' info' lifetime.
  assert (Hinfo : expire_time info' = get_registration_expire_time anjay lifetime).
  { subst lifetime info' server'.
    unfold _anjay_server_update_registration_info.
    destruct move_endpoint_path, move_params; reflexivity. }
  split.
  - subst info' server'; unfold _anjay_server_update_registration_info.
    destruct move_endpoint_path, move_params as [| |[l b]]; reflexivity.
  - intros Hclock Hlifetime Hsum.
    assert (Hremaining :
      _anjay_register_time_remaining anjay info' = mk_duration lifetime 0).
    { unfold _anjay_register_time_remaining; rewrite Hinfo.
      apply expire_time_remaining; assumption. }
    split; [exact Hremaining|].
    pose proof (registration_expired_by_remaining anjay server') as Hexpired.
    cbv zeta in Hexpired; fold info' in Hexpired.
    rewrite Hremaining in Hexpired; rewrite Hexpired.
    unfold to_ns, avs_time_duration_valid, NS_IN_S; simpl.
    split; [intros [Hinv|Hle]; [discriminate | lia] | intros Hle; right; lia].
Qed.

Lemma update_registration_info_expiry_witness :
  _anjay_server_registration_expired (sample_anjay [] 40 93)
    (fst (_anjay_server_update_registration_info (sample_anjay [] 40 93)
            (sample_server 1 (Some (mk_socket 9 true)) 60 100 None)
            MOVE_NULL (MOVE_FROM (mk_update_parameters (-1) "U")))) = true
  /\ _anjay_register_time_remaining (sample_anjay [] 40 93)
       (registration_info
          (data_active
             (fst (_anjay_server_update_registration_info
                     (sample_anjay [] 40 93)
                     (sample_server 1 (Some (mk_socket 9 true)) 60 10 None)
                     MOVE_NULL MOVE_NULL))))
     = mk_duration 60 0.
Proof.
  split.
  - pose proof (update_registration_info_expiry (sample_anjay [] 40 93)
                  (sample_server 1 (Some (mk_socket 9 true)) 60 100 None)
                  MOVE_NULL (MOVE_FROM (mk_update_parameters (-1) "U")))
      as Hspec.
    cbv zeta in Hspec; destruct Hspec as [_ Hspec].
    destruct (Hspec eq_refl eq_refl eq_refl) as [_ Hexpired].
    apply Hexpired; simpl; lia.
  - pose proof (update_registration_info_expiry (sample_anjay [] 40 93)
                  (sample_server 1 (Some (mk_socket 9 true)) 60 10 None)
                  MOVE_NULL MOVE_NULL) as Hspec.
    cbv zeta in Hspec; destruct Hspec as [_ Hspec].
    exact (proj1 (Hspec eq_refl eq_refl eq_refl)).
Defined.

(** ** Update attempts after a suspension (second part of [utils_core.c]) *)

Lemma suspended_primary_invalid (server : anjay_server_info_t) :
  _anjay_server_primary_connection_valid
    (_anjay_connection_suspend server (primary_conn_type (data_active server)))
  = false.
Proof.
  destruct (suspended_primary_is_offline server) as [Hprimary Honline].
  cbv zeta in Hprimary, Honline.
  unfold _anjay_server_primary_connection_valid.
  rewrite Honline; apply andb_false_r.
Qed.

Lemma suspended_all_invalid (server : anjay_server_info_t) :
  _anjay_server_primary_connection_valid
    (_anjay_connection_suspend server ANJAY_CONNECTION_UNSET)
  = false.
Proof.
  unfold _anjay_server_primary_connection_valid,
    _anjay_connection_get_online_socket; simpl.
  destruct (primary_conn_type (data_active server)); simpl; [| |reflexivity].
  - destruct (connection_suspend_keeps (udp_connection (data_active server)))
      as (_ & _ & _ & ->); reflexivity.
  - destruct (connection_suspend_keeps (sms_connection (data_active server)))
      as (_ & _ & _ & ->); reflexivity.
Qed.

(** X8.  The entry that [registration_update_with_ctx] leaves after a
    network error, and the entry that [_anjay_schedule_server_reconnect]
    leaves, have no valid primary connection; an Update attempt on such an
    entry ([registration_update_if_possible_with_ctx]) answers
    [ANJAY_UPDATE_NEEDS_REGISTRATION] and invalidates [expire_time]
    without any exchange. *)
Theorem update_after_suspension (REJECTED NETWORK : Z)
    (ext : anjay_collaborators_t) (anjay : anjay_t)
    (server : anjay_server_info_t) :
  REJECTED <> 0 -> NETWORK <> 0 -> NETWORK <> REJECTED ->
  let after_error :=
    snd (registration_update_with_ctx REJECTED NETWORK ext anjay server) in
  let after_reconnect :=
    snd (_anjay_schedule_server_reconnect ext anjay server) in
  (fst (_anjay_update_registration ext server) = NETWORK ->
   _anjay_server_primary_connection_valid after_error = false)
  /\ _anjay_server_primary_connection_valid after_reconnect = false
  /\ forall anjay' server',
       _anjay_server_primary_connection_valid server' = false ->
       registration_update_if_possible_with_ctx REJECTED NETWORK ext
         anjay' server'
       = (ANJAY_UPDATE_NEEDS_REGISTRATION, anjay',
          set_expire_time server' AVS_TIME_REAL_INVALID).
Proof.
  intros Hrej Hnet Hdiff after_error after_reconnect.
  split; [|split].
  - subst after_error; unfold registration_update_with_ctx.
    destruct (_anjay_update_registration ext server) as [retval server1].
    simpl; intros ->.
    destruct (Z.eqb_spec NETWORK 0); [contradiction|].
    destruct (Z.eqb_spec NETWORK REJECTED); [contradiction|].
    rewrite Z.eqb_refl; simpl; apply suspended_primary_invalid.
  - subst after_reconnect; unfold _anjay_schedule_server_reconnect; simpl.
    apply suspended_all_invalid.
  - intros anjay' server' Hinvalid.
    unfold registration_update_if_possible_with_ctx; rewrite Hinvalid.
    reflexivity.
Qed.

Lemma update_after_suspension_witness :
  _anjay_server_primary_connection_valid
    (snd (registration_update_with_ctx 1 (-2)
            (sample_collaborators (-2) 0 0 0 0) (sample_anjay [] 40 93)
            (sample_server 1 (Some (mk_socket 9 true)) 60 100 None)))
  = false.
Proof.
  assert (Hrej : 1 <> 0) by discriminate.
  assert (Hnet : -2 <> 0) by discriminate.
  assert (Hdiff : -2 <> 1) by discriminate.
  exact (proj1 (update_after_suspension 1 (-2)
                  (sample_collaborators (-2) 0 0 0 0) (sample_anjay [] 40 93)
                  (sample_server 1 (Some (mk_socket 9 true)) 60 100 None)
                  Hrej Hnet Hdiff) eq_refl).
Defined.

(** ** Transactions on the Server object
    ([modules/server/src/server_transaction.c]) *)

(** The fields of [server_repr_t] that the transaction handlers use; a
    null list is the empty list. *)
Record server_repr_t : Type := mk_repr {
  instances : list server_instance_t;
  saved_instances : list server_instance_t;
  modified_since_persist : bool;
  saved_modified_since_persist : bool
}.

(** Modelled from the spec: [_anjay_serv_clone_instances], absent from the
    sources; a copy of the instance list, or the null list when memory
    runs out ([clone_ok] tells which). *)
Definition _anjay_serv_clone_instances (clone_ok : bool) (repr : server_repr_t)
    : list server_instance_t :=
  if clone_ok then instances repr else [].

Definition _anjay_serv_transaction_begin_impl (clone_ok : bool)
    (repr : server_repr_t) : Z * server_repr_t :=
  let saved := _anjay_serv_clone_instances clone_ok repr in
  let repr := mk_repr (instances repr) saved (modified_since_persist repr)
                (saved_modified_since_persist repr) in
  match saved, instances repr with
  | [], _ :: _ => (ANJAY_ERR_INTERNAL, repr)
  | _, _ =>
      (0, mk_repr (instances repr) saved (modified_since_persist repr)
            (modified_since_persist repr))
  end.

Definition _anjay_serv_transaction_commit_impl (repr : server_repr_t)
    : Z * server_repr_t :=
  (0, mk_repr (instances repr) [] (modified_since_persist repr)
        (saved_modified_since_persist repr)).

Definition _anjay_serv_transaction_rollback_impl (repr : server_repr_t)
    : Z * server_repr_t :=
  (0, mk_repr (saved_instances repr) [] (saved_modified_since_persist repr)
        (saved_modified_since_persist repr)).

(** What the handlers between begin and the end of a transaction do to
    the object: they change the instances and the modified flag, not what
    was saved. *)
Definition modify_repr (repr : server_repr_t)
    (its : list server_instance_t) (modified : bool) : server_repr_t :=
  mk_repr its (saved_instances repr) modified
    (saved_modified_since_persist repr).

(** X9.  A transaction on the Server object that begins with nothing
    saved: if begin fails (the clone of a non-empty instance list got no
    memory) the object is as before; if it succeeds, then whatever the
    instances and the modified flag are changed to, rollback restores the
    instances and the flag of the beginning, commit keeps the changes, and
    both leave nothing saved, so the next transaction can begin. *)
Theorem transaction_round_trip (clone_ok : bool) (repr : server_repr_t)
    (its : list server_instance_t) (modified : bool) :
  saved_instances repr = [] ->
  let began := _anjay_serv_transaction_begin_impl clone_ok repr in
  let changed := modify_repr (snd began) its modified in
  (fst began = 0 \/ fst began = ANJAY_ERR_INTERNAL)
  /\ (fst began = ANJAY_ERR_INTERNAL ->
      snd began = repr /\ clone_ok = false /\ instances repr <> [])
  /\ (fst began = 0 ->
      instances (snd (_anjay_serv_transaction_rollback_impl changed))
      = instances repr
      /\ modified_since_persist
           (snd (_anjay_serv_transaction_rollback_impl changed))
         = modified_since_persist repr
      /\ saved_instances (snd (_anjay_serv_transaction_rollback_impl changed))
         = []
      /\ instances (snd (_anjay_serv_transaction_commit_impl changed)) = its
      /\ modified_since_persist
           (snd (_anjay_serv_transaction_commit_impl changed)) = modified
      /\ saved_instances (snd (_anjay_serv_transaction_commit_impl changed))
         = []).
Proof.
  intros Hsaved began changed; subst changed began.
  unfold _anjay_serv_transaction_begin_impl, _anjay_serv_clone_instances.
  destruct repr as [l saved m sm]; simpl in *; subst saved.
  destruct clone_ok, l as [|it l]; simpl;
    (split; [auto|]); (split; [intros Hfail|intros Hok]);
    try discriminate; auto 10.
  repeat split; discriminate.
Qed.

Lemma transaction_round_trip_witness :
  instances
    (snd (_anjay_serv_transaction_rollback_impl
            (modify_repr
               (snd (_anjay_serv_transaction_begin_impl true
                       (mk_repr [sample_instance 1 "U"] [] false false)))
               [sample_instance 1 "U"; sample_instance 1 "UQ"] true)))
  = [sample_instance 1 "U"].
Proof.
  pose proof (transaction_round_trip true
                (mk_repr [sample_instance 1 "U"] [] false false)
                [sample_instance 1 "U"; sample_instance 1 "UQ"] true eq_refl)
    as Hspec.
  cbv zeta in Hspec; destruct Hspec as (_ & _ & Hok).
  exact (proj1 (Hok eq_refl)).
Defined.

(** ** The test fixture ([test/src/dm.c]) *)

Definition ANJAY_IID_INVALID : Z := 65535.

(** [fresh] is the zero-filled entry that [AVS_LIST_INSERT_NEW] puts at
    the head of the registry and [addr] the address of the mock socket,
    which the fixture connects before it stores it.  Returns the client
    and the socket pointer. *)
Definition _anjay_test_dm_install_socket (anjay : anjay_t)
    (fresh : anjay_server_info_t) (addr : Z) (id : Z) : anjay_t * option Z :=
  let socket := mk_socket addr true in
  let active := data_active fresh in
  let udp := udp_connection active in
  let info := registration_info active in
  let server :=
    mk_server id (next_action_handle fresh)
      (mk_data_active ANJAY_CONNECTION_UDP
         (mk_connection (Some socket) (nontransient_state udp)
            ANJAY_CONNECTION_ONLINE (queue_mode_close_socket_clb_handle udp))
         (sms_connection active)
         (mk_registration_info (endpoint_path info) (last_update_params info)
            (mk_real
               (mk_duration INT64_MAX
                  (nanoseconds (since_real_epoch (expire_time info))))))) in
  (set_servers anjay (server :: servers anjay),
   option_map socket_addr
     (_anjay_connection_internal_get_socket
        (udp_connection (data_active server)))).

Lemma remaining_until_last_second (now : avs_time_duration_t) :
  avs_time_duration_valid now = true ->
  0 <= seconds now < INT64_MAX ->
  avs_time_duration_valid
    (avs_time_duration_diff (mk_duration INT64_MAX 0) now) = true
  /\ 0 < to_ns (avs_time_duration_diff (mk_duration INT64_MAX 0) now).
Proof.
  intros Hvalid Hnow; unfold avs_time_duration_diff.
  change (avs_time_duration_valid (mk_duration INT64_MAX 0)) with true.
  rewrite Hvalid; cbn [andb seconds nanoseconds].
  apply duration_valid_bounds in Hvalid.
  pose proof (Z.div_mod (0 - nanoseconds now) NS_IN_S) as Hdiv.
  pose proof (Z.mod_pos_bound (0 - nanoseconds now) NS_IN_S eq_refl) as Hmod.
  assert (Hrange : in_int64 (INT64_MAX - seconds now
                             + (0 - nanoseconds now) / NS_IN_S) = true).
  { unfold in_int64; apply andb_true_iff; rewrite !Z.leb_le.
    unfold INT64_MIN, INT64_MAX, NS_IN_S in *; lia. }
  destruct (normalize_in_range _ _ Hrange) as (Hok & Hns & _).
  split; [exact Hok|].
  rewrite Hns; unfold INT64_MAX, NS_IN_S in *; lia.
Qed.

(** X10.  The entry that [_anjay_test_dm_install_socket] installs is the
    head of the registry; both lookups find it, by the returned socket
    and by its SSID, before any older entry; its primary connection is
    valid; and its registration has not expired for any valid clock
    between the epoch and the last second that 64 bits can hold. *)
Theorem test_dm_install_socket_found (anjay : anjay_t)
    (fresh : anjay_server_info_t) (addr id : Z) :
  let anjay' := fst (_anjay_test_dm_install_socket anjay fresh addr id) in
  let socket := snd (_anjay_test_dm_install_socket anjay fresh addr id) in
  exists server,
    servers anjay' = server :: servers anjay
    /\ socket = Some addr
    /\ _anjay_servers_find_by_udp_socket anjay' socket = Some server
    /\ _anjay_servers_find_active anjay' id = Some server
    /\ _anjay_server_primary_connection_valid server = true
    /\ (nanoseconds (since_real_epoch
                       (expire_time (registration_info (data_active fresh))))
        = 0 ->
        avs_time_real_valid (clock anjay) = true ->
        0 <= seconds (since_real_epoch (clock anjay)) < INT64_MAX ->
        _anjay_server_registration_expired anjay' server = false).
Proof.
  intros anjay' socket; subst anjay' socket.
  unfold _anjay_test_dm_install_socket; simpl.
  eexists; split; [reflexivity|].
  split; [reflexivity|].
  split.
  { unfold _anjay_servers_find_by_udp_socket, _anjay_servers_foreach_active.
    rewrite find_by_udp_socket_walk; simpl.
    unfold _anjay_connection_get_online_socket; simpl.
    rewrite Z.eqb_refl; reflexivity. }
  split.
  { unfold _anjay_servers_find_active, _anjay_servers_foreach_active.
    rewrite find_active_walk; simpl.
    rewrite Z.eqb_refl; reflexivity. }
  split; [reflexivity|].
  intros Hzero Hclock Hnow.
  match goal with
  | |- _anjay_server_registration_expired ?a ?s = false =>
      pose proof (registration_expired_by_remaining a s) as Hexpired;
      destruct (_anjay_server_registration_expired a s); [|reflexivity]
  end.
  cbv zeta in Hexpired; exfalso.
  unfold _anjay_register_time_remaining, avs_time_real_diff in Hexpired.
  cbn [registration_info data_active expire_time since_real_epoch clock
       set_servers] in Hexpired.
  rewrite Hzero in Hexpired.
  destruct (remaining_until_last_second (since_real_epoch (clock anjay))
              Hclock Hnow) as [Hvalid Hpos].
  destruct (proj1 Hexpired eq_refl) as [Hinv|Hle]; [congruence | lia].
Qed.

Lemma test_dm_install_socket_found_witness :
  _anjay_server_registration_expired
    (fst (_anjay_test_dm_install_socket two_servers_anjay
            (sample_server 0 None 0 0 None) 1252 14))
    (sample_server 14 (Some (mk_socket 1252 true)) 0 INT64_MAX None)
  = false.
Proof.
  destruct (test_dm_install_socket_found two_servers_anjay
              (sample_server 0 None 0 0 None) 1252 14)
    as (server & Hservers & _ & _ & _ & _ & Hfresh).
  injection Hservers as <-.
  apply Hfresh;
    [reflexivity | reflexivity | vm_compute; split; [discriminate | reflexivity]].
Defined.

(** *** The fake Security object of the tests *)

(** The instance of the fake Security object that stands for a server:
    the expression the three handlers share. *)
Definition fake_security_iid (server : anjay_server_info_t) : Z :=
  if ssid server =? ANJAY_IID_INVALID then 0 else ssid server.

(** The cookie is a pointer into the registry, shown as the entries from
    the one it points to; the null pointer is the empty list.  Returns
    the status, [*out] and the new cookie. *)
Definition _anjay_test_dm_fake_security_instance_it (anjay : anjay_t)
    (cookie : list anjay_server_info_t)
    : Z * Z * list anjay_server_info_t :=
  let cookie :=
    match cookie with
    | [] => servers anjay
    | _ :: next => next
    end in
  match cookie with
  | server :: _ => (0, fake_security_iid server, cookie)
  | [] => (0, ANJAY_IID_INVALID, cookie)
  end.

Fixpoint fake_security_present_loop (its : list anjay_server_info_t)
    (iid : Z) : Z :=
  match its with
  | [] => 0
  | server :: rest =>
      if iid =? fake_security_iid server then 1
      else fake_security_present_loop rest iid
  end.

Definition _anjay_test_dm_fake_security_instance_present (anjay : anjay_t)
    (iid : Z) : Z :=
  fake_security_present_loop (servers anjay) iid.

(** What a read handler hands to the output context. *)
Inductive anjay_ret_t : Type :=
| RET_BOOL (b : bool)
| RET_I32 (z : Z).

Section FakeSecurity.

(** The resource identifiers of the Security object, defined in a header
    outside the sources. *)
Variable ANJAY_DM_RID_SECURITY_BOOTSTRAP : Z.
Variable ANJAY_DM_RID_SECURITY_SSID : Z.
Variable ANJAY_DM_RID_SECURITY_BOOTSTRAP_TIMEOUT : Z.

(** Returns the status and the value written, if any. *)
Definition _anjay_test_dm_fake_security_read (iid rid : Z)
    : Z * option anjay_ret_t :=
  if rid =? ANJAY_DM_RID_SECURITY_BOOTSTRAP
  then (0, Some (RET_BOOL (iid =? 0)))
  else if rid =? ANJAY_DM_RID_SECURITY_SSID
  then (0, Some (RET_I32 (if negb (iid =? 0) then iid else ANJAY_IID_INVALID)))
  else if rid =? ANJAY_DM_RID_SECURITY_BOOTSTRAP_TIMEOUT
  then (0, Some (RET_I32 1))
  else (-1, None).

End FakeSecurity.

(** The instances a caller collects by calling the iterator, from the
    null cookie, until it answers [ANJAY_IID_INVALID]. *)
Fixpoint fake_security_iterate (anjay : anjay_t) (fuel : nat)
    (cookie : list anjay_server_info_t) : list Z :=
  match fuel with
  | O => []
  | S fuel' =>
      let '(_, out, cookie') :=
        _anjay_test_dm_fake_security_instance_it anjay cookie in
      if out =? ANJAY_IID_INVALID then []
      else out :: fake_security_iterate anjay fuel' cookie'
  end.

Lemma fake_security_iid_valid (server : anjay_server_info_t) :
  fake_security_iid server <> ANJAY_IID_INVALID.
Proof.
  unfold fake_security_iid.
  destruct (Z.eqb_spec (ssid server) ANJAY_IID_INVALID); [discriminate | auto].
Qed.

Lemma fake_security_iterate_from (anjay : anjay_t)
    (its : list anjay_server_info_t) :
  forall (prev : anjay_server_info_t) (fuel : nat),
    (List.length its < fuel)%nat ->
    fake_security_iterate anjay fuel (prev :: its)
    = map fake_security_iid its.
Proof.
  induction its as [|it rest IH]; intros prev fuel Hfuel;
    (destruct fuel as [|fuel]; [simpl in Hfuel; lia|]); simpl.
  - reflexivity.
  - destruct (Z.eqb_spec (fake_security_iid it) ANJAY_IID_INVALID) as [Heq|_];
      [elim (fake_security_iid_valid it Heq)|].
    rewrite IH by (simpl in Hfuel; lia); reflexivity.
Qed.

(** X11.  The fake Security object of the tests has one instance per
    entry of the registry, in registry order: iterating from the null
    cookie until [ANJAY_IID_INVALID] yields the SSIDs with 65535 (the
    Bootstrap Server) replaced by 0, the presence test answers 1 exactly
    for these, and reading the SSID of the instance of a server with a
    non-zero SSID gives that SSID back, the Bootstrap resource telling
    whether it is 65535. *)
Theorem fake_security_instances (RID_BOOTSTRAP RID_SSID RID_TIMEOUT : Z)
    (anjay : anjay_t) :
  RID_BOOTSTRAP <> RID_SSID ->
  fake_security_iterate anjay (S (List.length (servers anjay))) []
  = map fake_security_iid (servers anjay)
  /\ (forall iid,
        _anjay_test_dm_fake_security_instance_present anjay iid = 1
        <-> In iid (map fake_security_iid (servers anjay)))
  /\ (forall iid,
        _anjay_test_dm_fake_security_instance_present anjay iid = 0
        \/ _anjay_test_dm_fake_security_instance_present anjay iid = 1)
  /\ (forall server,
        ssid server <> 0 ->
        _anjay_test_dm_fake_security_read RID_BOOTSTRAP RID_SSID RID_TIMEOUT
          (fake_security_iid server) RID_SSID
        = (0, Some (RET_I32 (ssid server)))
        /\ _anjay_test_dm_fake_security_read RID_BOOTSTRAP RID_SSID RID_TIMEOUT
             (fake_security_iid server) RID_BOOTSTRAP
           = (0, Some (RET_BOOL (ssid server =? ANJAY_IID_INVALID)))).
Proof.
  intros Hrids; split; [|split; [|split]].
  - cbn [fake_security_iterate].
    unfold _anjay_test_dm_fake_security_instance_it at 1.
    destruct (servers anjay) as [|it rest]; [reflexivity|].
    destruct (Z.eqb_spec (fake_security_iid it) ANJAY_IID_INVALID) as [Heq|_];
      [elim (fake_security_iid_valid it Heq)|].
    rewrite fake_security_iterate_from by (simpl; lia); reflexivity.
  - intros iid; unfold _anjay_test_dm_fake_security_instance_present.
    induction (servers anjay) as [|it rest IH]; simpl.
    + split; [discriminate | tauto].
    + destruct (Z.eqb_spec iid (fake_security_iid it)) as [->|Hne].
      * split; auto.
      * rewrite IH; split; [auto | intros [Heq|Hin]; congruence].
  - intros iid; unfold _anjay_test_dm_fake_security_instance_present.
    induction (servers anjay) as [|it rest IH]; simpl; [auto|].
    destruct (iid =? fake_security_iid it); auto.
  - intros server Hssid; unfold _anjay_test_dm_fake_security_read.
    rewrite !Z.eqb_refl.
    destruct (Z.eqb_spec RID_SSID RID_BOOTSTRAP) as [Heq|_]; [congruence|].
    unfold fake_security_iid.
    destruct (Z.eqb_spec (ssid server) ANJAY_IID_INVALID) as [->|Hne]; simpl.
    + split; reflexivity.
    + destruct (Z.eqb_spec (ssid server) 0); [contradiction|].
      split; reflexivity.
Qed.

Lemma fake_security_instances_witness :
  fake_security_iterate
    (sample_anjay
       [sample_server 65535 None 60 100 None;
        sample_server 7 None 60 100 None] 40 93) 3 []
  = [0; 7].
Proof.
  assert (Hrids : 1 <> 10) by discriminate.
  exact (proj1 (fake_security_instances 1 10 12
                  (sample_anjay
                     [sample_server 65535 None 60 100 None;
                      sample_server 7 None 60 100 None] 40 93) Hrids)).
Defined.

(** ** Lists of strings ([utils_core.c]) *)

(** The loop of [_anjay_copy_string_list]: [alloc_ok n] tells whether the
    [n]-th [AVS_LIST_NEW_BUFFER] of the call gets its memory; on failure
    the output list is cleared. *)
Fixpoint copy_string_list_loop (alloc_ok : nat -> bool) (n : nat)
    (input : list string) (out : list string) : Z * list string :=
  match input with
  | [] => (0, out)
  | str :: rest =>
      if negb (alloc_ok n) then (-1, [])
      else copy_string_list_loop alloc_ok (S n) rest (out ++ [str])%list
  end.

(** Returns the status and [*outptr]. *)
Definition _anjay_copy_string_list (alloc_ok : nat -> bool)
    (input : list string) : Z * list string :=
  copy_string_list_loop alloc_ok 0 input [].

(** The [while (str)] loop of [_anjay_make_string_list] over the
    arguments, a null pointer being [None]. *)
Fixpoint make_string_list_loop (alloc_ok : nat -> bool) (n : nat)
    (args : list (option string)) (strings_list : list string)
    : list string :=
  match args with
  | Some str :: rest =>
      if negb (alloc_ok n) then []
      else make_string_list_loop alloc_ok (S n) rest
             (strings_list ++ [str])%list
  | _ => strings_list
  end.

Definition _anjay_make_string_list (alloc_ok : nat -> bool)
    (args : list (option string)) : list string :=
  make_string_list_loop alloc_ok 0 args [].

(** The arguments before the terminating null pointer. *)
Fixpoint strings_before_null (args : list (option string)) : list string :=
  match args with
  | Some str :: rest => str :: strings_before_null rest
  | _ => []
  end.

(** The first [count] allocations from the [n]-th on succeed. *)
Definition allocations_succeed (alloc_ok : nat -> bool) (n count : nat) : bool :=
  forallb alloc_ok (seq n count).

Lemma copy_string_list_loop_result (alloc_ok : nat -> bool)
    (input : list string) :
  forall n out,
    copy_string_list_loop alloc_ok n input out
    = if allocations_succeed alloc_ok n (List.length input)
      then (0, (out ++ input)%list) else (-1, []).
Proof.
  unfold allocations_succeed.
  induction input as [|str rest IH]; simpl; intros n out.
  - rewrite app_nil_r; reflexivity.
  - destruct (alloc_ok n); simpl; [|reflexivity].
    rewrite IH, <- app_assoc; reflexivity.
Qed.

Lemma make_string_list_loop_result (alloc_ok : nat -> bool)
    (args : list (option string)) :
  forall n acc,
    make_string_list_loop alloc_ok n args acc
    = if allocations_succeed alloc_ok n
           (List.length (strings_before_null args))
      then (acc ++ strings_before_null args)%list else [].
Proof.
  unfold allocations_succeed.
  induction args as [|[str|] rest IH]; simpl; intros n acc;
    try (rewrite app_nil_r; reflexivity).
  destruct (alloc_ok n); simpl; [|reflexivity].
  rewrite IH, <- app_assoc; reflexivity.
Qed.

(** X12.  [_anjay_copy_string_list] and [_anjay_make_string_list] give
    all or nothing: when every allocation succeeds the result is the
    input list, respectively the arguments before the first null pointer,
    in order; when one fails the result is the empty list, with status -1
    from the copy, while [_anjay_make_string_list] has no status, so its
    failure looks like an empty argument list. *)
Theorem string_lists_all_or_nothing (alloc_ok : nat -> bool)
    (input : list string) (args : list (option string)) :
  (_anjay_copy_string_list alloc_ok input
   = if allocations_succeed alloc_ok 0 (List.length input)
     then (0, input) else (-1, []))
  /\ (_anjay_make_string_list alloc_ok args
      = if allocations_succeed alloc_ok 0
             (List.length (strings_before_null args))
        then strings_before_null args else [])
  /\ ((forall n, alloc_ok n = true) ->
      _anjay_copy_string_list alloc_ok input = (0, input)
      /\ _anjay_make_string_list alloc_ok args = strings_before_null args).
Proof.
  assert (Hcopy : _anjay_copy_string_list alloc_ok input
                  = if allocations_succeed alloc_ok 0 (List.length input)
                    then (0, input) else (-1, []))
    by (unfold _anjay_copy_string_list;
        rewrite copy_string_list_loop_result; reflexivity).
  assert (Hmake : _anjay_make_string_list alloc_ok args
                  = if allocations_succeed alloc_ok 0
                         (List.length (strings_before_null args))
                    then strings_before_null args else [])
    by (unfold _anjay_make_string_list;
        rewrite make_string_list_loop_result; reflexivity).
  split; [exact Hcopy|split; [exact Hmake|]].
  intros Halloc.
  assert (Hall : forall n count, allocations_succeed alloc_ok n count = true).
  { intros n count; unfold allocations_succeed; apply forallb_forall; auto. }
  rewrite Hcopy, Hmake, !Hall; split; reflexivity.
Qed.

Lemma string_lists_all_or_nothing_witness :
  _anjay_copy_string_list (fun n => Nat.eqb n 0) ["rd"; "7"] = (-1, [])
  /\ _anjay_make_string_list (fun _ => true) [Some "rd"; Some "7"; None]
     = ["rd"; "7"].
Proof.
  destruct (string_lists_all_or_nothing (fun n => Nat.eqb n 0) ["rd"; "7"] [])
    as (Hcopy & _).
  destruct (string_lists_all_or_nothing (fun _ => true) []
              [Some "rd"; Some "7"; None]) as (_ & _ & Hmake).
  split; [exact Hcopy | exact (proj2 (Hmake (fun _ => eq_refl)))].
Defined.

(** ** The query of a registration request ([utils_core.c]) *)

From Stdlib Require Import DecimalString.

(** What [printf] writes for ["%" PRId64] and ["%" PRIu16]. *)
Definition decimal (z : Z) : string := NilZero.string_of_int (Z.to_int z).






Lemma string_length_app (a b : string) :
  String.length (a ++ b) = (String.length a + String.length b)%nat.
Proof. induction a as [|c a IH]; simpl; [|rewrite IH]; reflexivity. Qed.




(** ** Binding and connecting a socket ([utils_core.c]) *)

Inductive avs_net_af_t : Type :=
| AVS_NET_AF_UNSPEC
| AVS_NET_AF_INET4
| AVS_NET_AF_INET6.

Inductive avs_net_socket_type_t : Type :=
| AVS_NET_TCP_SOCKET
| AVS_NET_UDP_SOCKET
| AVS_NET_SSL_SOCKET
| AVS_NET_DTLS_SOCKET.

(** [last_local_port_buffer] is a pointer to a buffer, shown by the text
    in the buffer; [None] is the null pointer. *)
Record anjay_socket_bind_config_t : Type := mk_bind_config {
  family : avs_net_af_t;
  last_local_port_buffer : option string;
  static_port_preference : Z
}.

(** The network as the socket functions of avs_commons show it: the
    status that each call answers, the port that the socket is found
    bound to, the address of a created socket and its error number. *)
Record avs_net_t : Type := mk_net {
  avs_net_socket_create : Z;
  avs_net_new_socket : Z;
  avs_net_socket_bind : option string -> string -> Z;
  avs_net_socket_connect : string -> string -> Z;
  avs_net_socket_get_local_port : Z * string;
  avs_net_socket_errno : Z
}.

(** The calls made on the socket, oldest first. *)
Inductive avs_net_call_t : Type :=
| NET_CREATE
| NET_BIND (local_addr : option string) (port : string)
| NET_CONNECT (host port : string)
| NET_GET_LOCAL_PORT
| NET_CLEANUP.

Definition string_empty (s : string) : bool :=
  match s with
  | EmptyString => true
  | String _ _ => false
  end.

Definition bind_socket (net : avs_net_t)
    (bind_conf : option anjay_socket_bind_config_t)
    : Z * list avs_net_call_t :=
  let local_addr :=
    match bind_conf with
    | Some conf =>
        match family conf with
        | AVS_NET_AF_INET4 => Some "0.0.0.0"
        | AVS_NET_AF_INET6 => Some "::"
        | AVS_NET_AF_UNSPEC => None
        end
    | None => None
    end in
  let static_preferred_port :=
    match bind_conf with
    | Some conf =>
        if negb (static_port_preference conf =? 0)
        then decimal (static_port_preference conf)
        else ""
    | None => ""
    end in
  let last_port :=
    match bind_conf with
    | Some conf =>
        if negb (static_port_preference conf =? 0) then None
        else match last_local_port_buffer conf with
             | Some port => if string_empty port then None else Some port
             | None => None
             end
    | None => None
    end in
  let rest (calls : list avs_net_call_t) :=
    if (match local_addr with Some _ => true | None => false end)
       || negb (string_empty static_preferred_port)
    then
      (if negb (avs_net_socket_bind net local_addr static_preferred_port =? 0)
       then -1 else 0,
       (calls ++ [NET_BIND local_addr static_preferred_port])%list)
    else (0, calls) in
  match last_port with
  | Some port =>
      if avs_net_socket_bind net local_addr port =? 0
      then (0, [NET_BIND local_addr port])
      else rest [NET_BIND local_addr port]
  | None => rest []
  end.

(** Returns the status, the calls and the text left in the buffer at
    [last_local_port_buffer]. *)
Definition _anjay_bind_and_connect_socket (net : avs_net_t)
    (bind_conf : option anjay_socket_bind_config_t)
    (remote_host remote_port : string)
    : Z * list avs_net_call_t * option string :=
  let buffer :=
    match bind_conf with
    | Some conf => last_local_port_buffer conf
    | None => None
    end in
  let '(bound, calls) := bind_socket net bind_conf in
  if negb (bound =? 0) then (-1, calls, buffer)
  else
    let calls := (calls ++ [NET_CONNECT remote_host remote_port])%list in
    if negb (avs_net_socket_connect net remote_host remote_port =? 0)
    then (-1, calls, buffer)
    else
      match buffer with
      | Some _ =>
          let calls := (calls ++ [NET_GET_LOCAL_PORT])%list in
          let '(status, port) := avs_net_socket_get_local_port net in
          if status =? 0 then (0, calls, Some port) else (0, calls, Some "")
      | None => (0, calls, None)
      end.

Section CreateSocket.

(** The error numbers of the platform. *)
Variable ENOMEM : Z.
Variable EPROTO : Z.
Variable EPROTONOSUPPORT : Z.

(** Returns the status, [*out], the calls and the text left in the port
    buffer.  A socket that could not be created leaves [*out] null. *)
Definition _anjay_create_connected_udp_socket (net : avs_net_t)
    (type : avs_net_socket_type_t)
    (bind_conf : option anjay_socket_bind_config_t)
    (uri_host uri_port : string)
    : Z * option avs_net_abstract_socket_t * list avs_net_call_t
      * option string :=
  let buffer :=
    match bind_conf with
    | Some conf => last_local_port_buffer conf
    | None => None
    end in
  let fail (result : Z) (out : option avs_net_abstract_socket_t)
      (calls : list avs_net_call_t) (buffer : option string) :=
    let result :=
      match out with
      | Some _ => - avs_net_socket_errno net
      | None => result
      end in
    let result := if result =? 0 then - EPROTO else result in
    (result, @None avs_net_abstract_socket_t,
     (calls ++ [NET_CLEANUP])%list, buffer) in
  match type with
  | AVS_NET_UDP_SOCKET | AVS_NET_DTLS_SOCKET =>
      if negb (avs_net_socket_create net =? 0)
      then fail (- ENOMEM) None [NET_CREATE] buffer
      else
        let out := Some (mk_socket (avs_net_new_socket net) false) in
        let '(status, calls, buffer') :=
          _anjay_bind_and_connect_socket net bind_conf uri_host uri_port in
        if negb (status =? 0)
        then fail 0 out (NET_CREATE :: calls) buffer'
        else (0, Some (mk_socket (avs_net_new_socket net) true),
              NET_CREATE :: calls, buffer')
  | _ => (- EPROTONOSUPPORT, None, [], buffer)
  end.

End CreateSocket.

(** The address [bind_socket] binds to for an address family. *)
Definition local_addr_of (af : avs_net_af_t) : option string :=
  match af with
  | AVS_NET_AF_INET4 => Some "0.0.0.0"
  | AVS_NET_AF_INET6 => Some "::"
  | AVS_NET_AF_UNSPEC => None
  end.

Lemma decimal_not_empty (z : Z) : string_empty (decimal z) = false.
Proof.
  unfold decimal, NilZero.string_of_int.
  destruct (Z.to_int z) as [d|d]; [|reflexivity].
  unfold NilZero.string_of_uint; destruct d; reflexivity.
Qed.

(** X14.  The bind policy of [bind_socket].  Without configuration
    nothing is bound.  With a static port preference the socket is bound
    once, to that port, and the last known port is not tried.  Without
    one, a last known port is tried first and its success ends the call;
    its failure is no error: the call goes on to bind the family's
    address with an unspecified port, or, when the family is unspecified
    too, ends with success and an unbound socket.  The status is -1 only
    when the last bind attempted failed, and at most two are attempted. *)
Theorem bind_socket_policy (net : avs_net_t)
    (conf : anjay_socket_bind_config_t) :
  let addr := local_addr_of (family conf) in
  bind_socket net None = (0, [])
  /\ (static_port_preference conf <> 0 ->
      bind_socket net (Some conf)
      = (if avs_net_socket_bind net addr
              (decimal (static_port_preference conf)) =? 0
         then 0 else -1,
         [NET_BIND addr (decimal (static_port_preference conf))]))
  /\ (forall port,
        static_port_preference conf = 0 ->
        last_local_port_buffer conf = Some port ->
        port <> "" ->
        (avs_net_socket_bind net addr port = 0 ->
         bind_socket net (Some conf) = (0, [NET_BIND addr port]))
        /\ (avs_net_socket_bind net addr port <> 0 ->
            family conf = AVS_NET_AF_UNSPEC ->
            bind_socket net (Some conf) = (0, [NET_BIND addr port]))
        /\ (avs_net_socket_bind net addr port <> 0 ->
            family conf <> AVS_NET_AF_UNSPEC ->
            bind_socket net (Some conf)
            = (if avs_net_socket_bind net addr "" =? 0 then 0 else -1,
               [NET_BIND addr port; NET_BIND addr ""])))
  /\ (List.length (snd (bind_socket net (Some conf))) <= 2)%nat
  /\ (fst (bind_socket net (Some conf)) = 0
      \/ fst (bind_socket net (Some conf)) = -1
         /\ exists calls port,
              snd (bind_socket net (Some conf))
              = (calls ++ [NET_BIND addr port])%list
              /\ avs_net_socket_bind net addr port <> 0).
Proof.
  intros addr; subst addr; unfold bind_socket.
  split; [reflexivity|].
  split.
  { intros Hstatic; apply Z.eqb_neq in Hstatic; rewrite Hstatic; simpl.
    rewrite decimal_not_empty, orb_true_r; simpl.
    destruct (family conf); simpl;
      destruct (avs_net_socket_bind net _ _ =? 0); reflexivity. }
  split.
  { intros port Hstatic Hlast Hport; rewrite Hstatic, Hlast; simpl.
    assert (Hne : string_empty port = false)
      by (destruct port; [congruence | reflexivity]).
    rewrite Hne.
    split; [|split].
    - intros Hbind; destruct (family conf); simpl in *; rewrite Hbind;
        reflexivity.
    - intros Hbind Hfamily; rewrite Hfamily in *; simpl in *.
      apply Z.eqb_neq in Hbind; rewrite Hbind; reflexivity.
    - intros Hbind Hfamily; apply Z.eqb_neq in Hbind.
      destruct (family conf); [congruence| |]; simpl in *; rewrite Hbind;
        simpl; destruct (avs_net_socket_bind net _ "" =? 0); reflexivity. }
  split.
  { destruct (negb (static_port_preference conf =? 0));
      [|destruct (last_local_port_buffer conf) as [port|];
        [destruct (string_empty port)|]];
      repeat match goal with
             | |- context [if ?b then _ else _] => destruct b; simpl
             end; simpl; lia. }
  destruct (negb (static_port_preference conf =? 0));
    [|destruct (last_local_port_buffer conf) as [port|];
      [destruct (string_empty port)|]];
    repeat match goal with
           | |- context [Z.eqb ?x 0] => destruct (Z.eqb_spec x 0); simpl
           | |- context [if ?b then _ else _] => destruct b; simpl
           end; auto;
    right; (split; [reflexivity|]);
    first [ eexists [], _; split; [reflexivity | eassumption]
          | eexists [_], _; split; [reflexivity | eassumption] ].
Qed.

(** A network in which binding works for the ports [bind_ok] accepts and
    the other calls answer the given statuses; the socket is found bound
    to port 49152. *)
Definition sample_net (create : Z) (bind_ok : string -> bool)
    (connect local_port errno : Z) : avs_net_t :=
  mk_net create 1252 (fun _ port => if bind_ok port then 0 else -1)
    (fun _ _ => connect) (local_port, "49152") errno.

Lemma bind_socket_policy_witness :
  bind_socket (sample_net 0 string_empty 0 0 0)
    (Some (mk_bind_config AVS_NET_AF_INET4 (Some "5683") 0))
  = (0, [NET_BIND (Some "0.0.0.0") "5683"; NET_BIND (Some "0.0.0.0") ""])
  /\ bind_socket (sample_net 0 string_empty 0 0 0)
       (Some (mk_bind_config AVS_NET_AF_INET4 (Some "5683") 5684))
     = (-1, [NET_BIND (Some "0.0.0.0") "5684"]).
Proof.
  split.
  - destruct (bind_socket_policy (sample_net 0 string_empty 0 0 0)
                (mk_bind_config AVS_NET_AF_INET4 (Some "5683") 0))
      as (_ & _ & Hlast & _).
    destruct (Hlast "5683" eq_refl eq_refl) as (_ & _ & Hretry);
      [discriminate|].
    apply Hretry; discriminate.
  - destruct (bind_socket_policy (sample_net 0 string_empty 0 0 0)
                (mk_bind_config AVS_NET_AF_INET4 (Some "5683") 5684))
      as (_ & Hstatic & _).
    apply Hstatic; discriminate.
Defined.

(** X15.  [_anjay_bind_and_connect_socket] answers 0 exactly when the
    binding and the connecting succeed, and -1 otherwise; it does not
    connect a socket that could not be bound; on failure the remembered
    port is left as it was; on success a port buffer receives the port the
    socket is bound to, or the empty text when that port cannot be read,
    which is no error. *)
Theorem bind_and_connect_socket_spec (net : avs_net_t)
    (bind_conf : option anjay_socket_bind_config_t)
    (remote_host remote_port : string) :
  let run :=
    _anjay_bind_and_connect_socket net bind_conf remote_host remote_port in
  let status := fst (fst run) in
  let calls := snd (fst run) in
  let buffer :=
    match bind_conf with
    | Some conf => last_local_port_buffer conf
    | None => None
    end in
  (status = 0 \/ status = -1)
  /\ (status = 0 <->
      fst (bind_socket net bind_conf) = 0
      /\ avs_net_socket_connect net remote_host remote_port = 0)
  /\ (fst (bind_socket net bind_conf) <> 0 ->
      calls = snd (bind_socket net bind_conf))
  /\ (status = -1 -> snd run = buffer)
  /\ (status = 0 ->
      snd run
      = match buffer with
        | Some _ =>
            Some (if fst (avs_net_socket_get_local_port net) =? 0
                  then snd (avs_net_socket_get_local_port net) else "")
        | None => None
        end).
Proof.
  intros run status calls buffer; subst run status calls.
  unfold _anjay_bind_and_connect_socket; fold buffer.
  destruct (bind_socket net bind_conf) as [bound bind_calls]; simpl fst;
    simpl snd.
  destruct (Z.eqb_spec bound 0) as [->|Hbound]; simpl.
  - destruct (Z.eqb_spec (avs_net_socket_connect net remote_host remote_port) 0)
      as [Hconnect|Hconnect]; simpl.
    + destruct buffer as [text|]; simpl.
      * destruct (avs_net_socket_get_local_port net) as [port_status port].
        simpl; destruct (port_status =? 0); simpl;
          intuition (try discriminate; try congruence).
      * intuition (try discriminate; try congruence).
    + intuition (try discriminate; try congruence).
  - intuition (try discriminate; try congruence).
Qed.

Lemma bind_and_connect_socket_spec_witness :
  _anjay_bind_and_connect_socket (sample_net 0 (fun _ => true) 0 (-1) 0)
    (Some (mk_bind_config AVS_NET_AF_UNSPEC (Some "5683") 0)) "host" "5683"
  = (0, [NET_BIND None "5683"; NET_CONNECT "host" "5683"; NET_GET_LOCAL_PORT],
     Some "").
Proof.
  pose proof (bind_and_connect_socket_spec
                (sample_net 0 (fun _ => true) 0 (-1) 0)
                (Some (mk_bind_config AVS_NET_AF_UNSPEC (Some "5683") 0))
                "host" "5683") as Hspec.
  cbv zeta in Hspec; destruct Hspec as (_ & Hok & _).
  destruct (proj2 Hok (conj eq_refl eq_refl)); reflexivity.
Defined.

(** [bind_socket] only binds, and [_anjay_bind_and_connect_socket] never
    cleans the socket up: that is left to the caller. *)
Lemma bind_socket_only_binds (net : avs_net_t)
    (bind_conf : option anjay_socket_bind_config_t) (call : avs_net_call_t) :
  In call (snd (bind_socket net bind_conf)) ->
  exists addr port, call = NET_BIND addr port.
Proof.
  unfold bind_socket.
  destruct bind_conf as [[af last static]|]; simpl; [|tauto].
  destruct (negb (static =? 0)); simpl;
    [|destruct last as [last|]; simpl;
      [destruct (string_empty last); simpl;
       [|destruct (avs_net_socket_bind net _ last =? 0); simpl]|]];
    destruct af; simpl;
    repeat match goal with
           | |- context [if ?b then _ else _] => destruct b; simpl
           end;
    intros Hin;
    repeat match goal with
           | H : _ \/ _ |- _ => destruct H as [H|H]
           | H : False |- _ => destruct H
           | H : _ = call |- _ => rewrite <- H; eauto
           end.
Qed.

Lemma bind_and_connect_socket_keeps (net : avs_net_t)
    (bind_conf : option anjay_socket_bind_config_t)
    (remote_host remote_port : string) :
  ~ In NET_CLEANUP
      (snd (fst (_anjay_bind_and_connect_socket net bind_conf
                   remote_host remote_port))).
Proof.
  unfold _anjay_bind_and_connect_socket.
  pose proof (bind_socket_only_binds net bind_conf NET_CLEANUP) as Hbind.
  destruct (bind_socket net bind_conf) as [bound calls]; simpl in Hbind.
  assert (Hcalls : ~ In NET_CLEANUP calls)
    by (intros Hin; destruct (Hbind Hin) as (a & p & Heq); discriminate).
  destruct (negb (bound =? 0)); [exact Hcalls|].
  destruct (negb (avs_net_socket_connect net remote_host remote_port =? 0)).
  - simpl; rewrite in_app_iff; simpl.
    intros [Hin|[Heq|[]]]; [tauto | discriminate].
  - destruct (match bind_conf with Some _ => _ | None => None end).
    + destruct (avs_net_socket_get_local_port net) as [status port].
      destruct (status =? 0); simpl; rewrite !in_app_iff; simpl;
        intros [[Hin|[Heq|[]]]|[Heq|[]]]; try tauto; discriminate.
    + simpl; rewrite in_app_iff; simpl.
      intros [Hin|[Heq|[]]]; [tauto | discriminate].
Qed.

(** X16.  [_anjay_create_connected_udp_socket], the error numbers of the
    platform being non-zero: for a socket type other than UDP and DTLS it
    answers [-EPROTONOSUPPORT] and makes no call; otherwise it answers 0
    exactly when creating, binding and connecting succeed, and then and
    only then leaves a socket in [*out], which is connected; on every
    failure the status is not 0, the socket is cleaned up as the last
    call, and [*out] is null. *)
Theorem create_connected_udp_socket_spec (ENOMEM EPROTO EPROTONOSUPPORT : Z)
    (net : avs_net_t) (type : avs_net_socket_type_t)
    (bind_conf : option anjay_socket_bind_config_t)
    (uri_host uri_port : string) :
  ENOMEM <> 0 -> EPROTO <> 0 -> EPROTONOSUPPORT <> 0 ->
  let run :=
    _anjay_create_connected_udp_socket ENOMEM EPROTO EPROTONOSUPPORT net type
      bind_conf uri_host uri_port in
  let status := fst (fst (fst run)) in
  let out := snd (fst (fst run)) in
  let calls := snd (fst run) in
  let supported :=
    match type with
    | AVS_NET_UDP_SOCKET | AVS_NET_DTLS_SOCKET => true
    | _ => false
    end in
  (supported = false ->
   status = - EPROTONOSUPPORT /\ out = None /\ calls = [])
  /\ (status = 0 <->
      supported = true
      /\ avs_net_socket_create net = 0
      /\ fst (fst (_anjay_bind_and_connect_socket net bind_conf
                     uri_host uri_port)) = 0)
  /\ (status = 0 ->
      out = Some (mk_socket (avs_net_new_socket net) true)
      /\ ~ In NET_CLEANUP calls)
  /\ (status <> 0 ->
      out = None
      /\ (supported = true ->
          exists before, calls = (before ++ [NET_CLEANUP])%list)).
Proof.
  intros Hnomem Hproto Hnosupport run status out calls supported.
  subst supported run status out calls.
  unfold _anjay_create_connected_udp_socket.
  pose proof (bind_and_connect_socket_keeps net bind_conf uri_host uri_port)
    as Hconnect_calls.
  assert (Hfail : forall result,
             (if result =? 0 then - EPROTO else result) <> 0).
  { intros result; destruct (Z.eqb_spec result 0); lia. }
  assert (Hcase :
    let run :=
      if negb (avs_net_socket_create net =? 0)
      then
        (if - ENOMEM =? 0 then - EPROTO else - ENOMEM,
         @None avs_net_abstract_socket_t,
         ([NET_CREATE] ++ [NET_CLEANUP])%list,
         match bind_conf with
         | Some conf => last_local_port_buffer conf
         | None => None
         end)
      else
        let '(status, calls, buffer') :=
          _anjay_bind_and_connect_socket net bind_conf uri_host uri_port in
        if negb (status =? 0)
        then
          (if - avs_net_socket_errno net =? 0
           then - EPROTO else - avs_net_socket_errno net,
           @None avs_net_abstract_socket_t,
           ((NET_CREATE :: calls) ++ [NET_CLEANUP])%list, buffer')
        else (0, Some (mk_socket (avs_net_new_socket net) true),
              NET_CREATE :: calls, buffer') in
    (fst (fst (fst run)) = 0 <->
     avs_net_socket_create net = 0
     /\ fst (fst (_anjay_bind_and_connect_socket net bind_conf
                    uri_host uri_port)) = 0)
    /\ (fst (fst (fst run)) = 0 ->
        snd (fst (fst run)) = Some (mk_socket (avs_net_new_socket net) true)
        /\ ~ In NET_CLEANUP (snd (fst run)))
    /\ (fst (fst (fst run)) <> 0 ->
        snd (fst (fst run)) = None
        /\ exists before, snd (fst run) = (before ++ [NET_CLEANUP])%list)).
  { cbv zeta.
    destruct (Z.eqb_spec (avs_net_socket_create net) 0) as [Hcreate|Hcreate];
      simpl.
    - destruct (_anjay_bind_and_connect_socket net bind_conf uri_host uri_port)
        as [[bound bind_calls] buffer'].
      simpl in Hconnect_calls |- *.
      destruct (Z.eqb_spec bound 0) as [->|Hbound]; simpl.
      + split; [tauto|].
        split; [|intros Hne; congruence].
        intros _; split; [reflexivity|].
        intros [Hin|Hin]; [discriminate | tauto].
      + pose proof (Hfail (- avs_net_socket_errno net)) as Hstatus.
        split; [split; [intros Hz; contradiction | tauto]|].
        split; [intros Hz; contradiction|].
        intros _; split; [reflexivity|].
        exists (NET_CREATE :: bind_calls); reflexivity.
    - pose proof (Hfail (- ENOMEM)) as Hstatus.
      split; [split; [intros Hz; contradiction | tauto]|].
      split; [intros Hz; contradiction|].
      intros _; split; [reflexivity|].
      exists [NET_CREATE]; reflexivity. }
  cbv zeta in Hcase; destruct Hcase as (Hzero & Hout & Hclean).
  destruct type; cbv zeta.
  - simpl; split; [auto|].
    split; [split; [lia | intros (Hsup & _); discriminate]|].
    split; [lia|].
    intros _; split; [reflexivity | discriminate].
  - split; [discriminate|].
    split; [rewrite Hzero; tauto|].
    split; [exact Hout|].
    intros Hne; destruct (Hclean Hne); auto.
  - simpl; split; [auto|].
    split; [split; [lia | intros (Hsup & _); discriminate]|].
    split; [lia|].
    intros _; split; [reflexivity | discriminate].
  - split; [discriminate|].
    split; [rewrite Hzero; tauto|].
    split; [exact Hout|].
    intros Hne; destruct (Hclean Hne); auto.
Qed.

Lemma create_connected_udp_socket_spec_witness :
  _anjay_create_connected_udp_socket 12 71 93
    (sample_net 0 (fun _ => true) (-1) 0 111) AVS_NET_UDP_SOCKET
    (Some (mk_bind_config AVS_NET_AF_INET4 (Some "5683") 0))
    "host" "5683"
  = (-111, None,
     [NET_CREATE; NET_BIND (Some "0.0.0.0") "5683"; NET_CONNECT "host" "5683";
      NET_CLEANUP],
     Some "5683").
Proof.
  pose proof (create_connected_udp_socket_spec 12 71 93
                (sample_net 0 (fun _ => true) (-1) 0 111) AVS_NET_UDP_SOCKET
                (Some (mk_bind_config AVS_NET_AF_INET4 (Some "5683") 0))
                "host" "5683") as Hspec.
  destruct Hspec as (_ & _ & _ & Hfail); try discriminate.
  destruct Hfail as (Hout & _); [discriminate|].
  reflexivity.
Defined.

(** ** Splitting a URL into path segments and query arguments
    ([utils_core.c]) *)

Inductive url_parse_chunks_hint_t : Type :=
| URL_PARSE_HINT_NONE
| URL_PARSE_HINT_SKIP_TRAILING_SEPARATOR.

Definition hint_skips (hint : url_parse_chunks_hint_t) : bool :=
  match hint with
  | URL_PARSE_HINT_SKIP_TRAILING_SEPARATOR => true
  | URL_PARSE_HINT_NONE => false
  end.

(** A pointer into a C string is shown by the text from it to the
    terminating NUL; [deref] is the character it points to. *)
Definition deref (ptr : string) : ascii :=
  match ptr with
  | EmptyString => Ascii.zero
  | String c _ => c
  end.

Section UrlParseChunks.

(** [avs_url_percent_decode] works in place: it answers a status and the
    text it leaves in the buffer. *)
Variable avs_url_percent_decode : string -> Z * string.
Variable alloc_ok : nat -> bool.
Variable delimiter : ascii.
Variable parser_terminator : ascii.
Variable hint : url_parse_chunks_hint_t.

(** The [do ... while] loop of [url_parse_chunks], [ptr] and [*url]
    pointing into the same string, so that they are equal when the texts
    from them are equally long.  [n] counts the allocations made so far;
    [out_chunks] is [None] for a null pointer.  Returns the status, [*url],
    [*out_chunks] and the count of allocations. *)
Fixpoint url_parse_chunks_loop (ptr url : string) (n : nat)
    (out_chunks : option (list string)) {struct ptr}
    : Z * string * option (list string) * nat :=
  let at_end := Ascii.eqb (deref ptr) Ascii.zero in
  let at_terminator := Ascii.eqb (deref ptr) parser_terminator in
  let go_on (url : string) (n : nat) (out_chunks : option (list string)) :=
    if at_terminator then (0, ptr, out_chunks, n)
    else if Ascii.eqb (deref url) Ascii.zero then (0, url, out_chunks, n)
    else
      match ptr with
      | String _ next => url_parse_chunks_loop next url n out_chunks
      | EmptyString => (0, url, out_chunks, n)
      end in
  if (at_end || Ascii.eqb (deref ptr) delimiter || at_terminator)
     && negb (String.length ptr =? String.length url)%nat
  then
    let chunk_len := (String.length url - String.length ptr - 1)%nat in
    if hint_skips hint && (at_end || at_terminator) && (chunk_len =? 0)%nat
    then (0, ptr, out_chunks, n)
    else
      match out_chunks with
      | Some chunks =>
          if negb (alloc_ok n) then (-1, url, out_chunks, n)
          else if negb (chunk_len =? 0)%nat then
            let '(status, chunk) :=
              avs_url_percent_decode (substring 1 chunk_len url) in
            if negb (status =? 0)
            then (-1, url, Some (chunks ++ [chunk])%list, S n)
            else go_on ptr (S n) (Some (chunks ++ [chunk])%list)
          else go_on ptr (S n) (Some (chunks ++ [""])%list)
      | None => go_on ptr n None
      end
  else go_on url n out_chunks.

Definition url_parse_chunks (url : string) (n : nat)
    (out_chunks : option (list string))
    : Z * string * option (list string) * nat :=
  url_parse_chunks_loop url url n out_chunks.

End UrlParseChunks.

(** A segment holds no NUL, no delimiter and no terminator. *)
Fixpoint plain_segment (delimiter parser_terminator : ascii) (s : string)
    : bool :=
  match s with
  | EmptyString => true
  | String c rest =>
      negb (Ascii.eqb c Ascii.zero) && negb (Ascii.eqb c delimiter)
      && negb (Ascii.eqb c parser_terminator)
      && plain_segment delimiter parser_terminator rest
  end.

(** The segments after the first, each behind a delimiter. *)
Fixpoint delimited (delimiter : ascii) (segs : list string) : string :=
  match segs with
  | [] => ""
  | s :: rest => String delimiter (s ++ delimited delimiter rest)
  end.

(** The segments that make a chunk: all of them, but for an empty last
    one under [URL_PARSE_HINT_SKIP_TRAILING_SEPARATOR]. *)
Fixpoint kept_segments (hint : url_parse_chunks_hint_t) (seg : string)
    (more : list string) : list string :=
  match more with
  | [] => if hint_skips hint && string_empty seg then [] else [seg]
  | s :: rest => seg :: kept_segments hint s rest
  end.

(** The chunk made of a segment: an empty one is not decoded. *)
Definition chunk_of (avs_url_percent_decode : string -> Z * string)
    (seg : string) : string :=
  if string_empty seg then "" else snd (avs_url_percent_decode seg).

Lemma string_app_assoc (a b c : string) :
  ((a ++ b) ++ c)%string = (a ++ b ++ c)%string.
Proof.
  induction a as [|ch a IH]; simpl; [reflexivity | now rewrite IH].
Qed.

Lemma substring_of_segment (seg rest : string) :
  substring 0 (String.length seg) (seg ++ rest) = seg.
Proof.
  induction seg as [|ch seg IH]; simpl.
  - destruct rest; reflexivity.
  - now rewrite IH.
Qed.

Lemma string_empty_length (s : string) :
  (String.length s =? 0)%nat = string_empty s.
Proof.
  destruct s; reflexivity.
Qed.

Section UrlParseChunksFacts.

Variable avs_url_percent_decode : string -> Z * string.
Variable alloc_ok : nat -> bool.
Variable delimiter : ascii.
Variable parser_terminator : ascii.
Variable hint : url_parse_chunks_hint_t.

Let loop :=
  url_parse_chunks_loop avs_url_percent_decode alloc_ok delimiter
    parser_terminator hint.

(** One pass of the loop, as the source has it. *)
Lemma url_parse_chunks_loop_pass (ptr url : string) (n : nat)
    (out_chunks : option (list string)) :
  loop ptr url n out_chunks
  = let at_end := Ascii.eqb (deref ptr) Ascii.zero in
    let at_terminator := Ascii.eqb (deref ptr) parser_terminator in
    let go_on (url : string) (n : nat) (out_chunks : option (list string)) :=
      if at_terminator then (0, ptr, out_chunks, n)
      else if Ascii.eqb (deref url) Ascii.zero then (0, url, out_chunks, n)
      else
        match ptr with
        | String _ next => loop next url n out_chunks
        | EmptyString => (0, url, out_chunks, n)
        end in
    if (at_end || Ascii.eqb (deref ptr) delimiter || at_terminator)
       && negb (String.length ptr =? String.length url)%nat
    then
      let chunk_len := (String.length url - String.length ptr - 1)%nat in
      if hint_skips hint && (at_end || at_terminator) && (chunk_len =? 0)%nat
      then (0, ptr, out_chunks, n)
      else
        match out_chunks with
        | Some chunks =>
            if negb (alloc_ok n) then (-1, url, out_chunks, n)
            else if negb (chunk_len =? 0)%nat then
              let '(status, chunk) :=
                avs_url_percent_decode (substring 1 chunk_len url) in
              if negb (status =? 0)
              then (-1, url, Some (chunks ++ [chunk])%list, S n)
              else go_on ptr (S n) (Some (chunks ++ [chunk])%list)
            else go_on ptr (S n) (Some (chunks ++ [""])%list)
        | None => go_on ptr n None
        end
    else go_on url n out_chunks.
Proof.
  destruct ptr; reflexivity.
Qed.

(** Inside a segment the loop only moves [ptr]. *)
Lemma url_parse_chunks_loop_scan (lead : ascii) (rest : string) (n : nat)
    (out_chunks : option (list string)) :
  lead <> Ascii.zero ->
  forall seg2 seg1,
    plain_segment delimiter parser_terminator seg2 = true ->
    loop (seg2 ++ rest) (String lead (seg1 ++ seg2 ++ rest)) n out_chunks
    = loop rest (String lead (seg1 ++ seg2 ++ rest)) n out_chunks.
Proof.
  intros Hlead seg2.
  induction seg2 as [|ch seg2 IH]; intros seg1 Hplain; [reflexivity|].
  simpl in Hplain.
  apply andb_true_iff in Hplain; destruct Hplain as [Hch Hplain].
  apply andb_true_iff in Hch; destruct Hch as [Hch Hterm].
  apply andb_true_iff in Hch; destruct Hch as [Hzero Hdelim].
  apply negb_true_iff in Hzero, Hdelim, Hterm.
  rewrite url_parse_chunks_loop_pass.
  cbv zeta; cbn [deref append].
  rewrite Hzero, Hdelim, Hterm; cbn [orb andb].
  apply Ascii.eqb_neq in Hlead; rewrite Hlead.
  replace (seg1 ++ String ch (seg2 ++ rest))%string
    with ((seg1 ++ String ch "") ++ seg2 ++ rest)%string
    by (rewrite string_app_assoc; reflexivity).
  apply IH; exact Hplain.
Qed.

(** A whole string of segments: the chunks are the kept segments,
    decoded, and [*url] is left at the terminator or at the end. *)
Lemma url_parse_chunks_loop_segments (rest : string) :
  delimiter <> Ascii.zero ->
  delimiter <> parser_terminator ->
  rest = "" \/ deref rest = parser_terminator ->
  forall more seg lead n chunks,
    lead <> Ascii.zero ->
    Forall (fun s => plain_segment delimiter parser_terminator s = true)
      (seg :: more) ->
    (forall s, In s (seg :: more) -> string_empty s = false ->
               fst (avs_url_percent_decode s) = 0) ->
    allocations_succeed alloc_ok n
      (List.length (kept_segments hint seg more)) = true ->
    loop (seg ++ delimited delimiter more ++ rest)
      (String lead (seg ++ delimited delimiter more ++ rest)) n (Some chunks)
    = (0, rest,
       Some (chunks
             ++ map (chunk_of avs_url_percent_decode)
                  (kept_segments hint seg more))%list,
       (n + List.length (kept_segments hint seg more))%nat).
Proof.
  intros Hdelim Hdistinct Hrest.
  induction more as [|s more IH]; intros seg lead n chunks Hlead Hplain
    Hdecode Halloc.
  - (* the last segment *)
    pose proof (url_parse_chunks_loop_scan lead rest n (Some chunks) Hlead
                  seg "" (Forall_inv Hplain)) as Hscan.
    cbn [delimited append] in *; rewrite Hscan.
    rewrite url_parse_chunks_loop_pass; cbv zeta.
    assert (Hstop : Ascii.eqb (deref rest) Ascii.zero
                    || Ascii.eqb (deref rest) parser_terminator = true).
    { destruct Hrest as [->| <-]; [reflexivity|].
      rewrite Ascii.eqb_refl; apply orb_true_r. }
    assert (Hcond : Ascii.eqb (deref rest) Ascii.zero
                    || Ascii.eqb (deref rest) delimiter
                    || Ascii.eqb (deref rest) parser_terminator = true).
    { apply orb_true_iff in Hstop; destruct Hstop as [-> | ->];
        [reflexivity | apply orb_true_r]. }
    assert (Hgo : forall out k,
      (if Ascii.eqb (deref rest) parser_terminator
       then (0, rest, out, k)
       else if Ascii.eqb (deref rest) Ascii.zero
            then (0, rest, out, k)
            else match rest with
                 | String _ next => loop next rest k out
                 | EmptyString => (0, rest, out, k)
                 end)
      = (0, rest, out, k)).
    { intros out k; apply orb_true_iff in Hstop.
      destruct (Ascii.eqb (deref rest) parser_terminator); [reflexivity|].
      destruct Hstop as [-> | Hfalse]; [reflexivity | discriminate]. }
    rewrite Hcond, Hstop; cbn [andb String.length].
    rewrite string_length_app.
    replace (String.length rest =? S (String.length seg + String.length rest))%nat
      with false by (symmetry; apply Nat.eqb_neq; lia).
    replace (S (String.length seg + String.length rest) - String.length rest
             - 1)%nat with (String.length seg) by lia.
    rewrite string_empty_length; cbn [negb andb].
    rewrite andb_true_r.
    cbn [kept_segments] in Halloc |- *.
    destruct (hint_skips hint && string_empty seg) eqn:Hskip.
    + simpl; rewrite app_nil_r, Nat.add_0_r; reflexivity.
    + unfold allocations_succeed in Halloc; simpl in Halloc.
      rewrite andb_true_r in Halloc; rewrite Halloc; cbn [negb].
      unfold chunk_of; cbn [map List.length].
      replace (n + 1)%nat with (S n) by lia.
      destruct (string_empty seg) eqn:Hempty; cbn [negb].
      * rewrite Hgo; reflexivity.
      * cbn [substring]; rewrite substring_of_segment.
        pose proof (Hdecode seg (or_introl eq_refl) Hempty) as Hok.
        destruct (avs_url_percent_decode seg) as [status chunk].
        simpl in Hok; subst status; cbn [Z.eqb negb snd].
        rewrite Hgo; reflexivity.
  - (* a segment before a delimiter *)
    cbn [delimited append]; rewrite string_app_assoc.
    set (tail := (s ++ delimited delimiter more ++ rest)%string).
    pose proof (url_parse_chunks_loop_scan lead (String delimiter tail) n
                  (Some chunks) Hlead seg "" (Forall_inv Hplain)) as Hscan.
    cbn [append] in Hscan; rewrite Hscan.
    rewrite url_parse_chunks_loop_pass; cbv zeta.
    cbn [deref].
    apply Ascii.eqb_neq in Hdelim; rewrite Hdelim.
    rewrite Ascii.eqb_refl.
    apply Ascii.eqb_neq in Hdistinct; rewrite Hdistinct.
    cbn [orb andb String.length].
    rewrite string_length_app; cbn [String.length].
    replace (S (String.length tail)
             =? S (String.length seg + S (String.length tail)))%nat
      with false by (symmetry; apply Nat.eqb_neq; lia).
    replace (S (String.length seg + S (String.length tail))
             - S (String.length tail) - 1)%nat
      with (String.length seg) by lia.
    rewrite string_empty_length, andb_false_r; cbn [negb andb].
    cbn [kept_segments] in Halloc |- *.
    unfold allocations_succeed in Halloc; cbn [List.length seq forallb] in Halloc.
    apply andb_true_iff in Halloc; destruct Halloc as [Hfirst Halloc].
    rewrite Hfirst; cbn [negb].
    assert (Hnext : forall chunk,
      loop tail (String delimiter tail) (S n)
        (Some (chunks ++ [chunk])%list)
      = (0, rest,
         Some (chunks
               ++ chunk :: map (chunk_of avs_url_percent_decode)
                             (kept_segments hint s more))%list,
         (n + S (List.length (kept_segments hint s more)))%nat)).
    { intros chunk; unfold tail.
      rewrite IH.
      - rewrite <- app_assoc, Nat.add_succ_r; reflexivity.
      - apply Ascii.eqb_neq; exact Hdelim.
      - exact (Forall_inv_tail Hplain).
      - intros s' Hin; apply Hdecode; right; exact Hin.
      - exact Halloc. }
    cbn [map List.length]; unfold chunk_of at 1.
    destruct (string_empty seg) eqn:Hempty; cbn [negb].
    + apply Hnext.
    + cbn [substring]; rewrite substring_of_segment.
      pose proof (Hdecode seg (or_introl eq_refl) Hempty) as Hok.
      destruct (avs_url_percent_decode seg) as [status chunk].
      simpl in Hok; subst status; cbn [Z.eqb negb snd].
      apply Hnext.
Qed.

End UrlParseChunksFacts.

(** The first pass over a string that opens with a character that is no
    terminator only steps over that character. *)
Lemma url_parse_chunks_first_pass
    (avs_url_percent_decode : string -> Z * string) (alloc_ok : nat -> bool)
    (delimiter parser_terminator : ascii) (hint : url_parse_chunks_hint_t)
    (lead : ascii) (body : string) (n : nat)
    (out_chunks : option (list string)) :
  lead <> Ascii.zero ->
  lead <> parser_terminator ->
  url_parse_chunks avs_url_percent_decode alloc_ok delimiter
    parser_terminator hint (String lead body) n out_chunks
  = url_parse_chunks_loop avs_url_percent_decode alloc_ok delimiter
      parser_terminator hint body (String lead body) n out_chunks.
Proof.
  intros Hlead Hterm; unfold url_parse_chunks.
  rewrite url_parse_chunks_loop_pass; cbv zeta; cbn [deref].
  rewrite Nat.eqb_refl, andb_false_r.
  apply Ascii.eqb_neq in Hlead, Hterm; rewrite Hlead, Hterm; reflexivity.
Qed.


(** X17.  [url_parse_chunks] splits at the delimiters.  Called at a
    separator that is followed by segments free of NUL, delimiter and
    terminator, themselves followed by the terminator or the end of the
    string, it appends, as long as the allocations and the decoding
    succeed, one decoded chunk for each segment, in order, an empty chunk
    for an empty segment; under
    [URL_PARSE_HINT_SKIP_TRAILING_SEPARATOR] an empty last segment gives
    no chunk.  It answers 0 and leaves [*url] at the terminator or the
    end. *)
Theorem url_parse_chunks_segments
    (avs_url_percent_decode : string -> Z * string) (alloc_ok : nat -> bool)
    (delimiter parser_terminator : ascii) (hint : url_parse_chunks_hint_t)
    (lead : ascii) (seg : string) (more : list string) (rest : string)
    (n : nat) (chunks : list string) :
  lead <> Ascii.zero ->
  lead <> parser_terminator ->
  delimiter <> Ascii.zero ->
  delimiter <> parser_terminator ->
  rest = "" \/ deref rest = parser_terminator ->
  Forall (fun s => plain_segment delimiter parser_terminator s = true)
    (seg :: more) ->
  (forall s, In s (seg :: more) -> string_empty s = false ->
             fst (avs_url_percent_decode s) = 0) ->
  allocations_succeed alloc_ok n
    (List.length (kept_segments hint seg more)) = true ->
  url_parse_chunks avs_url_percent_decode alloc_ok delimiter
    parser_terminator hint
    (String lead (seg ++ delimited delimiter more ++ rest)) n (Some chunks)
  = (0, rest,
     Some (chunks
           ++ map (chunk_of avs_url_percent_decode)
                (kept_segments hint seg more))%list,
     (n + List.length (kept_segments hint seg more))%nat).
Proof.
  intros Hlead Hlead_term Hdelim Hdistinct Hrest Hplain Hdecode Halloc.
  rewrite url_parse_chunks_first_pass by assumption.
  apply url_parse_chunks_loop_segments; assumption.
Qed.

Lemma url_parse_chunks_segments_witness :
  url_parse_chunks (fun s => (0, s)) (fun _ => true) "/"%char "?"%char
    URL_PARSE_HINT_SKIP_TRAILING_SEPARATOR "/rd/1/?a=b" 0 (Some [])
  = (0, "?a=b", Some ["rd"; "1"], 2%nat).
Proof.
  apply (url_parse_chunks_segments (fun s => (0, s)) (fun _ => true)
           "/"%char "?"%char URL_PARSE_HINT_SKIP_TRAILING_SEPARATOR
           "/"%char "rd" ["1"; ""] "?a=b" 0%nat []).
  - discriminate.
  - discriminate.
  - discriminate.
  - discriminate.
  - right; reflexivity.
  - repeat constructor.
  - reflexivity.
  - reflexivity.
Defined.

(** The status of [url_parse_chunks] is 0 or -1, and a list it is given
    stays a list. *)
Lemma url_parse_chunks_loop_status
    (avs_url_percent_decode : string -> Z * string) (alloc_ok : nat -> bool)
    (delimiter parser_terminator : ascii) (hint : url_parse_chunks_hint_t)
    (ptr : string) :
  forall url n chunks,
    let run :=
      url_parse_chunks_loop avs_url_percent_decode alloc_ok delimiter
        parser_terminator hint ptr url n (Some chunks) in
    (fst (fst (fst run)) = 0 \/ fst (fst (fst run)) = -1)
    /\ snd (fst run) <> None.
Proof.
  induction ptr as [|ch ptr IH]; intros url n chunks; cbv zeta;
    rewrite url_parse_chunks_loop_pass; cbv zeta;
    repeat match goal with
           | |- context [let '(_, _) := ?p in _] => destruct p
           | |- context [if ?b then _ else _] => destruct b
           end;
    simpl; try (split; [auto | discriminate]); apply IH.
Qed.

(** ** Parsing a URL ([utils_core.c]) *)

Inductive anjay_url_protocol_t : Type :=
| ANJAY_URL_PROTOCOL_COAP
| ANJAY_URL_PROTOCOL_COAPS.

Record anjay_url_t : Type := mk_url {
  protocol : anjay_url_protocol_t;
  host : string;
  port : string;
  uri_path : list string;
  uri_query : list string
}.

(** What avs_commons makes of a URL; [None] is a null pointer. *)
Record avs_url_t : Type := mk_avs_url {
  avs_url_protocol : string;
  avs_url_user : option string;
  avs_url_password : option string;
  avs_url_host : option string;
  avs_url_port : option string;
  avs_url_path : option string
}.

(** Returns the status and the text in [out]. *)
Definition copy_string (out : string) (out_size : Z) (input : option string)
    : Z * string :=
  match input with
  | None => (-1, out)
  | Some text =>
      if Z.of_nat (String.length text) >=? out_size then (-1, out)
      else (0, text)
  end.

Definition copy_nullable_string (out : string) (out_size : Z)
    (input : option string) : Z * string :=
  match input with
  | None => (0, "")
  | Some _ => copy_string out out_size input
  end.

Definition _anjay_url_cleanup (url : anjay_url_t) : anjay_url_t :=
  mk_url (protocol url) (host url) (port url) [] [].

(** The list behind a pointer to a list. *)
Definition chunks_of (out_chunks : option (list string)) : list string :=
  match out_chunks with
  | Some chunks => chunks
  | None => []
  end.

Section ParseUrl.

Variable avs_url_parse : string -> option avs_url_t.
Variable avs_strcasecmp : string -> string -> Z.
Variable avs_url_percent_decode : string -> Z * string.
Variable alloc_ok : nat -> bool.

(** The sizes of the [host] and [port] arrays of [anjay_url_t]. *)
Variable ANJAY_MAX_URL_HOSTNAME_SIZE : Z.
Variable ANJAY_MAX_URL_PORT_SIZE : Z.

(** The path and the query of [_anjay_parse_url], from [path_ptr].
    Returns the status and the two lists. *)
Definition parse_path_and_query (path_ptr : string)
    (path query : list string) : Z * list string * list string :=
  let '(result, path_ptr, path_chunks, n) :=
    url_parse_chunks avs_url_percent_decode alloc_ok "/"%char "?"%char
      URL_PARSE_HINT_SKIP_TRAILING_SEPARATOR path_ptr 0 (Some path) in
  if (result =? 0) && Ascii.eqb (deref path_ptr) "?"%char then
    let '(result, _, query_chunks, _) :=
      url_parse_chunks avs_url_percent_decode alloc_ok "&"%char Ascii.zero
        URL_PARSE_HINT_NONE path_ptr n (Some query) in
    (result, chunks_of path_chunks, chunks_of query_chunks)
  else (result, chunks_of path_chunks, query).

(** Returns the status and [*out_parsed_url]. *)
Definition _anjay_parse_url (raw_url : string) (out_parsed_url : anjay_url_t)
    : Z * anjay_url_t :=
  match avs_url_parse raw_url with
  | None => (-1, out_parsed_url)
  | Some avs_url =>
      let out := out_parsed_url in
      let result :=
        match avs_url_user avs_url, avs_url_password avs_url with
        | None, None => 0
        | _, _ => -1
        end in
      let '(result, out) :=
        if result =? 0 then
          if avs_strcasecmp (avs_url_protocol avs_url) "coap" =? 0 then
            (0, mk_url ANJAY_URL_PROTOCOL_COAP (host out) (port out)
                  (uri_path out) (uri_query out))
          else if avs_strcasecmp (avs_url_protocol avs_url) "coaps" =? 0 then
            (0, mk_url ANJAY_URL_PROTOCOL_COAPS (host out) (port out)
                  (uri_path out) (uri_query out))
          else (-1, out)
        else (result, out) in
      let '(result, out) :=
        if negb (result =? 0) then (result, out)
        else
          let '(result, text) :=
            copy_string (host out) ANJAY_MAX_URL_HOSTNAME_SIZE
              (avs_url_host avs_url) in
          let out :=
            mk_url (protocol out) text (port out) (uri_path out)
              (uri_query out) in
          if negb (result =? 0) then (result, out)
          else
            let '(result, text) :=
              copy_nullable_string (port out) ANJAY_MAX_URL_PORT_SIZE
                (avs_url_port avs_url) in
            (result,
             mk_url (protocol out) (host out) text (uri_path out)
               (uri_query out)) in
      let '(result, out) :=
        if result =? 0 then
          match avs_url_path avs_url with
          | Some path_ptr =>
              let '(result, path, query) :=
                parse_path_and_query path_ptr (uri_path out) (uri_query out) in
              (result, mk_url (protocol out) (host out) (port out) path query)
          | None => (result, out)
          end
        else (result, out) in
      if negb (result =? 0) then (result, _anjay_url_cleanup out)
      else (result, out)
  end.

End ParseUrl.

Lemma parse_path_and_query_status
    (avs_url_percent_decode : string -> Z * string) (alloc_ok : nat -> bool)
    (path_ptr : string) (path query : list string) :
  let result :=
    fst (fst (parse_path_and_query avs_url_percent_decode alloc_ok path_ptr
                path query)) in
  result = 0 \/ result = -1.
Proof.
  cbv zeta; unfold parse_path_and_query, url_parse_chunks.
  pose proof (url_parse_chunks_loop_status avs_url_percent_decode alloc_ok
                "/"%char "?"%char URL_PARSE_HINT_SKIP_TRAILING_SEPARATOR
                path_ptr path_ptr 0%nat path) as Hpath.
  cbv zeta in Hpath.
  destruct (url_parse_chunks_loop _ _ "/"%char _ _ _ _ _ _)
    as [[[result rest] path_chunks] n].
  simpl in Hpath; destruct Hpath as [Hpath _].
  destruct ((result =? 0) && Ascii.eqb (deref rest) "?"%char);
    [|exact Hpath].
  pose proof (url_parse_chunks_loop_status avs_url_percent_decode alloc_ok
                "&"%char Ascii.zero URL_PARSE_HINT_NONE rest rest n query)
    as Hquery.
  cbv zeta in Hquery.
  destruct (url_parse_chunks_loop _ _ "&"%char _ _ _ _ _ _)
    as [[[result' rest'] query_chunks] n'].
  simpl in Hquery |- *; tauto.
Qed.

(** X18.  [_anjay_parse_url], called as asserted with empty path and
    query lists, answers 0 or -1.  After a failure both lists are empty
    again, whatever had been parsed.  It succeeds only on a URL that
    avs_commons can parse, that has neither user nor password, whose
    protocol is [coap] or [coaps] for [avs_strcasecmp], whose host is
    present and fits the [host] array together with its NUL, and whose
    port, if any, fits the [port] array; the host and port are then
    stored, an absent port as the empty text. *)
Theorem parse_url_outcomes (avs_url_parse : string -> option avs_url_t)
    (avs_strcasecmp : string -> string -> Z)
    (avs_url_percent_decode : string -> Z * string) (alloc_ok : nat -> bool)
    (ANJAY_MAX_URL_HOSTNAME_SIZE ANJAY_MAX_URL_PORT_SIZE : Z)
    (raw_url : string) (out_parsed_url : anjay_url_t) :
  uri_path out_parsed_url = [] ->
  uri_query out_parsed_url = [] ->
  let run :=
    _anjay_parse_url avs_url_parse avs_strcasecmp avs_url_percent_decode
      alloc_ok ANJAY_MAX_URL_HOSTNAME_SIZE ANJAY_MAX_URL_PORT_SIZE raw_url
      out_parsed_url in
  (fst run = 0 \/ fst run = -1)
  /\ (fst run <> 0 ->
      uri_path (snd run) = [] /\ uri_query (snd run) = [])
  /\ (fst run = 0 ->
      exists avs_url,
        avs_url_parse raw_url = Some avs_url
        /\ avs_url_user avs_url = None
        /\ avs_url_password avs_url = None
        /\ (if avs_strcasecmp (avs_url_protocol avs_url) "coap" =? 0
            then protocol (snd run) = ANJAY_URL_PROTOCOL_COAP
            else avs_strcasecmp (avs_url_protocol avs_url) "coaps" = 0
                 /\ protocol (snd run) = ANJAY_URL_PROTOCOL_COAPS)
        /\ avs_url_host avs_url = Some (host (snd run))
        /\ Z.of_nat (String.length (host (snd run)))
           < ANJAY_MAX_URL_HOSTNAME_SIZE
        /\ match avs_url_port avs_url with
           | Some text =>
               port (snd run) = text
               /\ Z.of_nat (String.length text) < ANJAY_MAX_URL_PORT_SIZE
           | None => port (snd run) = ""
           end).
Proof.
  intros Hpath Hquery run; subst run; unfold _anjay_parse_url.
  destruct (avs_url_parse raw_url) as [avs_url|]; simpl.
  2: { split; [auto|]. split; [auto | discriminate]. }
  assert (Hfailed : forall out,
    (-1 = 0 \/ -1 = -1)
    /\ (-1 <> 0 ->
        uri_path (_anjay_url_cleanup out) = []
        /\ uri_query (_anjay_url_cleanup out) = [])
    /\ (-1 = 0 -> False)) by (intros out; repeat split; auto; discriminate).
  destruct (avs_url_user avs_url) as [user|] eqn:Huser;
    [|destruct (avs_url_password avs_url) as [password|] eqn:Hpassword];
    simpl.
  1, 2: split; [auto|]; split; [auto | discriminate].
  destruct (Z.eqb_spec (avs_strcasecmp (avs_url_protocol avs_url) "coap") 0)
    as [Hcoap|Hcoap];
    [|destruct (Z.eqb_spec (avs_strcasecmp (avs_url_protocol avs_url) "coaps")
                  0) as [Hcoaps|Hcoaps]];
    simpl.
  3: split; [auto|]; split; [auto | discriminate].
  all: unfold copy_string, copy_nullable_string.
  all: destruct (avs_url_host avs_url) as [host_text|] eqn:Hhost; simpl;
    [|split; [auto|]; split; [auto | discriminate]].
  all: destruct (Z.of_nat (String.length host_text)
                 >=? ANJAY_MAX_URL_HOSTNAME_SIZE) eqn:Hfits; simpl;
    [split; [auto|]; split; [auto | discriminate]|].
  all: rewrite Z.geb_leb in Hfits; apply Z.leb_gt in Hfits.
  all: destruct (avs_url_port avs_url) as [port_text|] eqn:Hport; simpl;
    [destruct (Z.of_nat (String.length port_text)
               >=? ANJAY_MAX_URL_PORT_SIZE) eqn:Hport_fits; simpl;
     [split; [auto|]; split; [auto | discriminate]
     |rewrite Z.geb_leb in Hport_fits; apply Z.leb_gt in Hport_fits]|].
  all: destruct (avs_url_path avs_url) as [path_ptr|]; simpl.
  all: try (pose proof (parse_path_and_query_status avs_url_percent_decode
                          alloc_ok path_ptr (uri_path out_parsed_url)
                          (uri_query out_parsed_url)) as Hstatus;
            cbv zeta in Hstatus;
            destruct (parse_path_and_query _ _ path_ptr _ _)
              as [[result path] query];
            simpl in Hstatus; destruct Hstatus as [-> | ->]; simpl).
  all: split; [auto|]; split;
    [first [intros _; split; reflexivity | intros Hne; congruence]|].
  all: first [discriminate | intros _; exists avs_url].
  all: rewrite ?Huser, ?Hpassword, ?Hport.
  all: repeat split; try reflexivity; try assumption.
  all: destruct (Z.eqb_spec
                   (avs_strcasecmp (avs_url_protocol avs_url) "coap") 0);
    first [reflexivity | contradiction | split; [assumption | reflexivity]].
Qed.

Lemma parse_url_outcomes_witness :
  _anjay_parse_url
    (fun _ => Some (mk_avs_url "coap" None None (Some "host") None
                      (Some "/rd/1")))
    (fun a b => if String.eqb a b then 0 else 1) (fun s => (0, s))
    (fun k => (k <? 1)%nat) 65 6 "coap://host/rd/1"
    (mk_url ANJAY_URL_PROTOCOL_COAPS "" "" [] [])
  = (-1, mk_url ANJAY_URL_PROTOCOL_COAP "host" "" [] []).
Proof.
  pose proof (parse_url_outcomes
                (fun _ => Some (mk_avs_url "coap" None None (Some "host") None
                                  (Some "/rd/1")))
                (fun a b => if String.eqb a b then 0 else 1)
                (fun s => (0, s)) (fun k => (k <? 1)%nat) 65 6
                "coap://host/rd/1"
                (mk_url ANJAY_URL_PROTOCOL_COAPS "" "" [] [])
                eq_refl eq_refl) as Hspec.
  cbv zeta in Hspec; destruct Hspec as (_ & Hfailed & _).
  destruct Hfailed as [Hpath Hquery]; [discriminate|].
  reflexivity.
Defined.







(** ** Carrying out a registration action (second part of
    [utils_core.c]) *)

Section RegistrationAction.

Variable ANJAY_REGISTRATION_UPDATE_REJECTED : Z.
Variable AVS_COAP_CTX_ERR_NETWORK : Z.
Variable ext : anjay_collaborators_t.

(** The status of [_anjay_registration_update_ctx_init] for an entry. *)
Variable _anjay_registration_update_ctx_init : anjay_server_info_t -> Z.

(** The enumerators as [int], and the casts back from [int]. *)
Variable update_result_int : anjay_update_result_t -> Z.
Variable update_result_of_int : Z -> anjay_update_result_t.
Variable registration_result_int : anjay_registration_result_t -> Z.
Variable registration_result_of_int : Z -> anjay_registration_result_t.






End RegistrationAction.












(** ** Forcing a re-registration after a change of the socket
    ([servers_utils.c]) *)

Section ScheduleSocketUpdate.

(** The status of [_anjay_ssid_from_security_iid] and the SSID it
    finds. *)
Variable _anjay_ssid_from_security_iid : anjay_t -> Z -> Z * Z.

(** The status of [anjay_disable_server_with_timeout]. *)
Variable anjay_disable_server_with_timeout :
  anjay_t -> Z -> avs_time_duration_t -> Z.

(** Returns the status and the client as it is handed to
    [anjay_disable_server_with_timeout]. *)
Definition _anjay_schedule_socket_update (anjay : anjay_t) (security_iid : Z)
    : Z * anjay_t :=
  let '(status, ssid) := _anjay_ssid_from_security_iid anjay security_iid in
  if status =? 0 then
    match _anjay_servers_find_active anjay ssid with
    | Some server =>
        let '(server, _) :=
          _anjay_server_update_registration_info anjay server MOVE_NULL
            (MOVE_FROM (mk_update_parameters (-1) "")) in
        let anjay :=
          set_servers anjay (store_active (servers anjay) ssid server) in
        (anjay_disable_server_with_timeout anjay ssid AVS_TIME_DURATION_ZERO,
         anjay)
    | None => (0, anjay)
    end
  else (0, anjay).

End ScheduleSocketUpdate.

(** A lifetime of -1 leaves no time, whatever the clock shows. *)
Lemma negative_lifetime_remaining (anjay : anjay_t) :
  let remaining :=
    avs_time_real_diff (get_registration_expire_time anjay (-1))
      (clock anjay) in
  avs_time_duration_valid remaining = false \/ to_ns remaining <= 0.
Proof.
  cbv zeta.
  destruct (avs_time_real_valid (clock anjay)) eqn:Hclock.
  - destruct (in_int64 (seconds (since_real_epoch (clock anjay)) + -1))
      eqn:Hsum.
    + right; rewrite (expire_time_remaining anjay (-1) Hclock eq_refl Hsum).
      vm_compute; discriminate.
    + left; unfold get_registration_expire_time, avs_time_real_add.
      rewrite Hclock, (from_scalar_seconds (-1) eq_refl); simpl.
      unfold avs_time_real_valid in Hclock.
      apply duration_valid_bounds in Hclock as Hbounds.
      rewrite normalize_out_of_range.
      * reflexivity.
      * rewrite Z.add_0_r, Z.div_small by lia.
        rewrite Z.add_0_r; exact Hsum.
  - left; unfold get_registration_expire_time, avs_time_real_add.
    rewrite Hclock; reflexivity.
Qed.

(** X22.  [_anjay_schedule_socket_update] does nothing and answers 0
    when the Security instance has no SSID or no active entry has that
    SSID.  Otherwise the entry reaches
    [anjay_disable_server_with_timeout] with the lifetime -1 and with a
    registration that counts as expired whatever the clock shows, its
    endpoint path, connections and pending job kept; the answer is that
    of the disabling. *)
Theorem schedule_socket_update_expires
    (ssid_from_security_iid : anjay_t -> Z -> Z * Z)
    (disable_server_with_timeout : anjay_t -> Z -> avs_time_duration_t -> Z)
    (anjay : anjay_t) (security_iid : Z) :
  let run :=
    _anjay_schedule_socket_update ssid_from_security_iid
      disable_server_with_timeout anjay security_iid in
  let lookup := ssid_from_security_iid anjay security_iid in
  (fst lookup <> 0 -> run = (0, anjay))
  /\ (_anjay_servers_find_active anjay (snd lookup) = None ->
      run = (0, anjay))
  /\ (forall server,
        fst lookup = 0 ->
        _anjay_servers_find_active anjay (snd lookup) = Some server ->
        exists server',
          servers (snd run)
          = store_active (servers anjay) (snd lookup) server'
          /\ fst run
             = disable_server_with_timeout (snd run) (snd lookup)
                 AVS_TIME_DURATION_ZERO
          /\ _anjay_server_registration_expired (snd run) server' = true
          /\ lifetime_s
               (last_update_params (registration_info (data_active server')))
             = -1
          /\ endpoint_path (registration_info (data_active server'))
             = endpoint_path (registration_info (data_active server))
          /\ udp_connection (data_active server')
             = udp_connection (data_active server)
          /\ sms_connection (data_active server')
             = sms_connection (data_active server)
          /\ ssid server' = ssid server
          /\ next_action_handle server' = next_action_handle server).
Proof.
  intros run lookup; subst run lookup; unfold _anjay_schedule_socket_update.
  destruct (ssid_from_security_iid anjay security_iid) as [status id];
    cbn [fst snd].
  split; [|split].
  - intros Hstatus; apply Z.eqb_neq in Hstatus; rewrite Hstatus; reflexivity.
  - intros ->; destruct (status =? 0); reflexivity.
  - intros server -> ->; cbn [Z.eqb].
    unfold _anjay_server_update_registration_info; cbn [fst snd].
    eexists; split; [reflexivity|].
    split; [reflexivity|].
    split; [|repeat split].
    apply registration_expired_by_remaining.
    apply (negative_lifetime_remaining anjay).
Qed.

Lemma schedule_socket_update_expires_witness :
  let run :=
    _anjay_schedule_socket_update (fun _ iid => (0, iid + 1))
      (fun _ _ _ => 0)
      (sample_anjay [sample_server 3 (Some (mk_socket 9 true)) 60 100 None]
         40 93) 2 in
  exists server',
    servers (snd run) = [server']
    /\ _anjay_server_registration_expired (snd run) server' = true.
Proof.
  pose proof (schedule_socket_update_expires (fun _ iid => (0, iid + 1))
                (fun _ _ _ => 0)
                (sample_anjay
                   [sample_server 3 (Some (mk_socket 9 true)) 60 100 None]
                   40 93) 2) as Hspec.
  cbv zeta in Hspec |- *.
  destruct Hspec as (_ & _ & Hfound).
  destruct (Hfound (sample_server 3 (Some (mk_socket 9 true)) 60 100 None)
              eq_refl eq_refl)
    as (server' & Hservers & _ & Hexpired & _).
  exists server'; split; [exact Hservers | exact Hexpired].
Defined.

(** ** The deterministic generator of the tests ([utils_core.c], under
    [ANJAY_TEST]) *)

Definition UINT32_MODULUS : Z := 4294967296.

(** Returns the value and the seed left in [*seed]; the arithmetic is
    that of [uint32_t]. *)
Definition _anjay_rand32 (seed : Z) : Z * Z :=
  let value := (1103515245 * seed + 12345) mod UINT32_MODULUS in
  (value, value).

(** The seed that gives a value. *)
Definition rand32_seed_before (value : Z) : Z :=
  (4005161829 * (value - 12345)) mod UINT32_MODULUS.

(** X23.  The generator of the tests loses nothing: on a 32-bit seed
    [_anjay_rand32] answers a 32-bit value, leaves it as the next seed,
    and the seed it was called with can be computed back from the value,
    so different seeds give different values. *)
Theorem rand32_is_invertible (seed : Z) :
  0 <= seed < UINT32_MODULUS ->
  let run := _anjay_rand32 seed in
  0 <= fst run < UINT32_MODULUS
  /\ snd run = fst run
  /\ rand32_seed_before (fst run) = seed
  /\ (forall other, 0 <= other < UINT32_MODULUS ->
                    fst (_anjay_rand32 other) = fst run -> other = seed).
Proof.
  intros Hseed; cbv zeta.
  assert (Hmodulus : 0 < UINT32_MODULUS) by reflexivity.
  assert (Hback : forall s, 0 <= s < UINT32_MODULUS ->
                            rand32_seed_before (fst (_anjay_rand32 s)) = s).
  { intros s Hs; unfold rand32_seed_before, _anjay_rand32; cbn [fst].
    rewrite <- Z.mul_mod_idemp_r by discriminate.
    rewrite Zminus_mod_idemp_l.
    replace (1103515245 * s + 12345 - 12345) with (1103515245 * s) by lia.
    rewrite Z.mul_mod_idemp_r by discriminate.
    rewrite Z.mul_assoc, <- Z.mul_mod_idemp_l by discriminate.
    change ((4005161829 * 1103515245) mod UINT32_MODULUS) with 1.
    rewrite Z.mul_1_l; apply Z.mod_small; exact Hs. }
  split; [apply Z.mod_pos_bound; exact Hmodulus|].
  split; [reflexivity|].
  split; [apply Hback; exact Hseed|].
  intros other Hother Hsame.
  rewrite <- (Hback other Hother), Hsame; apply Hback; exact Hseed.
Qed.

Lemma rand32_is_invertible_witness :
  _anjay_rand32 4294967295 = (3191464396, 3191464396)
  /\ rand32_seed_before 3191464396 = 4294967295.
Proof.
  destruct (rand32_is_invertible 4294967295) as (_ & _ & Hback & _).
  - split; [discriminate | reflexivity].
  - split; [reflexivity | exact Hback].
Defined.
